(** * Vendor automation: mapping, validation, reconciliation and ingestion

    A shallow embedding of the deterministic core of the vendor
    automation pipeline (mapper.py, validator.py, cross_field_validator.py,
    semantic_validator.py, validation_pipeline.py, reconciler.py,
    ingestion_pipeline.py, metadata_store.py) and the properties its
    specification states about it.

    Python values are a small tagged union, dictionaries with string keys
    are finite maps, exceptions are an explicit error result, and the
    metadata store is threaded as explicit state.  Functions of the Python
    runtime and of its standard library whose semantics is not part of
    this repository (regular expressions, float parsing and printing,
    operator dispatch, digests) are the fields of [PyRuntime]; every
    theorem holds for all of them.

    Scope of the model: text is ASCII (case mapping and stripping follow
    Python on ASCII characters); a text or an integer has fewer than
    10^18 characters or digits; the writes of the store do not fail; the
    clock is read once per call; a list of rows is a list of values, each
    row owning its dicts and its list of violations, as the rows built by
    the pipeline and read back from the store do. *)

From Stdlib Require Import ZArith Floats String Ascii List.
From stdpp Require Import base option list gmap strings pretty sorting.

Local Open Scope string_scope.
Local Open Scope Z_scope.
Local Set Warnings "-register-all".

(** ** Exceptions and results *)

(** The classes of the [Exception] hierarchy the modelled code can meet.
    Asynchronous interrupts ([KeyboardInterrupt], [SystemExit]) are not
    modelled, so [except Exception] catches every [exn]. *)
Inductive exn_class :=
| TypeError | ValueError | NameError | SyntaxError | ZeroDivisionError
| OverflowError | InvalidOperation | IndexError | ReError | OtherError.

Record exn := Exn { exn_cls : exn_class; exn_msg : string }.

Inductive result (A : Type) :=
| Return (a : A)
| Raise (e : exn).
Arguments Return {A} a.
Arguments Raise {A} e.

(** Sequencing: an exception raised by [m] skips [f]. *)
Definition bind {A B} (m : result A) (f : A -> result B) : result B :=
  match m with
  | Return a => f a
  | Raise e => Raise e
  end.

Notation "'let!' x ':=' m 'in' k" := (bind m (fun x => k))
  (at level 10, x pattern, m at level 100, k at level 200).

(** [for a in l: b = f b a], stopping at the first exception. *)
Fixpoint foldM {A B} (f : B -> A -> result B) (b : B) (l : list A) : result B :=
  match l with
  | [] => Return b
  | a :: l' => let! b' := f b a in foldM f b' l'
  end.

#[global] Instance exn_class_eq_dec : EqDecision exn_class.
Proof. solve_decision. Defined.

(** [except (ValueError, TypeError)] *)
Definition is_ValueError_or_TypeError (e : exn) : bool :=
  match exn_cls e with
  | ValueError | TypeError => true
  | _ => false
  end.

(** ** Python values *)

Inductive value :=
| VNone
| VBool (b : bool)
| VInt (z : Z)
| VFloat (f : float)
| VStr (s : string)
| VList (l : list value)
| VDict (items : list (string * value)).

(** A [dict] with string keys, as a finite map. *)
Abbreviation pydict := (gmap string value).

(** ** Text *)

(** [str] methods on ASCII text. *)

Definition is_space (c : ascii) : bool :=
  let n := nat_of_ascii c in
  ((9 <=? n)%nat && (n <=? 13)%nat) || ((28 <=? n)%nat && (n <=? 32)%nat).

Definition is_upper (c : ascii) : bool :=
  let n := nat_of_ascii c in (65 <=? n)%nat && (n <=? 90)%nat.

Definition is_lower (c : ascii) : bool :=
  let n := nat_of_ascii c in (97 <=? n)%nat && (n <=? 122)%nat.

Definition is_digit (c : ascii) : bool :=
  let n := nat_of_ascii c in (48 <=? n)%nat && (n <=? 57)%nat.

Definition lower_char (c : ascii) : ascii :=
  if is_upper c then ascii_of_nat (nat_of_ascii c + 32) else c.

Definition upper_char (c : ascii) : ascii :=
  if is_lower c then ascii_of_nat (nat_of_ascii c - 32) else c.

Fixpoint str_map (f : ascii -> ascii) (s : string) : string :=
  match s with
  | EmptyString => EmptyString
  | String c s' => String (f c) (str_map f s')
  end.

(** [s.lower()], [s.upper()] *)
Definition str_lower (s : string) : string := str_map lower_char s.
Definition str_upper (s : string) : string := str_map upper_char s.

Fixpoint lstrip (s : string) : string :=
  match s with
  | EmptyString => EmptyString
  | String c s' => if is_space c then lstrip s' else s
  end.

Fixpoint rstrip (s : string) : string :=
  match s with
  | EmptyString => EmptyString
  | String c s' =>
      match rstrip s' with
      | EmptyString => if is_space c then EmptyString else String c EmptyString
      | r => String c r
      end
  end.

(** [s.strip()] *)
Definition str_strip (s : string) : string := rstrip (lstrip s).

(** [sub in s] *)
Fixpoint str_contains (sub s : string) : bool :=
  String.prefix sub s ||
  match s with
  | EmptyString => false
  | String _ s' => str_contains sub s'
  end.

(** [sep.join(parts)] *)
Fixpoint str_join (sep : string) (parts : list string) : string :=
  match parts with
  | [] => ""
  | [p] => p
  | p :: ps => String.append p (String.append sep (str_join sep ps))
  end.

(** ** Decimals *)

(** [decimal.Decimal]: a finite number [(-1)^sign * coeff * 10^exp], an
    infinity, or a NaN.  Construction and comparison are exact. *)
Inductive Decimal :=
| DFin (neg : bool) (coeff : N) (exp : Z)
| DInf (neg : bool)
| DNaN.

Definition Decimal_zero : Decimal := DFin false 0 0.

(** The integer [(-1)^neg * coeff * 10^(exp - e)] for [e <= exp]. *)
Definition dec_scaled (neg : bool) (coeff : N) (exp e : Z) : Z :=
  let m := Z.of_N coeff * 10 ^ (exp - e) in
  if neg then - m else m.

(** [a < b] on decimals; an ordering comparison with a NaN signals
    [InvalidOperation]. *)
Definition dec_lt (a b : Decimal) : result bool :=
  match a, b with
  | DNaN, _ | _, DNaN => Raise (Exn InvalidOperation "[<class 'decimal.InvalidOperation'>]")
  | DInf na, DInf nb => Return (na && negb nb)
  | DInf na, DFin _ _ _ => Return na
  | DFin _ _ _, DInf nb => Return (negb nb)
  | DFin na ca ea, DFin nb cb eb =>
      let e := Z.min ea eb in
      Return (dec_scaled na ca ea e <? dec_scaled nb cb eb e)
  end.

(** [a > b] *)
Definition dec_gt (a b : Decimal) : result bool := dec_lt b a.

Definition Decimal_of_Z (z : Z) : Decimal :=
  DFin (z <? 0) (Z.abs_N z) 0.

(** [Decimal(f)] for a float: the exact value of the binary fraction. *)
Definition Decimal_of_float (f : float) : Decimal :=
  match Prim2SF f with
  | S754_zero s => DFin s 0 0
  | S754_infinity s => DInf s
  | S754_nan => DNaN
  | S754_finite s m e =>
      if (0 <=? e)%Z then DFin s (Npos m * 2 ^ Z.to_N e) 0
      else DFin s (Npos m * 5 ^ Z.to_N (- e)) e
  end.

(** *** Parsing a decimal literal *)

Fixpoint span_digits (s : string) : string * string :=
  match s with
  | EmptyString => (EmptyString, EmptyString)
  | String c s' =>
      if is_digit c then
        let '(d, r) := span_digits s' in (String c d, r)
      else (EmptyString, s)
  end.

Fixpoint N_of_digits (acc : N) (s : string) : N :=
  match s with
  | EmptyString => acc
  | String c s' => N_of_digits (acc * 10 + N.of_nat (nat_of_ascii c - 48)) s'
  end.

Fixpoint remove_underscores (s : string) : string :=
  match s with
  | EmptyString => EmptyString
  | String c s' =>
      if Ascii.eqb c "_" then remove_underscores s'
      else String c (remove_underscores s')
  end.

Definition split_sign (s : string) : bool * string :=
  match s with
  | String "-" r => (true, r)
  | String "+" r => (false, r)
  | _ => (false, s)
  end.

(** The digits after the exponent marker: an optional sign and at least
    one digit, up to the end of the text. *)
Definition parse_exponent (s : string) : option Z :=
  let '(neg, s1) := split_sign s in
  let '(d, r) := span_digits s1 in
  match d, r with
  | EmptyString, _ => None
  | _, EmptyString =>
      let n := Z.of_N (N_of_digits 0 d) in Some (if neg then - n else n)
  | _, _ => None
  end.

Definition all_digits (s : string) : bool :=
  match span_digits s with
  | (_, EmptyString) => true
  | _ => false
  end.

(** The number a decimal literal denotes, [None] when the text is not a
    decimal literal.  The text is stripped, underscores are dropped and
    letters match in either case. *)
Definition Decimal_literal (s : string) : option Decimal :=
  let '(neg, s1) := split_sign (str_lower (remove_underscores (str_strip s))) in
  if String.eqb s1 "inf" || String.eqb s1 "infinity" then Some (DInf neg)
  else if String.prefix "nan" s1 && all_digits (String.substring 3 (String.length s1 - 3) s1)
  then Some DNaN
  else if String.prefix "snan" s1 && all_digits (String.substring 4 (String.length s1 - 4) s1)
  then Some DNaN
  else
    let '(ip, r1) := span_digits s1 in
    let '(fp, r2) :=
      match r1 with
      | String "." r => span_digits r
      | _ => (EmptyString, r1)
      end in
    let scale := Z.of_nat (String.length fp) in
    match String.append ip fp, r2 with
    | EmptyString, _ => None
    | ds, EmptyString => Some (DFin neg (N_of_digits 0 ds) (- scale))
    | ds, String "e" r3 =>
        e ← parse_exponent r3; Some (DFin neg (N_of_digits 0 ds) (e - scale))
    | _, _ => None
    end.

(** *** The limits of an exact conversion *)

(** [decimal.MAX_EMAX] and [decimal.MIN_ETINY] *)
Definition MAX_EMAX : Z := 999999999999999999.
Definition MIN_ETINY : Z := -1999999999999999997.

(** The number of digits of a coefficient; zero has one digit. *)
Definition coeff_digits (coeff : N) : Z :=
  Z.of_nat (String.length (pretty coeff)).

(** A constructor of [Decimal] converts exactly or not at all: a finite
    number whose adjusted exponent [exp + digits - 1] is above [MAX_EMAX]
    or whose exponent is below [MIN_ETINY] signals [InvalidOperation]. *)
Definition Decimal_exact (d : Decimal) : result Decimal :=
  match d with
  | DFin _ coeff exp =>
      if (exp + coeff_digits coeff - 1 <=? MAX_EMAX) && (MIN_ETINY <=? exp)
      then Return d
      else Raise (Exn InvalidOperation "[<class 'decimal.InvalidOperation'>]")
  | _ => Return d
  end.

(** [Decimal(s)] for a string: a text that is not a decimal literal
    signals [InvalidOperation] as a conversion syntax error. *)
Definition Decimal_of_string (s : string) : result Decimal :=
  match Decimal_literal s with
  | Some d => Decimal_exact d
  | None => Raise (Exn InvalidOperation "[<class 'decimal.ConversionSyntax'>]")
  end.

(** *** [Decimal] of a sequence [[sign, digits, exponent]] *)

(** An [int] object, [bool] included. *)
Definition as_int (v : value) : option Z :=
  match v with
  | VInt z => Some z
  | VBool b => Some (if b then 1 else 0)
  | _ => None
  end.

(** The range of a C [long] and of a C [ssize_t]. *)
Definition fits_C_long (z : Z) : bool :=
  (- 2 ^ 63 <=? z) && (z <? 2 ^ 63).

Definition sequence_sign (v : value) : result bool :=
  match as_int v with
  | Some z =>
      if negb (fits_C_long z) then
        Raise (Exn OverflowError "Python int too large to convert to C long")
      else if z =? 0 then Return false
      else if z =? 1 then Return true
      else Raise (Exn ValueError "sign must be an integer with the value 0 or 1")
  | None => Raise (Exn ValueError "sign must be an integer with the value 0 or 1")
  end.

(** The third item: an exponent, or ['F'] for an infinity, or ['n'] or
    ['N'] for a NaN. *)
Inductive sequence_exponent :=
| SeqInf
| SeqNaN
| SeqExp (exp : Z).

Definition sequence_exp (v : value) : result sequence_exponent :=
  match v with
  | VStr s =>
      if String.eqb s "F" then Return SeqInf
      else if String.eqb s "n" || String.eqb s "N" then Return SeqNaN
      else Raise (Exn ValueError
                    "string argument in the third position must be 'F', 'n' or 'N'")
  | _ =>
      match as_int v with
      | Some z =>
          if fits_C_long z then Return (SeqExp z)
          else Raise (Exn OverflowError "Python int too large to convert to C ssize_t")
      | None => Raise (Exn ValueError "exponent must be an integer")
      end
  end.

Definition sequence_digit (coeff : N) (v : value) : result N :=
  match as_int v with
  | Some z =>
      if negb (fits_C_long z) then
        Raise (Exn OverflowError "Python int too large to convert to C long")
      else if (0 <=? z) && (z <=? 9) then Return (coeff * 10 + Z.to_N z)%N
      else Raise (Exn ValueError "coefficient must be a tuple of digits")
  | None => Raise (Exn ValueError "coefficient must be a tuple of digits")
  end.

Definition sequence_coefficient (v : value) : result N :=
  match v with
  | VList digits => foldM sequence_digit 0%N digits
  | _ => Raise (Exn ValueError "coefficient must be a tuple of digits")
  end.

(** [Decimal(l)] for a list: the sign, then the exponent, then the
    digits are checked; the digits of an infinity are checked and
    dropped. *)
Definition Decimal_of_sequence (l : list value) : result Decimal :=
  match l with
  | [sign; digits; exponent] =>
      let! neg := sequence_sign sign in
      let! exp := sequence_exp exponent in
      let! coeff := sequence_coefficient digits in
      match exp with
      | SeqInf => Return (DInf neg)
      | SeqNaN => Return DNaN
      | SeqExp exp => Decimal_exact (DFin neg coeff exp)
      end
  | _ => Raise (Exn ValueError "argument must be a sequence of length 3")
  end.


(** ** The Python runtime *)

(** Operators of the formula language; see [expr] below. *)
Inductive binop := Add | Sub | Mult | Div.
Inductive cmpop := Eq | NotEq | Lt | LtE | Gt | GtE.
Inductive boolop := And | Or.

(** What the model takes from the interpreter and its standard library.
    [re_search pat s] and [re_match pat s] say whether [pat] matches (an
    invalid pattern raises); [py_binop] and [py_compare] are the operator
    dispatch on values inside a formula and [py_eq a b] is the truth of
    [a == b]; [float_of_string] and [int_of_string] are
    [float(s)] and [int(s)] ([None]: [ValueError]); [float_of_int] is
    [float(n)] ([None]: [OverflowError]); [float_repr] and
    [container_repr] are [str] on floats, lists and dicts;
    [fromisoformat_hour s] is [datetime.fromisoformat(s).hour] ([None]:
    [ValueError]); the digests are [hashlib]'s. *)
Class PyRuntime := {
  re_search : string -> string -> result bool;
  re_match : string -> string -> result bool;
  py_binop : binop -> value -> value -> result value;
  py_compare : cmpop -> value -> value -> result value;
  py_eq : value -> value -> bool;
  float_of_string : string -> option float;
  float_of_int : Z -> option float;
  int_of_string : string -> option Z;
  float_repr : float -> string;
  container_repr : value -> string;
  fromisoformat_hour : string -> option Z;
  md5_hexdigest : string -> string;
  sha256_hexdigest : string -> string;
}.

Section Builtins.
Context {rt : PyRuntime}.

(** [str(v)] *)
Definition py_str (v : value) : string :=
  match v with
  | VNone => "None"
  | VBool true => "True"
  | VBool false => "False"
  | VInt z => pretty z
  | VFloat f => float_repr f
  | VStr s => s
  | VList _ | VDict _ => container_repr v
  end.

(** Truth value of [v], as tested by [if v], [not v], [and], [or]. *)
Definition py_truthy (v : value) : bool :=
  match v with
  | VNone => false
  | VBool b => b
  | VInt z => negb (z =? 0)
  | VFloat f => negb (PrimFloat.eqb f PrimFloat.zero)
  | VStr s => negb (String.eqb s "")
  | VList l => match l with [] => false | _ => true end
  | VDict items => match items with [] => false | _ => true end
  end.

(** [float(v)] *)
Definition py_float (v : value) : result float :=
  match v with
  | VFloat f => Return f
  | VBool b => Return (if b then PrimFloat.one else PrimFloat.zero)
  | VInt z =>
      match float_of_int z with
      | Some f => Return f
      | None => Raise (Exn OverflowError "int too large to convert to float")
      end
  | VStr s =>
      match float_of_string s with
      | Some f => Return f
      | None => Raise (Exn ValueError "could not convert string to float")
      end
  | VNone | VList _ | VDict _ =>
      Raise (Exn TypeError "float() argument must be a string or a real number")
  end.

(** [int(v)], for its outcome only. *)
Definition py_int (v : value) : result unit :=
  match v with
  | VInt _ | VBool _ => Return ()
  | VFloat f =>
      if PrimFloat.is_nan f then
        Raise (Exn ValueError "cannot convert float NaN to integer")
      else if PrimFloat.is_infinity f then
        Raise (Exn OverflowError "cannot convert float infinity to integer")
      else Return ()
  | VStr s =>
      match int_of_string s with
      | Some _ => Return ()
      | None => Raise (Exn ValueError "invalid literal for int()")
      end
  | VNone | VList _ | VDict _ =>
      Raise (Exn TypeError "int() argument must be a string or a real number")
  end.

(** [Decimal(v)] *)
Definition py_Decimal (v : value) : result Decimal :=
  match v with
  | VInt z => Return (Decimal_of_Z z)
  | VBool b => Return (Decimal_of_Z (if b then 1 else 0))
  | VFloat f => Return (Decimal_of_float f)
  | VStr s => Decimal_of_string s
  | VList l => Decimal_of_sequence l
  | VNone =>
      Raise (Exn TypeError "conversion from NoneType to Decimal is not supported")
  | VDict _ =>
      Raise (Exn TypeError "conversion from dict to Decimal is not supported")
  end.

(** [n < v] and [n > v] for an [int] [n]; the comparison with a float
    is exact. *)
Definition int_lt_value (n : Z) (v : value) : result bool :=
  match v with
  | VInt z => Return (n <? z)
  | VBool b => Return (n <? (if b then 1 else 0))
  | VFloat f =>
      match dec_lt (Decimal_of_Z n) (Decimal_of_float f) with
      | Return b => Return b
      | Raise _ => Return false
      end
  | _ => Raise (Exn TypeError "'<' not supported")
  end.

Definition int_gt_value (n : Z) (v : value) : result bool :=
  match v with
  | VInt z => Return (z <? n)
  | VBool b => Return ((if b then 1 else 0) <? n)
  | VFloat f =>
      match dec_lt (Decimal_of_float f) (Decimal_of_Z n) with
      | Return b => Return b
      | Raise _ => Return false
      end
  | _ => Raise (Exn TypeError "'>' not supported")
  end.
End Builtins.

(** [try: c except (ValueError, TypeError): h] *)
Definition catch_ValueError_TypeError {A} (c : result A) (h : result A) : result A :=
  match c with
  | Return a => Return a
  | Raise e => if is_ValueError_or_TypeError e then h else Raise e
  end.

(** ** models.py *)

Inductive RowStatus := VALID | FLAGGED | ERROR | PENDING.

Inductive FileStatus :=
| FS_PENDING | FS_PROCESSING | FS_PARTIAL_SUCCESS | FS_SUCCESS | FS_FAILED.

#[global] Instance RowStatus_eq_dec : EqDecision RowStatus.
Proof. solve_decision. Defined.
#[global] Instance FileStatus_eq_dec : EqDecision FileStatus.
Proof. solve_decision. Defined.

(** An entry of [Row.validation_errors]: a small dict of strings, kept in
    insertion order. *)
Definition violation := list (string * string).

Record FileMeta := {
  file_id : string;
  filename : string;
  path : string;
  file_type : string;
  size_bytes : Z;
  created_at : Z;
  processed_at : option Z;
  status : FileStatus;
  raw_copy_path : option string;
  error_message : option string;
  row_count : Z;
  valid_rows : Z;
  flagged_rows : Z;
  error_rows : Z;
}.

Record Row := {
  row_id : string;
  row_file_id : string;
  line_number : Z;
  raw_data : pydict;
  normalized_data : pydict;
  canonical_data : pydict;
  row_status : RowStatus;
  validation_errors : list violation;
  mapping_confidence : gmap string float;
  ai_suggestions : pydict;
  approved_by : option string;
  approved_at : option Z;
}.

Record MappingRule := {
  vendor_field : string;
  canonical_field : string;
  rule_type : string;
  pattern : option string;
  priority : Z;
  fallback : bool;
  confidence : float;
}.

(** A dict is falsy exactly when it is empty. *)
Definition dict_truthy {V} (d : gmap string V) : bool :=
  bool_decide (d ≠ ∅).

(** [a or b] on dicts *)
Definition dict_or {V} (a b : gmap string V) : gmap string V :=
  if dict_truthy a then a else b.

(** ** mapper.py *)

Record FieldMapper := {
  mapping_rules : list MappingRule;
  unmapped_fields : gset string;
}.

(** [sorted(rules, key=lambda r: r.priority)]: stable, ascending. *)
Fixpoint insert_by_priority (r : MappingRule) (l : list MappingRule) : list MappingRule :=
  match l with
  | [] => [r]
  | x :: l' =>
      if priority r <=? priority x then r :: l
      else x :: insert_by_priority r l'
  end.

Definition sorted_by_priority (rules : list MappingRule) : list MappingRule :=
  foldr insert_by_priority [] rules.

(** [FieldMapper.__init__] *)
Definition FieldMapper_init (rules : list MappingRule) : FieldMapper :=
  {| mapping_rules := sorted_by_priority rules; unmapped_fields := ∅ |}.

(** The loop state of [map_row]: [mapped], [confidence], [used_fields]. *)
Definition map_state : Type := pydict * gmap string float * gset string.

Section Mapper.
Context {rt : PyRuntime}.

(** The three assignments of a matching rule. *)
Definition write_rule (rule : MappingRule) (v : value) (st : map_state) : map_state :=
  let '(mapped, conf, used) := st in
  (<[canonical_field rule := v]> mapped,
   <[canonical_field rule := confidence rule]> conf,
   {[vendor_field rule]} ∪ used).

(** One iteration of the loop over the rules. *)
Definition apply_rule (source_data : pydict) (st : map_state) (rule : MappingRule)
  : result map_state :=
  match source_data !! vendor_field rule with
  | None => Return st
  | Some v =>
      if decide (rule_type rule = "exact") then Return (write_rule rule v st)
      else if decide (rule_type rule = "regex") then
        match v with
        | VStr s =>
            match pattern rule with
            | None => Raise (Exn TypeError "first argument must be string or compiled pattern")
            | Some p =>
                let! m := re_search p s in
                Return (if m : bool then write_rule rule v st else st)
            end
        | _ => Return st
        end
      else if decide (rule_type rule = "substring") then
        match v with
        | VStr s =>
            match pattern rule with
            | None => Raise (Exn TypeError "'in <string>' requires string as left operand")
            | Some p => Return (if str_contains p s then write_rule rule v st else st)
            end
        | _ => Return st
        end
      else Return st
  end.

(** [FieldMapper.map_row]: the mapper after the call (its set of
    unmapped fields grows) and the pair [(mapped, confidence)]. *)
Definition map_row (self : FieldMapper) (row : Row)
  : result (FieldMapper * (pydict * gmap string float)) :=
  let source_data := dict_or (normalized_data row) (raw_data row) in
  let source_fields := dom source_data in
  let! (mapped, conf, used_fields) := foldM (apply_rule source_data) (∅, ∅, ∅) (mapping_rules self) in
  let unmapped := source_fields ∖ used_fields in
  Return ({| mapping_rules := mapping_rules self;
             unmapped_fields := unmapped_fields self ∪ unmapped |},
          (mapped, conf)).

(** [MappingEngine.map_rows] *)
Fixpoint map_rows (mapper : FieldMapper) (rows : list Row)
  : result (FieldMapper * list Row) :=
  match rows with
  | [] => Return (mapper, [])
  | row :: rest =>
      let! (mapper', (canonical, conf)) := map_row mapper row in
      let row' := {| row_id := row_id row; row_file_id := row_file_id row;
                     line_number := line_number row; raw_data := raw_data row;
                     normalized_data := normalized_data row;
                     canonical_data := canonical;
                     row_status := row_status row;
                     validation_errors := validation_errors row;
                     mapping_confidence := conf;
                     ai_suggestions := ai_suggestions row;
                     approved_by := approved_by row;
                     approved_at := approved_at row |} in
      let! (mapper'', rest') := map_rows mapper' rest in
      Return (mapper'', row' :: rest')
  end.
End Mapper.


(** ** validator.py *)

Module ValidationRule.
Record t := {
  field : string;
  rule_type : string;
  kwargs : pydict;
  message : string;
}.
End ValidationRule.

(** [kwargs.get(key)]: [None] for a missing key. *)
Definition kw_get (kwargs : pydict) (key : string) : value :=
  default VNone (kwargs !! key).

Definition is_None (v : value) : bool :=
  match v with VNone => true | _ => false end.

Definition value_is_str (v : value) (s : string) : bool :=
  match v with VStr s' => String.eqb s' s | _ => false end.

(** The pair [(is_valid, error_message)] a validator returns. *)
Definition verdict : Type := bool * option string.

Definition email_pattern : string := "^[^@]+@[^@]+\.[^@]+$".

Section Validator.
Context {rt : PyRuntime}.

Definition validator_func : Type := value -> string -> pydict -> result verdict.

Definition _required : validator_func := fun v message kwargs =>
  match v with
  | VNone => Return (false, Some message)
  | VStr s =>
      if String.eqb (str_strip s) "" then Return (false, Some message)
      else Return (true, None)
  | _ => Return (true, None)
  end.

Definition _type_check : validator_func := fun v message kwargs =>
  let expected_type := kw_get kwargs "expected_type" in
  catch_ValueError_TypeError
    (if value_is_str expected_type "integer" then
       let! _ := py_int v in Return (true, None)
     else if value_is_str expected_type "decimal" then
       let! _ := py_Decimal v in Return (true, None)
     else if value_is_str expected_type "date" then
       match fromisoformat_hour (py_str v) with
       | Some _ => Return (true, None)
       | None => Raise (Exn ValueError "Invalid isoformat string")
       end
     else if value_is_str expected_type "email" then
       let! m := re_match email_pattern (py_str v) in
       if m : bool then Return (true, None) else Return (false, Some message)
     else Return (true, None))
    (Return (false, Some message)).

(** [Decimal(str(bound))] *)
Definition bound_Decimal (bound : value) : result Decimal :=
  py_Decimal (VStr (py_str bound)).

Definition _range_check : validator_func := fun v message kwargs =>
  catch_ValueError_TypeError
    (let! val := (if is_None v then Return Decimal_zero else py_Decimal v) in
     let min_val := kw_get kwargs "min_value" in
     let max_val := kw_get kwargs "max_value" in
     let! below := (if is_None min_val then Return false
              else let! lo := bound_Decimal min_val in dec_lt val lo) in
     if below : bool then Return (false, Some message)
     else
       let! above := (if is_None max_val then Return false
                else let! hi := bound_Decimal max_val in dec_gt val hi) in
       if above : bool then Return (false, Some message)
       else Return (true, None))
    (Return (false, Some message)).

(** The items a [for] loop or a comprehension draws from [v]. *)
Definition py_iter (v : value) : result (list value) :=
  match v with
  | VList l => Return l
  | VStr s => Return ((fun c => VStr (String c EmptyString)) <$> list_ascii_of_string s)
  | VDict items => Return ((fun kv => VStr kv.1) <$> items)
  | _ => Raise (Exn TypeError "object is not iterable")
  end.

Definition _enum_check : validator_func := fun v message kwargs =>
  let! allowed := match kwargs !! "values" with
                  | None => Return []
                  | Some a => py_iter a
                  end in
  let names := (fun a => str_upper (py_str a)) <$> allowed in
  if bool_decide (str_upper (py_str v) ∈ names) then Return (true, None)
  else Return (false, Some message).

Definition _regex_check : validator_func := fun v message kwargs =>
  let pat := kw_get kwargs "pattern" in
  if py_truthy pat then
    match pat with
    | VStr p =>
        let! m := re_match p (py_str v) in
        if m : bool then Return (true, None) else Return (false, Some message)
    | _ => Raise (Exn TypeError "first argument must be string or compiled pattern")
    end
  else Return (true, None).

Definition _length_check : validator_func := fun v message kwargs =>
  let val_str := if is_None v then "" else py_str v in
  let n := Z.of_nat (String.length val_str) in
  let! short := match kwargs !! "min_length" with
                | None => Return (n <? 0)
                | Some min_len => int_lt_value n min_len
                end in
  if short : bool then Return (false, Some message)
  else
    let! long := match kwargs !! "max_length" with
                 | None => Return false
                 | Some max_len => int_gt_value n max_len
                 end in
    if long : bool then Return (false, Some message) else Return (true, None).

Definition _date_format_check : validator_func := fun v message kwargs =>
  if is_None v then Return (true, None)
  else
    match fromisoformat_hour (py_str v) with
    | Some _ => Return (true, None)
    | None => Return (false, Some message)
    end.

(** The registry [ValidationRule.VALIDATORS]. *)
Definition VALIDATORS : gmap string validator_func :=
  list_to_map
    [("required", _required); ("type", _type_check); ("range", _range_check);
     ("enum", _enum_check); ("regex", _regex_check); ("length", _length_check);
     ("date_format", _date_format_check)].

(** [ValidationRule.validate] *)
Definition ValidationRule_validate (self : ValidationRule.t) (v : value) : result verdict :=
  match VALIDATORS !! ValidationRule.rule_type self with
  | None => Return (true, None)
  | Some validator_func =>
      validator_func v (ValidationRule.message self) (ValidationRule.kwargs self)
  end.

(** [error_msg or rule.message] *)
Definition msg_or (error_msg : option string) (fallback : string) : string :=
  match error_msg with
  | Some m => if String.eqb m "" then fallback else m
  | None => fallback
  end.

(** The body of the loop of [RowValidator.validate]. *)
Definition validate_rule (canonical_data : pydict) (errors : list violation)
    (rule : ValidationRule.t) : result (list violation) :=
  match canonical_data !! ValidationRule.field rule with
  | None => Return errors
  | Some v =>
      let! (is_valid, error_msg) := ValidationRule_validate rule v in
      if is_valid : bool then Return errors
      else Return (errors ++
             [[("field", ValidationRule.field rule);
               ("rule", ValidationRule.rule_type rule);
               ("message", msg_or error_msg (ValidationRule.message rule))]])%list
  end.

(** [RowValidator.validate] *)
Definition RowValidator_validate (rules : list ValidationRule.t)
    (canonical_data : pydict) : result (list violation) :=
  foldM (validate_rule canonical_data) [] rules.
End Validator.

(** ** cross_field_validator.py *)

(** The formula language: the syntax trees of the expressions a formula
    rule evaluates, names, literals, arithmetic, comparisons and boolean
    connectives. *)
Inductive expr :=
| Name (id : string)
| Constant (v : value)
| BinOp (left : expr) (op : binop) (right : expr)
| Compare (left : expr) (op : cmpop) (right : expr)
| BoolOp (op : boolop) (left right : expr)
| Not (operand : expr).

Module CrossFieldRule.
(** [formula] is the syntax tree of [kwargs.get('formula', '')], [None]
    when that text does not compile (as the default [''] does not). *)
Record t := {
  fields : list string;
  rule_type : string;
  kwargs : pydict;
  message : string;
  formula : option expr;
}.
End CrossFieldRule.

(** [d.get(key)] where the key is any value: only a string can hit a key
    of a dict with string keys, a list or a dict is unhashable. *)
Definition dict_get_value (d : pydict) (key : value) : result value :=
  match key with
  | VStr k => Return (default VNone (d !! k))
  | VList _ | VDict _ => Raise (Exn TypeError "unhashable type")
  | _ => Return VNone
  end.

Section CrossField.
Context {rt : PyRuntime}.

(** [eval(formula, {"__builtins__": {}}, env)] on a syntax tree: a name
    is looked up in [env], then in the globals, whose only entry is the
    empty [__builtins__]. *)
Fixpoint eval_expr (env : pydict) (e : expr) : result value :=
  match e with
  | Name id =>
      match env !! id with
      | Some v => Return v
      | None =>
          if String.eqb id "__builtins__" then Return (VDict [])
          else Raise (Exn NameError id)
      end
  | Constant v => Return v
  | BinOp l op r =>
      let! a := eval_expr env l in
      let! b := eval_expr env r in
      py_binop op a b
  | Compare l op r =>
      let! a := eval_expr env l in
      let! b := eval_expr env r in
      py_compare op a b
  | BoolOp And l r =>
      let! a := eval_expr env l in
      if py_truthy a then eval_expr env r else Return a
  | BoolOp Or l r =>
      let! a := eval_expr env l in
      if py_truthy a then Return a else eval_expr env r
  | Not x =>
      let! a := eval_expr env x in
      Return (VBool (negb (py_truthy a)))
  end.

(** The loop that fills [field_values]: a non-null value is stored as a
    float when [float] accepts it and as it is otherwise. *)
Definition extract_field (canonical_data : pydict) (field_values : pydict)
    (field : string) : result pydict :=
  match canonical_data !! field with
  | None | Some VNone => Return field_values
  | Some val =>
      catch_ValueError_TypeError
        (let! f := py_float val in Return (<[field := VFloat f]> field_values))
        (Return (<[field := val]> field_values))
  end.

Definition field_values (self : CrossFieldRule.t) (canonical_data : pydict)
  : result pydict :=
  foldM (extract_field canonical_data) ∅ (CrossFieldRule.fields self).

(** The evaluation inside the [try] block. *)
Definition eval_formula (self : CrossFieldRule.t) (canonical_data : pydict)
  : result value :=
  let! env := field_values self canonical_data in
  match CrossFieldRule.formula self with
  | None => Raise (Exn SyntaxError "invalid syntax")
  | Some e => eval_expr env e
  end.

Definition formula_violation (self : CrossFieldRule.t) : violation :=
  [("fields", str_join "," (CrossFieldRule.fields self));
   ("rule", "formula");
   ("message", CrossFieldRule.message self)].

(** [CrossFieldRule._validate_formula]: [except Exception] logs the
    error and control reaches the final [return None]. *)
Definition _validate_formula (self : CrossFieldRule.t) (canonical_data : pydict)
  : result (option violation) :=
  match eval_formula self canonical_data with
  | Return r =>
      if py_truthy r then Return None
      else Return (Some (formula_violation self))
  | Raise _ => Return None
  end.

Definition _validate_dependency (self : CrossFieldRule.t) (canonical_data : pydict)
  : result (option violation) :=
  let condition_field := kw_get (CrossFieldRule.kwargs self) "condition_field" in
  let condition_value := kw_get (CrossFieldRule.kwargs self) "condition_value" in
  let required_field := kw_get (CrossFieldRule.kwargs self) "required_field" in
  let! c := dict_get_value canonical_data condition_field in
  if py_eq c condition_value then
    let! r := dict_get_value canonical_data required_field in
    if py_truthy r then Return None
    else Return (Some
      [("fields", String.append (py_str condition_field)
                    (String.append "," (py_str required_field)));
       ("rule", "dependency");
       ("message", CrossFieldRule.message self)])
  else Return None.

Definition _validate_mutual_exclusion (self : CrossFieldRule.t) (canonical_data : pydict)
  : result (option violation) :=
  let set_fields :=
    filter (fun f => py_truthy (default VNone (canonical_data !! f)) = true)
           (CrossFieldRule.fields self) in
  if (1 <? Z.of_nat (length set_fields)) then
    Return (Some [("fields", str_join "," (CrossFieldRule.fields self));
                  ("rule", "mutual_exclusion");
                  ("message", CrossFieldRule.message self)])
  else Return None.

(** [CrossFieldRule.validate] *)
Definition CrossFieldRule_validate (self : CrossFieldRule.t) (canonical_data : pydict)
  : result (option violation) :=
  if decide (CrossFieldRule.rule_type self = "formula") then
    _validate_formula self canonical_data
  else if decide (CrossFieldRule.rule_type self = "dependency") then
    _validate_dependency self canonical_data
  else if decide (CrossFieldRule.rule_type self = "mutual_exclusion") then
    _validate_mutual_exclusion self canonical_data
  else Return None.

(** [if error: errors.append(error)]; a dict is truthy when not empty. *)
Definition append_error (errors : list violation) (error : option violation)
  : list violation :=
  match error with
  | Some (kv :: rest) => (errors ++ [kv :: rest])%list
  | _ => errors
  end.

(** [CrossFieldValidator.validate] *)
Definition CrossFieldValidator_validate (rules : list CrossFieldRule.t)
    (canonical_data : pydict) : result (list violation) :=
  foldM (fun errors rule =>
           let! error := CrossFieldRule_validate rule canonical_data in
           Return (append_error errors error))
        [] rules.
End CrossField.

(** ** semantic_validator.py *)

Module SemanticRule.
Record t := {
  rule_type : string;
  kwargs : pydict;
  message : string;
}.
End SemanticRule.

Section Semantic.
Context {rt : PyRuntime}.

(** [x in container] *)
Definition py_contains (container x : value) : result bool :=
  match container with
  | VList l => Return (existsb (fun y => py_eq x y) l)
  | VStr s =>
      match x with
      | VStr sub => Return (str_contains sub s)
      | _ => Raise (Exn TypeError "'in <string>' requires string as left operand")
      end
  | VDict items =>
      match x with
      | VStr k => Return (existsb (fun kv => String.eqb kv.1 k) items)
      | VList _ | VDict _ => Raise (Exn TypeError "unhashable type")
      | _ => Return false
      end
  | _ => Raise (Exn TypeError "argument is not iterable")
  end.

Definition _validate_status_transition (self : SemanticRule.t) (canonical_data : pydict)
  : result (option violation) :=
  let current_status := default VNone (canonical_data !! "order_status") in
  let! allowed :=
    match SemanticRule.kwargs self !! "allowed_from" with
    | None => Return false
    | Some allowed_transitions => py_contains allowed_transitions current_status
    end in
  if allowed : bool then Return None
  else Return (Some [("field", "order_status");
                     ("rule", "status_transition");
                     ("message", SemanticRule.message self)]).

Definition _validate_business_hours (self : SemanticRule.t) (canonical_data : pydict)
  : result (option violation) :=
  let created_at := default VNone (canonical_data !! "created_at") in
  if py_truthy created_at then
    match fromisoformat_hour (py_str created_at) with
    | Some hour =>
        if (hour <? 9) || (17 <=? hour) then
          Return (Some [("field", "created_at");
                        ("rule", "business_hours");
                        ("message", SemanticRule.message self)])
        else Return None
    | None => Return None
    end
  else Return None.

Definition _validate_inventory (self : SemanticRule.t) (canonical_data : pydict)
  : result (option violation) :=
  Return None.

(** [SemanticRule.validate] *)
Definition SemanticRule_validate (self : SemanticRule.t) (canonical_data : pydict)
  : result (option violation) :=
  if decide (SemanticRule.rule_type self = "status_transition") then
    _validate_status_transition self canonical_data
  else if decide (SemanticRule.rule_type self = "business_hours") then
    _validate_business_hours self canonical_data
  else if decide (SemanticRule.rule_type self = "inventory") then
    _validate_inventory self canonical_data
  else Return None.

(** [SemanticValidator.validate] *)
Definition SemanticValidator_validate (rules : list SemanticRule.t)
    (canonical_data : pydict) : result (list violation) :=
  foldM (fun errors rule =>
           let! error := SemanticRule_validate rule canonical_data in
           Return (append_error errors error))
        [] rules.
End Semantic.

(** ** validation_pipeline.py *)

Record ValidationPipeline := {
  row_validator : list ValidationRule.t;
  cross_validator : list CrossFieldRule.t;
  semantic_validator : list SemanticRule.t;
}.

Definition set_validation (row : Row) (errors : list violation) (st : RowStatus) : Row :=
  {| row_id := row_id row; row_file_id := row_file_id row;
     line_number := line_number row; raw_data := raw_data row;
     normalized_data := normalized_data row;
     canonical_data := canonical_data row;
     row_status := st;
     validation_errors := errors;
     mapping_confidence := mapping_confidence row;
     ai_suggestions := ai_suggestions row;
     approved_by := approved_by row;
     approved_at := approved_at row |}.

Section Pipeline.
Context {rt : PyRuntime}.

(** [ValidationPipeline.validate_row] *)
Definition validate_row (self : ValidationPipeline) (row : Row) : result Row :=
  let errors : list violation := [] in
  let canonical_data := dict_or (canonical_data row) ∅ in
  let! field_errors := RowValidator_validate (row_validator self) canonical_data in
  let errors := (errors ++ field_errors)%list in
  let! cross_errors := CrossFieldValidator_validate (cross_validator self) canonical_data in
  let errors := (errors ++ cross_errors)%list in
  let! semantic_errors := SemanticValidator_validate (semantic_validator self) canonical_data in
  let errors := (errors ++ semantic_errors)%list in
  Return (set_validation row errors
            (match errors with [] => VALID | _ => FLAGGED end)).
End Pipeline.

(** ** reconciler.py *)



(** [duplicates[key].append(idx)], after [duplicates[key] = []] for a new
    key; the dict keeps its keys in insertion order. *)
Fixpoint group_add (duplicates : list (string * list nat)) (key : string) (idx : nat)
  : list (string * list nat) :=
  match duplicates with
  | [] => [(key, [idx])]
  | (k, indices) :: rest =>
      if decide (k = key) then (k, indices ++ [idx])%list :: rest
      else (k, indices) :: group_add rest key idx
  end.


Section Reconciler.
Context {rt : PyRuntime}.

(** [Reconciler.generate_dedup_key] *)
Definition generate_dedup_key (row : Row) (key_fields : list string) : string :=
  let canonical_data := dict_or (canonical_data row) (raw_data row) in
  let key_parts :=
    foldl (fun key_parts field =>
             let v := default (VStr "") (canonical_data !! field) in
             if is_None v then key_parts
             else (key_parts ++ [str_strip (str_lower (py_str v))])%list)
          [] key_fields in
  md5_hexdigest (str_join "|" key_parts).

(** The loop of [find_duplicates] over [enumerate(rows)], from index
    [idx] on. *)
Fixpoint group_rows (key_fields : list string) (duplicates : list (string * list nat))
    (idx : nat) (rows : list Row) : list (string * list nat) :=
  match rows with
  | [] => duplicates
  | row :: rest =>
      group_rows key_fields
        (group_add duplicates (generate_dedup_key row key_fields) idx)
        (S idx) rest
  end.

(** [Reconciler.find_duplicates] *)
Definition find_duplicates (rows : list Row) (key_fields : list string)
  : list (string * list nat) :=
  filter (fun kv => 1 < length kv.2)%nat (group_rows key_fields [] 0%nat rows).


End Reconciler.

(** ** metadata_store.py *)

(** The [files] and [rows] tables, keyed by their primary keys; a stored
    row carries the time of its last write. *)
Record MetadataStore := {
  files : gmap string FileMeta;
  rows : gmap string (Row * Z);
}.

(** [INSERT OR REPLACE INTO files] *)
Definition insert_file (st : MetadataStore) (file_meta : FileMeta) : MetadataStore :=
  {| files := <[file_id file_meta := file_meta]> (files st); rows := rows st |}.

Definition get_file (st : MetadataStore) (id : string) : option FileMeta :=
  files st !! id.

(** [INSERT OR REPLACE INTO rows] *)
Definition insert_row (st : MetadataStore) (now : Z) (row : Row) : MetadataStore :=
  {| files := files st; rows := <[row_id row := (row, now)]> (rows st) |}.

Definition line_le (a b : Row) : Prop := line_number a <= line_number b.

#[global] Instance line_le_dec : RelDecision line_le.
Proof. intros a b. unfold line_le. apply _. Defined.

(** [SELECT * FROM rows WHERE file_id = ? ORDER BY line_number] *)
Definition get_rows_by_file (st : MetadataStore) (id : string) : list Row :=
  merge_sort line_le
    (filter (fun r => row_file_id r = id) ((fun kv => kv.2.1) <$> map_to_list (rows st))).

(** ** format_detector.py, local_fs.py, utils.py *)

(** A file of the input directory: its name, resolved path, suffix and
    bytes; the format the detector's content sniffing settles on when the
    suffix is unknown; and what the parser of its format does on it: the
    chunks of raw rows it yields and the exception, if any, that it raises
    after them. *)
Record SourceFile := {
  sf_name : string;
  sf_path : string;
  sf_suffix : string;
  sf_content : string;
  sf_sniffed : string;
  sf_chunks : list (list pydict);
  sf_parse_error : option exn;
}.

Definition EXTENSION_MAP : gmap string string :=
  list_to_map
    [(".csv", "csv"); (".tsv", "tsv"); (".xlsx", "xlsx"); (".xls", "xls");
     (".json", "json"); (".jsonl", "jsonl"); (".ndjson", "jsonl");
     (".xml", "xml"); (".pdf", "pdf"); (".txt", "txt")].

(** [FormatDetector.detect] *)
Definition detect (f : SourceFile) : string :=
  match EXTENSION_MAP !! str_lower (sf_suffix f) with
  | Some detected => detected
  | None => sf_sniffed f
  end.

(** [s.lstrip('.')] *)
Fixpoint lstrip_dots (s : string) : string :=
  match s with
  | String "." r => lstrip_dots r
  | _ => s
  end.

(** [generate_row_id] *)
Definition generate_row_id (file_id : string) (line_number : Z) : string :=
  String.append file_id (String.append "_" (pretty line_number)).

Section Connector.
Context {rt : PyRuntime}.

(** [LocalFSConnector.fetch] for an existing file; [now] is the clock
    reading.  The copy of the file into the archive directory is an
    effect on the file system, outside the store. *)
Definition fetch (archive_dir : string) (now : Z) (f : SourceFile) : FileMeta :=
  let file_hash := sha256_hexdigest (sf_content f) in
  let ext := str_lower (lstrip_dots (sf_suffix f)) in
  {| file_id := file_hash;
     filename := sf_name f;
     path := sf_path f;
     file_type := if String.eqb ext "" then "unknown" else ext;
     size_bytes := Z.of_nat (String.length (sf_content f));
     created_at := now;
     processed_at := None;
     status := FS_PENDING;
     raw_copy_path :=
       Some (String.append archive_dir
               (String.append "/" (String.append file_hash (sf_suffix f))));
     error_message := None;
     row_count := 0; valid_rows := 0; flagged_rows := 0; error_rows := 0 |}.
End Connector.

(** ** ingestion_pipeline.py *)

Record BatchResult := {
  batch_id : string;
  started_at : Z;
  completed_at : option Z;
  file_results : list FileMeta;
  total_rows : Z;
  batch_valid_rows : Z;
  batch_flagged_rows : Z;
  batch_error_rows : Z;
  batch_status : FileStatus;
  errors : list string;
}.

Record IngestionPipeline := {
  archive_dir : string;
  chunk_size : Z;
}.

(** The keys of [IngestionPipeline.PARSERS]. *)
Definition PARSERS : list string := ["csv"; "tsv"; "xlsx"; "json"; "jsonl"; "xml"].

Definition with_status (m : FileMeta) (s : FileStatus) : FileMeta :=
  {| file_id := file_id m; filename := filename m; path := path m;
     file_type := file_type m; size_bytes := size_bytes m;
     created_at := created_at m; processed_at := processed_at m;
     status := s; raw_copy_path := raw_copy_path m;
     error_message := error_message m;
     row_count := row_count m; valid_rows := valid_rows m;
     flagged_rows := flagged_rows m; error_rows := error_rows m |}.

Definition with_processed_at (m : FileMeta) (t : Z) : FileMeta :=
  {| file_id := file_id m; filename := filename m; path := path m;
     file_type := file_type m; size_bytes := size_bytes m;
     created_at := created_at m; processed_at := Some t;
     status := status m; raw_copy_path := raw_copy_path m;
     error_message := error_message m;
     row_count := row_count m; valid_rows := valid_rows m;
     flagged_rows := flagged_rows m; error_rows := error_rows m |}.

Definition with_error_message (m : FileMeta) (msg : string) : FileMeta :=
  {| file_id := file_id m; filename := filename m; path := path m;
     file_type := file_type m; size_bytes := size_bytes m;
     created_at := created_at m; processed_at := processed_at m;
     status := status m; raw_copy_path := raw_copy_path m;
     error_message := Some msg;
     row_count := row_count m; valid_rows := valid_rows m;
     flagged_rows := flagged_rows m; error_rows := error_rows m |}.

Definition with_row_count (m : FileMeta) (n : Z) : FileMeta :=
  {| file_id := file_id m; filename := filename m; path := path m;
     file_type := file_type m; size_bytes := size_bytes m;
     created_at := created_at m; processed_at := processed_at m;
     status := status m; raw_copy_path := raw_copy_path m;
     error_message := error_message m;
     row_count := n; valid_rows := valid_rows m;
     flagged_rows := flagged_rows m; error_rows := error_rows m |}.

(** The two generators [process_file] can return.  Calling a generator
    function runs none of its body: the body runs when the iterator is
    consumed, see [drain]. *)
Inductive RowIterator :=
| CachedRows (existing_rows : list Row) (chunk_size : Z)
| ParsedRows (file : SourceFile) (file_format : string) (file_meta : FileMeta).

(** [Row(row_id=..., file_id=..., line_number=..., raw_data=...)] *)
Definition new_row (file_meta : FileMeta) (line_number : Z) (raw : pydict) : Row :=
  {| row_id := generate_row_id (file_id file_meta) line_number;
     row_file_id := file_id file_meta;
     line_number := line_number;
     raw_data := raw;
     normalized_data := ∅; canonical_data := ∅;
     row_status := PENDING; validation_errors := [];
     mapping_confidence := ∅; ai_suggestions := ∅;
     approved_by := None; approved_at := None |}.

(** The rows of one chunk, numbered after [line_number]. *)
Fixpoint rows_of_chunk (file_meta : FileMeta) (line_number : Z) (chunk : list pydict)
  : list Row :=
  match chunk with
  | [] => []
  | raw :: rest =>
      new_row file_meta (line_number + 1) raw
      :: rows_of_chunk file_meta (line_number + 1) rest
  end.

(** [rows[i:i + n]] for [i] in [range(0, len(rows), n)], [n > 0]. *)
Fixpoint chunks_of (fuel : nat) (n : nat) (l : list Row) : list (list Row) :=
  match fuel, l with
  | _, [] => []
  | O, _ => []
  | S fuel', _ => take n l :: chunks_of fuel' n (drop n l)
  end.

(** What consuming an iterator to its end leaves behind: the store, the
    chunks it yielded, the file record as the generator last left it, and
    the exception that ended the iteration, if one did. *)
Record Drained := {
  dr_store : MetadataStore;
  dr_chunks : list (list Row);
  dr_meta : option FileMeta;
  dr_error : option exn;
}.

(** The loop of [_parse_and_create_rows] over the parser's chunks: each
    chunk's rows are stored, then the chunk is yielded. *)
Fixpoint store_chunks (st : MetadataStore) (now : Z) (file_meta : FileMeta)
    (line_number : Z) (chunks : list (list pydict))
  : MetadataStore * list (list Row) * Z :=
  match chunks with
  | [] => (st, [], line_number)
  | chunk :: rest =>
      let row_chunk := rows_of_chunk file_meta line_number chunk in
      let st' := foldl (fun s r => insert_row s now r) st row_chunk in
      let '(st'', yielded, n) :=
        store_chunks st' now file_meta (line_number + Z.of_nat (length chunk)) rest in
      (st'', row_chunk :: yielded, n)
  end.

(** Consuming an iterator with [for chunk in rows]. *)
Definition drain (st : MetadataStore) (now : Z) (it : RowIterator) : Drained :=
  match it with
  | CachedRows existing_rows n =>
      if n =? 0 then
        {| dr_store := st; dr_chunks := []; dr_meta := None;
           dr_error := Some (Exn ValueError "range() arg 3 must not be zero") |}
      else if n <? 0 then
        {| dr_store := st; dr_chunks := []; dr_meta := None; dr_error := None |}
      else
        {| dr_store := st;
           dr_chunks := chunks_of (length existing_rows) (Z.to_nat n) existing_rows;
           dr_meta := None; dr_error := None |}
  | ParsedRows f file_format file_meta =>
      if bool_decide (file_format ∈ PARSERS) then
        let '(st', yielded, line_number) :=
          store_chunks st now file_meta 0 (sf_chunks f) in
        match sf_parse_error f with
        | Some e =>
            {| dr_store := st'; dr_chunks := yielded;
               dr_meta := Some file_meta; dr_error := Some e |}
        | None =>
            let file_meta' := with_row_count file_meta line_number in
            {| dr_store := insert_file st' file_meta'; dr_chunks := yielded;
               dr_meta := Some file_meta'; dr_error := None |}
        end
      else
        {| dr_store := st; dr_chunks := []; dr_meta := Some file_meta;
           dr_error :=
             Some (Exn ValueError (String.append "Unsupported format: " file_format)) |}
  end.

(** [existing_meta and existing_meta.status == FileStatus.SUCCESS] *)
Definition already_processed (existing_meta : option FileMeta) : bool :=
  match existing_meta with
  | Some m => bool_decide (status m = FS_SUCCESS)
  | None => false
  end.

Section Ingestion.
Context {rt : PyRuntime}.

(** The [try] block of [process_file]: the generator is created, which
    runs none of its body, and the record is marked [SUCCESS]. *)
Definition try_parse (st : MetadataStore) (now : Z) (f : SourceFile)
    (file_format : string) (file_meta : FileMeta)
  : result (MetadataStore * FileMeta * RowIterator) :=
  let row_iterator := ParsedRows f file_format in
  let file_meta := with_processed_at (with_status file_meta FS_SUCCESS) now in
  Return (insert_file st file_meta, file_meta, row_iterator file_meta).

(** [IngestionPipeline.process_file]: the store after the call and
    what the call returns or raises. *)
Definition process_file (self : IngestionPipeline) (st : MetadataStore) (now : Z)
    (f : SourceFile) : MetadataStore * result (FileMeta * RowIterator) :=
  let file_meta := fetch (archive_dir self) now f in
  let existing_meta := get_file st (file_id file_meta) in
  if already_processed existing_meta then
    let existing_rows := get_rows_by_file st (file_id file_meta) in
    (st, Return (file_meta, CachedRows existing_rows (chunk_size self)))
  else
    let file_meta := with_status file_meta FS_PROCESSING in
    let st := insert_file st file_meta in
    let file_format := detect f in
    match try_parse st now f file_format file_meta with
    | Return (st', file_meta', row_iterator) => (st', Return (file_meta', row_iterator))
    | Raise e =>
        let file_meta := with_error_message (with_status file_meta FS_FAILED) (exn_msg e) in
        (insert_file st file_meta, Raise e)
    end.

Definition chunk_total (chunks : list (list Row)) : Z :=
  foldl (fun n chunk => n + Z.of_nat (length chunk)) 0 chunks.

(** The body of the loop of [process_directory] for one file.  The
    record appended to [file_results] is the object the generator
    updates, so the list shows it as the generator last left it. *)
Definition process_entry (self : IngestionPipeline) (now : Z)
    (acc : MetadataStore * BatchResult) (f : SourceFile)
  : MetadataStore * BatchResult :=
  let '(st, batch) := acc in
  match process_file self st now f with
  | (st1, Return (file_meta, row_iterator)) =>
      let d := drain st1 now row_iterator in
      (dr_store d,
       {| batch_id := batch_id batch; started_at := started_at batch;
          completed_at := completed_at batch;
          file_results :=
            (file_results batch ++ [default file_meta (dr_meta d)])%list;
          total_rows := total_rows batch + chunk_total (dr_chunks d);
          batch_valid_rows := batch_valid_rows batch;
          batch_flagged_rows := batch_flagged_rows batch;
          batch_error_rows := batch_error_rows batch;
          batch_status := batch_status batch;
          errors :=
            match dr_error d with
            | Some e => (errors batch ++ [exn_msg e])%list
            | None => errors batch
            end |})
  | (st1, Raise e) =>
      (st1,
       {| batch_id := batch_id batch; started_at := started_at batch;
          completed_at := completed_at batch;
          file_results := file_results batch;
          total_rows := total_rows batch;
          batch_valid_rows := batch_valid_rows batch;
          batch_flagged_rows := batch_flagged_rows batch;
          batch_error_rows := batch_error_rows batch;
          batch_status := batch_status batch;
          errors := (errors batch ++ [exn_msg e])%list |})
  end.

(** [IngestionPipeline.process_directory] over the files the directory
    holds, in the order [glob] lists them. *)
Definition process_directory (self : IngestionPipeline) (st : MetadataStore)
    (now : Z) (new_batch_id : string) (input_files : list SourceFile)
  : MetadataStore * BatchResult :=
  let batch_result :=
    {| batch_id := new_batch_id; started_at := now; completed_at := None;
       file_results := []; total_rows := 0; batch_valid_rows := 0;
       batch_flagged_rows := 0; batch_error_rows := 0;
       batch_status := FS_PROCESSING; errors := [] |} in
  match input_files with
  | [] => (st, batch_result)
  | _ =>
      let '(st', batch) :=
        foldl (process_entry self now) (st, batch_result) input_files in
      (st',
       {| batch_id := batch_id batch; started_at := started_at batch;
          completed_at := Some now;
          file_results := file_results batch;
          total_rows := total_rows batch;
          batch_valid_rows := batch_valid_rows batch;
          batch_flagged_rows := batch_flagged_rows batch;
          batch_error_rows := batch_error_rows batch;
          batch_status :=
            match errors batch with
            | [] => FS_SUCCESS
            | _ => FS_PARTIAL_SUCCESS
            end;
          errors := errors batch |})
  end.
End Ingestion.

(** ** metadata_store.py, the other queries *)

(** [SELECT * FROM rows WHERE row_id = ?] *)
Definition get_row (st : MetadataStore) (id : string) : option Row :=
  fst <$> rows st !! id.

(** [file_exists] *)
Definition file_exists (st : MetadataStore) (id : string) : bool :=
  match get_file st id with
  | Some _ => true
  | None => false
  end.

(** ** normalizer.py *)

(** The branch of [normalize_row] for one value: [None] stays, a string
    is stripped and becomes [None] when nothing is left, anything else
    stays. *)
Definition normalize_value (v : value) : value :=
  match v with
  | VNone => VNone
  | VStr s =>
      let s' := str_strip s in
      if String.eqb s' "" then VNone else VStr s'
  | _ => v
  end.

(** [Normalizer.normalize_row] *)
Definition normalize_row (raw_row : pydict) : pydict :=
  normalize_value <$> raw_row.

(** ** normalization_pipeline.py *)

Definition set_normalized (row : Row) (normalized : pydict) : Row :=
  {| row_id := row_id row; row_file_id := row_file_id row;
     line_number := line_number row; raw_data := raw_data row;
     normalized_data := normalized;
     canonical_data := canonical_data row;
     row_status := row_status row;
     validation_errors := validation_errors row;
     mapping_confidence := mapping_confidence row;
     ai_suggestions := ai_suggestions row;
     approved_by := approved_by row;
     approved_at := approved_at row |}.

Definition set_mapping (row : Row) (canonical : pydict) (conf : gmap string float) : Row :=
  {| row_id := row_id row; row_file_id := row_file_id row;
     line_number := line_number row; raw_data := raw_data row;
     normalized_data := normalized_data row;
     canonical_data := canonical;
     row_status := row_status row;
     validation_errors := validation_errors row;
     mapping_confidence := conf;
     ai_suggestions := ai_suggestions row;
     approved_by := approved_by row;
     approved_at := approved_at row |}.

Section Normalization.
Context {rt : PyRuntime}.

(** [NormalizationPipeline.process_row], with the pipeline's mapper. *)
Definition process_row (mapper : FieldMapper) (row : Row) : result (FieldMapper * Row) :=
  let row := set_normalized row (normalize_row (raw_data row)) in
  let! (mapper', (canonical_data, confidence)) := map_row mapper row in
  Return (mapper', set_mapping row canonical_data confidence).

(** [NormalizationPipeline.process_batch]: every row is normalized, then
    every row is mapped, then every row is stored. *)
Definition process_batch (mapper : FieldMapper) (st : MetadataStore) (now : Z)
    (batch : list Row) : result (FieldMapper * MetadataStore * list Row) :=
  let batch := (fun row => set_normalized row (normalize_row (raw_data row))) <$> batch in
  let! (mapper', batch) := map_rows mapper batch in
  Return (mapper', foldl (fun s r => insert_row s now r) st batch, batch).
End Normalization.

(** ** validation_pipeline.py, batches and files *)

Section ValidationBatch.
Context {rt : PyRuntime}.

(** [ValidationPipeline.validate_batch]: the store after the call, and
    the pair [(valid, flagged)] or the exception of the first row whose
    validation raises; the rows before it are stored by then. *)
Fixpoint validate_batch_from (self : ValidationPipeline) (st : MetadataStore) (now : Z)
    (valid flagged : list Row) (batch : list Row)
  : MetadataStore * result (list Row * list Row) :=
  match batch with
  | [] => (st, Return (valid, flagged))
  | row :: rest =>
      match validate_row self row with
      | Raise e => (st, Raise e)
      | Return validated_row =>
          let st := insert_row st now validated_row in
          if decide (row_status validated_row = VALID) then
            validate_batch_from self st now (valid ++ [validated_row]) flagged rest
          else
            validate_batch_from self st now valid (flagged ++ [validated_row]) rest
      end
  end.

Definition validate_batch (self : ValidationPipeline) (st : MetadataStore) (now : Z)
    (batch : list Row) : MetadataStore * result (list Row * list Row) :=
  validate_batch_from self st now [] [] batch.

(** [ValidationPipeline.validate_file] *)
Definition validate_file (self : ValidationPipeline) (st : MetadataStore) (now : Z)
    (new_batch_id : string) (id : string) : MetadataStore * BatchResult :=
  let batch_result :=
    {| batch_id := new_batch_id; started_at := now; completed_at := None;
       file_results := []; total_rows := 0; batch_valid_rows := 0;
       batch_flagged_rows := 0; batch_error_rows := 0;
       batch_status := FS_PROCESSING; errors := [] |} in
  match get_rows_by_file st id with
  | [] => (st, batch_result)
  | file_rows =>
      match validate_batch self st now file_rows with
      | (st', Return (valid, flagged)) =>
          (st',
           {| batch_id := new_batch_id; started_at := now; completed_at := Some now;
              file_results := [];
              total_rows := Z.of_nat (length file_rows);
              batch_valid_rows := Z.of_nat (length valid);
              batch_flagged_rows := Z.of_nat (length flagged);
              batch_error_rows := 0;
              batch_status := FS_SUCCESS; errors := [] |})
      | (st', Raise e) =>
          (st',
           {| batch_id := new_batch_id; started_at := now; completed_at := None;
              file_results := []; total_rows := 0; batch_valid_rows := 0;
              batch_flagged_rows := 0; batch_error_rows := 0;
              batch_status := FS_FAILED; errors := [exn_msg e] |})
      end
  end.
End ValidationBatch.

(** * Specification vocabulary and sample inputs *)

(** A statement that holds whatever the runtime's functions are. *)
Definition in_every_runtime (P : PyRuntime -> Prop) : Prop :=
  forall rt : PyRuntime, P rt.

(** The kinds [ValidationRule.VALIDATORS] registers. *)
Definition registered_kinds : list string :=
  ["required"; "type"; "range"; "enum"; "regex"; "length"; "date_format"].

Definition unique_rule : ValidationRule.t :=
  {| ValidationRule.field := "order_id";
     ValidationRule.rule_type := "unique";
     ValidationRule.kwargs := ∅;
     ValidationRule.message := "order_id failed unique" |}.

Definition required_total_rule : ValidationRule.t :=
  {| ValidationRule.field := "total";
     ValidationRule.rule_type := "required";
     ValidationRule.kwargs := ∅;
     ValidationRule.message := "total failed required" |}.

(** The formula [total == quantity * price] over the fields [quantity],
    [price] and [total], and a row that has no [total]. *)
Definition total_formula_rule : CrossFieldRule.t :=
  {| CrossFieldRule.fields := ["quantity"; "price"; "total"];
     CrossFieldRule.rule_type := "formula";
     CrossFieldRule.kwargs := ∅;
     CrossFieldRule.message := "total must equal quantity * price";
     CrossFieldRule.formula :=
       Some (Compare (Name "total") Eq
                     (BinOp (Name "quantity") Mult (Name "price"))) |}.

Definition row_without_total : pydict :=
  <["quantity" := VFloat 2%float]> (<["price" := VFloat 3.5%float]> ∅).

(** A row whose required [total] is null and whose order status is not
    allowed: one structural and one semantic rule fail. *)
Definition sample_validation : ValidationPipeline :=
  {| row_validator :=
       [{| ValidationRule.field := "total";
           ValidationRule.rule_type := "required";
           ValidationRule.kwargs := ∅;
           ValidationRule.message := "total is required" |}];
     cross_validator := [];
     semantic_validator :=
       [{| SemanticRule.rule_type := "status_transition";
           SemanticRule.kwargs := ∅;
           SemanticRule.message := "status not allowed" |}] |}.

Definition null_total_row : Row :=
  {| row_id := "f_1"; row_file_id := "f"; line_number := 1;
     raw_data := ∅; normalized_data := ∅;
     canonical_data := {["total" := VNone]};
     row_status := PENDING; validation_errors := [];
     mapping_confidence := ∅; ai_suggestions := ∅;
     approved_by := None; approved_at := None |}.

Definition required_violation : violation :=
  [("field", "total"); ("rule", "required"); ("message", "total is required")].

Definition status_violation : violation :=
  [("field", "order_status"); ("rule", "status_transition");
   ("message", "status not allowed")].


(** The pair [(mapped, confidence)] of a call of [map_row]. *)
Definition map_output (r : result (FieldMapper * (pydict * gmap string float)))
  : result (pydict * gmap string float) :=
  match r with
  | Return (_, out) => Return out
  | Raise e => Raise e
  end.

(** Two rules for the canonical field [quantity]: [Qty] at priority 5 and
    [Quantity] at priority 10, and a row that has both vendor fields. *)
Definition rule_Qty : MappingRule :=
  {| vendor_field := "Qty"; canonical_field := "quantity"; rule_type := "exact";
     pattern := None; priority := 5; fallback := false; confidence := 1%float |}.

Definition rule_Quantity : MappingRule :=
  {| vendor_field := "Quantity"; canonical_field := "quantity"; rule_type := "exact";
     pattern := None; priority := 10; fallback := false; confidence := 0.5%float |}.

Definition blank_row (raw normalized : pydict) : Row :=
  {| row_id := "f_1"; row_file_id := "f"; line_number := 1; raw_data := raw;
     normalized_data := normalized; canonical_data := ∅; row_status := PENDING;
     validation_errors := []; mapping_confidence := ∅; ai_suggestions := ∅;
     approved_by := None; approved_at := None |}.

Definition both_quantities : pydict :=
  <["Qty" := VStr "2"]> (<["Quantity" := VStr "9"]> ∅).

(** Two rows that are not normalized yet and differ in their raw data. *)
Definition raw_row_1 : Row := blank_row {["Qty" := VStr "1"]} ∅.
Definition raw_row_2 : Row := blank_row {["Qty" := VStr "2"]} ∅.

(** *** Vocabulary for duplicate marking *)

(** The positions of [k] in [keys], counted from [start]. *)
Fixpoint indices_from (k : string) (start : nat) (keys : list string) : list nat :=
  match keys with
  | [] => []
  | x :: rest =>
      (if decide (x = k) then [start] else []) ++ indices_from k (S start) rest
  end.

(** [duplicates.get(k, [])] *)
Fixpoint lookup_group (duplicates : list (string * list nat)) (k : string) : list nat :=
  match duplicates with
  | [] => []
  | (k', indices) :: rest =>
      if decide (k' = k) then indices else lookup_group rest k
  end.



(** The deduplication key of a row. *)
Definition key_of {rt : PyRuntime} (key_fields : list string) (row : Row) : string :=
  generate_dedup_key row key_fields.


(** *** Sample files *)

Definition empty_store : MetadataStore := {| files := ∅; rows := ∅ |}.

Definition sample_pipeline : IngestionPipeline :=
  {| archive_dir := "archive"; chunk_size := 500 |}.

(** A CSV file of two rows that parses. *)
Definition orders_csv : SourceFile :=
  {| sf_name := "orders.csv"; sf_path := "/in/orders.csv"; sf_suffix := ".csv";
     sf_content := "order_id,total
A100,7.00
A101,8.00
";
     sf_sniffed := "csv";
     sf_chunks := [[ {["order_id" := VStr "A100"; "total" := VStr "7.00"]};
                     {["order_id" := VStr "A101"; "total" := VStr "8.00"]} ]];
     sf_parse_error := None |}.

(** An XML file that is not well formed: [ET.parse] raises [ParseError],
    a [SyntaxError], before the parser yields a chunk. *)
Definition broken_xml : SourceFile :=
  {| sf_name := "broken.xml"; sf_path := "/in/broken.xml"; sf_suffix := ".xml";
     sf_content := "<orders><order></orders>";
     sf_sniffed := "xml";
     sf_chunks := [];
     sf_parse_error :=
       Some (Exn SyntaxError "mismatched tag: line 1, column 17") |}.

(** A text file: no parser is registered for its format. *)
Definition notes_txt : SourceFile :=
  {| sf_name := "notes.txt"; sf_path := "/in/notes.txt"; sf_suffix := ".txt";
     sf_content := "call the vendor";
     sf_sniffed := "txt";
     sf_chunks := [];
     sf_parse_error := None |}.

(** The identity [fetch] gives a file. *)
Definition file_key {rt : PyRuntime} (f : SourceFile) : string :=
  sha256_hexdigest (sf_content f).

(** *** Vocabulary for the mapper *)

(** The rule kinds [map_row] executes. *)
Definition executed_kind (kind : string) : Prop :=
  kind = "exact" \/ kind = "regex" \/ kind = "substring".

(** The loop state holds, for every canonical field written so far, the
    value and the confidence of one rule of the list, and only vendor
    fields of rules that matched are marked as used. *)
Definition map_state_ok (rules : list MappingRule) (source : pydict) (st : map_state) : Prop :=
  let '(mapped, conf, used) := st in
  (forall c, mapped !! c = None /\ conf !! c = None \/
             exists rule, rule ∈ rules /\ executed_kind (rule_type rule) /\
                          canonical_field rule = c /\
                          mapped !! c = source !! vendor_field rule /\
                          is_Some (mapped !! c) /\
                          conf !! c = Some (confidence rule)) /\
  (forall f, f ∈ used ->
             f ∈ dom source /\ exists rule, rule ∈ rules /\ vendor_field rule = f).

(** What [map_row] returns for the row with both quantity fields. *)
Definition both_mapped : pydict :=
  <["quantity" := VStr "9"]> (<["quantity" := VStr "2"]> ∅).

Definition both_confidence : gmap string float :=
  <["quantity" := 0.5%float]> (<["quantity" := 1%float]> ∅).

Definition both_mapper : FieldMapper :=
  {| mapping_rules := [rule_Qty; rule_Quantity]; unmapped_fields := ∅ |}.

(** A custom-function rule, and a row with a field no rule names. *)
Definition rule_function : MappingRule :=
  {| vendor_field := "Qty"; canonical_field := "quantity"; rule_type := "function";
     pattern := Some "to_int"; priority := 1; fallback := false; confidence := 1%float |}.

Definition rule_regex_no_pattern : MappingRule :=
  {| vendor_field := "Qty"; canonical_field := "quantity"; rule_type := "regex";
     pattern := None; priority := 1; fallback := false; confidence := 1%float |}.

(** *** Vocabulary for normalization *)

(** A string that [normalize_row] can leave in a row: not empty and with
    no whitespace at either end. *)
Definition trimmed (s : string) : Prop := s <> "" /\ str_strip s = s.

(** The part of a row that [process_row] computes. *)
Definition processed_part (r : result (FieldMapper * Row))
  : result (pydict * pydict * gmap string float) :=
  match r with
  | Return (_, row) =>
      Return (normalized_data row, canonical_data row, mapping_confidence row)
  | Raise e => Raise e
  end.

(** A raw row as a CSV reader yields it. *)
Definition padded_raw : pydict :=
  <["Qty" := VStr " 2 "]> (<["Quantity" := VStr "   "]> {["Note" := VInt 7]}).

Definition padded_row : Row := blank_row padded_raw ∅.

(** What [process_row] makes of [padded_row] under the rule for [Qty]. *)
Definition padded_row_processed : Row :=
  set_mapping (set_normalized padded_row (normalize_row padded_raw))
              {["quantity" := VStr "2"]} {["quantity" := 1%float]}.

Definition Qty_mapper_after : FieldMapper :=
  {| mapping_rules := [rule_Qty]; unmapped_fields := {["Quantity"; "Note"]} |}.

(** *** Sample rules for the structural checks *)

Definition range_0_10 : pydict :=
  <["min_value" := VInt 0]> {["max_value" := VStr "10"]}.

Definition length_2_5 : pydict :=
  <["min_length" := VInt 2]> {["max_length" := VInt 5]}.

Definition range_rule (field : string) (kwargs : pydict) : ValidationRule.t :=
  {| ValidationRule.field := field; ValidationRule.rule_type := "range";
     ValidationRule.kwargs := kwargs;
     ValidationRule.message := "out of range" |}.

(** A pipeline with one range rule on [total], and a row whose [total]
    is not a number. *)
Definition range_pipeline : ValidationPipeline :=
  {| row_validator := [range_rule "total" range_0_10];
     cross_validator := []; semantic_validator := [] |}.


(** The verdict of a check that passes when [ok] holds. *)
Definition verdict_of (ok : bool) (message : string) : verdict :=
  if ok then (true, None) else (false, Some message).

(** *** Vocabulary for the cross-field and semantic layers *)

(** The field is populated in the row: its value is truthy. *)
Definition populated (data : pydict) (f : string) : Prop :=
  py_truthy (default VNone (data !! f)) = true.

(** The violation a cross-field rule reports on its field list. *)
Definition fields_violation (rule : CrossFieldRule.t) : violation :=
  [("fields", str_join "," (CrossFieldRule.fields rule));
   ("rule", CrossFieldRule.rule_type rule);
   ("message", CrossFieldRule.message rule)].

Definition status_transition_violation (rule : SemanticRule.t) : violation :=
  [("field", "order_status"); ("rule", "status_transition");
   ("message", SemanticRule.message rule)].

(** A status-transition rule whose allow-list is a list, if it has one. *)
Definition allow_list_ok (rule : SemanticRule.t) : Prop :=
  SemanticRule.rule_type rule = "status_transition" ->
  SemanticRule.kwargs rule !! "allowed_from" = None \/
  exists l, SemanticRule.kwargs rule !! "allowed_from" = Some (VList l).

Definition exclusive_rule : CrossFieldRule.t :=
  {| CrossFieldRule.fields := ["discount_code"; "discount_percent"];
     CrossFieldRule.rule_type := "mutual_exclusion";
     CrossFieldRule.kwargs := ∅;
     CrossFieldRule.message := "only one discount";
     CrossFieldRule.formula := None |}.

Definition open_status_rule : SemanticRule.t :=
  {| SemanticRule.rule_type := "status_transition";
     SemanticRule.kwargs := ∅;
     SemanticRule.message := "status not allowed" |}.

(** The verdict part of a row. *)
Definition with_verdict (row : Row) (errors : list violation) : Row :=
  set_validation row errors (match errors with [] => VALID | _ => FLAGGED end).

(** A row as [validate_batch] sorts it: in [valid] with no violation, or
    in [flagged] with one at least. *)
Definition is_valid_row (row : Row) : Prop :=
  row_status row = VALID /\ validation_errors row = [].

Definition is_flagged_row (row : Row) : Prop :=
  row_status row = FLAGGED /\ validation_errors row <> [].

(** The flagged row of the sample validation, and the store holding it. *)
Definition null_total_flagged : Row :=
  with_verdict null_total_row [required_violation; status_violation].

Definition store_with_flagged : MetadataStore :=
  insert_row empty_store 100 null_total_flagged.


(** Three rows, the first and the last with the same raw data. *)
Definition repeated_rows : list Row := [raw_row_1; raw_row_2; raw_row_1].

(** [process_row] on each row in turn, the mapper going from one row to
    the next. *)
Fixpoint process_rows {rt : PyRuntime} (mapper : FieldMapper) (rows : list Row)
  : result (FieldMapper * list Row) :=
  match rows with
  | [] => Return (mapper, [])
  | row :: rest =>
      let! (mapper', row') := process_row mapper row in
      let! (mapper'', rest') := process_rows mapper' rest in
      Return (mapper'', row' :: rest')
  end.

(** *** Samples and vocabulary for the layers and the range check *)








(** * Properties *)

(** ** Sequencing and loops *)

Lemma bind_Return {A B} (a : A) (f : A -> result B) : bind (Return a) f = f a.
Proof. reflexivity. Qed.

Lemma bind_Raise {A B} (e : exn) (f : A -> result B) : bind (Raise e) f = Raise e.
Proof. reflexivity. Qed.

Lemma bind_Return_inv {A B} (m : result A) (f : A -> result B) (b : B) :
  bind m f = Return b -> exists a, m = Return a /\ f a = Return b.
Proof. destruct m as [a|e]; simpl; [eauto | discriminate]. Qed.

Lemma foldM_app {A B} (f : B -> A -> result B) (b : B) (l1 l2 : list A) :
  foldM f b (l1 ++ l2) = bind (foldM f b l1) (fun b' => foldM f b' l2).
Proof.
  revert b. induction l1 as [|a l1 IH]; intros b; simpl; [done|].
  destruct (f b a) as [b'|e]; simpl; [apply IH | done].
Qed.

Lemma foldM_total {A B} (f : B -> A -> B) (b : B) (l : list A) :
  foldM (fun b a => Return (f b a)) b l = Return (foldl f b l).
Proof. revert b. induction l as [|a l IH]; intros b; simpl; [done | apply IH]. Qed.

Lemma dict_or_empty_r {V} (d : gmap string V) : dict_or d ∅ = d.
Proof.
  unfold dict_or, dict_truthy. case_bool_decide as H; [done|].
  destruct (decide (d = ∅)) as [->|Hne]; [done | by destruct H].
Qed.

Lemma dict_or_truthy {V} (a b : gmap string V) : a ≠ ∅ -> dict_or a b = a.
Proof. intros H. unfold dict_or, dict_truthy. by rewrite bool_decide_true. Qed.

Lemma dict_or_empty_l {V} (b : gmap string V) : dict_or ∅ b = b.
Proof. unfold dict_or, dict_truthy. rewrite bool_decide_false; [done | by intros []]. Qed.

(** ** Structural validation (validator.py) *)

Section ValidatorFacts.
Context {rt : PyRuntime}.

Lemma VALIDATORS_unregistered (kind : string) :
  kind ∉ registered_kinds -> VALIDATORS !! kind = None.
Proof. intros H. unfold VALIDATORS. by apply not_elem_of_list_to_map_1. Qed.

Lemma VALIDATORS_range : VALIDATORS !! "range" = Some _range_check.
Proof. reflexivity. Qed.

Lemma validate_rule_missing (data : pydict) (errors : list violation)
    (rule : ValidationRule.t) :
  data !! ValidationRule.field rule = None ->
  validate_rule data errors rule = Return errors.
Proof. intros H. unfold validate_rule. by rewrite H. Qed.
End ValidatorFacts.

(** C10: a structural rule whose kind is none of the seven registered
    kinds reports every value as valid, without raising; evaluated on a
    row it yields no violation. *)
Theorem C10_unknown_rule_kind_passes {rt : PyRuntime}
    (rule : ValidationRule.t) (v : value) (data : pydict)
    (Hkind : ValidationRule.rule_type rule ∉ registered_kinds) :
  ValidationRule_validate rule v = Return (true, None) /\
  RowValidator_validate [rule] data = Return [].
Proof.
  assert (Hv : forall w, ValidationRule_validate rule w = Return (true, None)).
  { intros w. unfold ValidationRule_validate.
    by rewrite (VALIDATORS_unregistered _ Hkind). }
  split; [apply Hv|].
  unfold RowValidator_validate. simpl. unfold validate_rule.
  destruct (data !! ValidationRule.field rule) as [w|]; [|done].
  by rewrite Hv.
Qed.

Lemma C10_witness :
  in_every_runtime (fun rt =>
    ValidationRule_validate unique_rule VNone = Return (true, None) /\
    RowValidator_validate [unique_rule] {["order_id" := VNone]} = Return []).
Proof.
  intros rt. apply (C10_unknown_rule_kind_passes unique_rule VNone).
  apply (bool_decide_unpack _). vm_compute. reflexivity.
Defined.

(** C8: a structural rule whose field is not a key of the row's canonical
    data is skipped, whatever its kind: it adds no violation, raises
    nothing, and dropping it from the rule list leaves the result
    unchanged. *)
Theorem C8_missing_field_is_skipped {rt : PyRuntime}
    (rule : ValidationRule.t) (data : pydict)
    (Hmissing : ValidationRule.field rule ∉ dom data) :
  RowValidator_validate [rule] data = Return [] /\
  forall before after : list ValidationRule.t,
    RowValidator_validate (before ++ rule :: after) data =
    RowValidator_validate (before ++ after) data.
Proof.
  apply not_elem_of_dom in Hmissing.
  split.
  - unfold RowValidator_validate. simpl. by rewrite validate_rule_missing.
  - intros before after. unfold RowValidator_validate.
    rewrite !foldM_app. destruct (foldM _ [] before) as [errs|e]; simpl; [|done].
    by rewrite validate_rule_missing.
Qed.

Lemma C8_witness :
  in_every_runtime (fun rt =>
    RowValidator_validate [required_total_rule] {["quantity" := VInt 2]} = Return [] /\
    forall before after : list ValidationRule.t,
      RowValidator_validate (before ++ required_total_rule :: after) {["quantity" := VInt 2]} =
      RowValidator_validate (before ++ after) {["quantity" := VInt 2]}).
Proof.
  intros rt. apply (C8_missing_field_is_skipped required_total_rule).
  apply (bool_decide_unpack _). vm_compute. reflexivity.
Defined.

(** ** Cross-field formulas (cross_field_validator.py) *)

Lemma total_formula_raises {rt : PyRuntime} :
  eval_formula total_formula_rule row_without_total = Raise (Exn NameError "total").
Proof. vm_compute. reflexivity. Qed.

(** C2, as stated, fails: on a row without [total] the evaluation of the
    formula raises [NameError], and the validator returns no violation,
    for the rule alone and for the validator that runs it. *)
Lemma C2_counterexample :
  in_every_runtime (fun rt =>
    eval_formula total_formula_rule row_without_total = Raise (Exn NameError "total") /\
    _validate_formula total_formula_rule row_without_total = Return None /\
    CrossFieldValidator_validate [total_formula_rule] row_without_total = Return []).
Proof.
  intros rt. split; [apply total_formula_raises|].
  split.
  - unfold _validate_formula. by rewrite total_formula_raises.
  - unfold CrossFieldValidator_validate, CrossFieldRule_validate, _validate_formula.
    simpl. by rewrite total_formula_raises.
Qed.

(** C2, amended: when the evaluation of a formula rule raises, the rule
    returns normally with no violation (the error is logged and the rule
    passes), so no exception escapes. *)
Theorem C2_formula_error_passes {rt : PyRuntime}
    (rule : CrossFieldRule.t) (data : pydict) (e : exn)
    (Hraises : eval_formula rule data = Raise e) :
  _validate_formula rule data = Return None.
Proof. unfold _validate_formula. by rewrite Hraises. Qed.

Lemma C2_witness :
  in_every_runtime (fun rt => _validate_formula total_formula_rule row_without_total = Return None).
Proof.
  intros rt.
  apply (C2_formula_error_passes total_formula_rule row_without_total (Exn NameError "total")).
  vm_compute. reflexivity.
Defined.

(** A formula rule never raises, whatever the row. *)
Lemma validate_formula_returns {rt : PyRuntime} (rule : CrossFieldRule.t) (data : pydict) :
  exists r, _validate_formula rule data = Return r.
Proof.
  unfold _validate_formula.
  destruct (eval_formula rule data) as [v|e]; [destruct (py_truthy v)|]; eauto.
Qed.

(** ** The three layers (validation_pipeline.py) *)




(** ** Range checks (validator.py) *)

Lemma dec_scaled_rescale (neg : bool) (c : N) (ex m e : Z) :
  e <= m -> m <= ex ->
  dec_scaled neg c ex e = dec_scaled neg c ex m * 10 ^ (m - e).
Proof.
  intros He Hm. unfold dec_scaled.
  replace (ex - e) with ((ex - m) + (m - e)) by lia.
  rewrite Z.pow_add_r by lia. destruct neg; lia.
Qed.

(** The comparison of two finite decimals is the comparison of their
    values at any common scale: it is exact. *)
Lemma dec_lt_exact (na nb : bool) (ca cb : N) (ea eb e : Z) :
  e <= ea -> e <= eb ->
  dec_lt (DFin na ca ea) (DFin nb cb eb) =
  Return (dec_scaled na ca ea e <? dec_scaled nb cb eb e).
Proof.
  intros Ha Hb. unfold dec_lt. f_equal.
  rewrite (dec_scaled_rescale na ca ea (Z.min ea eb) e) by lia.
  rewrite (dec_scaled_rescale nb cb eb (Z.min ea eb) e) by lia.
  assert (0 < 10 ^ (Z.min ea eb - e)) by (apply Z.pow_pos_nonneg; lia).
  apply eq_iff_eq_true. rewrite !Z.ltb_lt. nia.
Qed.

Lemma dec_lt_irrefl (neg : bool) (c : N) (e : Z) :
  dec_lt (DFin neg c e) (DFin neg c e) = Return false.
Proof. unfold dec_lt. by rewrite Z.ltb_irrefl. Qed.




(** A value equal to both bounds passes: the bounds are inclusive. *)
Lemma range_check_bounds_inclusive {rt : PyRuntime}
    (v bound : value) (message : string) (neg : bool) (c : N) (e : Z) :
  is_None v = false -> is_None bound = false ->
  py_Decimal v = Return (DFin neg c e) ->
  bound_Decimal bound = Return (DFin neg c e) ->
  _range_check v message (<["min_value" := bound]> {["max_value" := bound]})
  = Return (true, None).
Proof.
  intros Hv Hb Hval Hbound. unfold _range_check, kw_get.
  rewrite lookup_insert_eq, lookup_insert_ne, lookup_singleton_eq by done.
  cbn -[dec_lt dec_gt bound_Decimal py_Decimal].
  rewrite Hv, Hval, Hb, Hbound. unfold dec_gt. cbn -[dec_lt].
  by rewrite dec_lt_irrefl.
Qed.

(** Two texts that denote the same binary float are still told apart. *)
Lemma range_check_beyond_float_precision {rt : PyRuntime} :
  _range_check (VStr "0.1000000000000000001") "too large" {["max_value" := VStr "0.1"]}
  = Return (false, Some "too large").
Proof. vm_compute. reflexivity. Qed.

(** ** Field mapping (mapper.py) *)

Section MapperFacts.
Context {rt : PyRuntime}.

Lemma sorted_two_rules (rA rB : MappingRule) (rules : list MappingRule) :
  rules = [rA; rB] \/ rules = [rB; rA] ->
  priority rA < priority rB ->
  sorted_by_priority rules = [rA; rB].
Proof.
  intros [-> | ->] Hlt; unfold sorted_by_priority; simpl.
  - by rewrite (proj2 (Z.leb_le _ _)) by lia.
  - by rewrite (proj2 (Z.leb_gt _ _)) by lia.
Qed.

Lemma apply_rule_exact (source : pydict) (st : map_state) (rule : MappingRule) (v : value) :
  rule_type rule = "exact" ->
  source !! vendor_field rule = Some v ->
  apply_rule source st rule = Return (write_rule rule v st).
Proof.
  intros Ht Hv. unfold apply_rule. rewrite Hv.
  by destruct (decide (rule_type rule = "exact")).
Qed.

(** The output of [map_row] is settled by the rule list and the source
    field map. *)
Lemma map_output_source (fm1 fm2 : FieldMapper) (r1 r2 : Row) :
  mapping_rules fm1 = mapping_rules fm2 ->
  dict_or (normalized_data r1) (raw_data r1) = dict_or (normalized_data r2) (raw_data r2) ->
  map_output (map_row fm1 r1) = map_output (map_row fm2 r2).
Proof.
  intros Hrules Hsource. unfold map_row. rewrite Hrules, Hsource.
  destruct (foldM _ _ _) as [[[mapped conf] used]|e]; reflexivity.
Qed.
End MapperFacts.

(** C1 fails on the code: of two [exact] rules for one canonical field
    whose vendor fields are both in the row, the rule with the higher
    priority number settles the value and the confidence, in either
    declaration order: rules run in ascending priority and each matching
    rule overwrites the field. *)
Theorem C1_later_rule_overwrites {rt : PyRuntime}
    (rA rB : MappingRule) (rules : list MappingRule) (row : Row) (vA vB : value)
    (Hdecl : rules = [rA; rB] \/ rules = [rB; rA])
    (HtA : rule_type rA = "exact")
    (HtB : rule_type rB = "exact")
    (Hsame : canonical_field rA = canonical_field rB)
    (Hprio : priority rA < priority rB)
    (HvA : dict_or (normalized_data row) (raw_data row) !! vendor_field rA = Some vA)
    (HvB : dict_or (normalized_data row) (raw_data row) !! vendor_field rB = Some vB) :
  exists mapped conf,
    map_output (map_row (FieldMapper_init rules) row) = Return (mapped, conf) /\
    mapped !! canonical_field rA = Some vB /\
    conf !! canonical_field rA = Some (confidence rB).
Proof.
  unfold map_row, FieldMapper_init. simpl.
  rewrite (sorted_two_rules rA rB rules Hdecl Hprio). simpl.
  rewrite (apply_rule_exact _ _ rA vA HtA HvA). simpl.
  rewrite (apply_rule_exact _ _ rB vB HtB HvB). simpl.
  eexists _, _. split; [reflexivity|].
  rewrite Hsame. by rewrite !lookup_insert_eq.
Qed.

Lemma C1_witness :
  in_every_runtime (fun rt =>
    exists mapped conf,
      map_output (map_row (FieldMapper_init [rule_Quantity; rule_Qty])
                          (blank_row ∅ both_quantities))
      = Return (mapped, conf) /\
      mapped !! "quantity" = Some (VStr "9") /\
      conf !! "quantity" = Some 0.5%float).
Proof.
  intros rt.
  apply (C1_later_rule_overwrites rule_Qty rule_Quantity [rule_Quantity; rule_Qty]
           (blank_row ∅ both_quantities) (VStr "2") (VStr "9")).
  - right. reflexivity.
  - reflexivity.
  - reflexivity.
  - reflexivity.
  - reflexivity.
  - vm_compute. reflexivity.
  - vm_compute. reflexivity.
Defined.

(** C5, as stated, fails: two rows with the same (empty) normalized data
    and different raw data are mapped differently, because an empty
    normalized map makes [map_row] read the raw data. *)
Lemma C5_counterexample :
  normalized_data raw_row_1 = normalized_data raw_row_2 /\
  in_every_runtime (fun rt =>
    exists m1 c1 m2 c2,
      map_output (map_row (FieldMapper_init [rule_Qty]) raw_row_1) = Return (m1, c1) /\
      map_output (map_row (FieldMapper_init [rule_Qty]) raw_row_2) = Return (m2, c2) /\
      m1 !! "quantity" = Some (VStr "1") /\
      m2 !! "quantity" = Some (VStr "2") /\
      map_output (map_row (FieldMapper_init [rule_Qty]) raw_row_1)
      <> map_output (map_row (FieldMapper_init [rule_Qty]) raw_row_2)).
Proof.
  split; [reflexivity|]. intros rt.
  assert (E1 : exists m c,
             map_output (map_row (FieldMapper_init [rule_Qty]) raw_row_1) = Return (m, c) /\
             m !! "quantity" = Some (VStr "1")).
  { eexists _, _. split; vm_compute; reflexivity. }
  assert (E2 : exists m c,
             map_output (map_row (FieldMapper_init [rule_Qty]) raw_row_2) = Return (m, c) /\
             m !! "quantity" = Some (VStr "2")).
  { eexists _, _. split; vm_compute; reflexivity. }
  destruct E1 as (m1 & c1 & E1 & L1), E2 as (m2 & c2 & E2 & L2).
  exists m1, c1, m2, c2. repeat (split; [assumption|]).
  rewrite E1, E2. intros Heq. injection Heq as -> _.
  rewrite L1 in L2. discriminate L2.
Qed.

(** C5, amended: for rows whose normalized field map is not empty, the
    canonical field map and the confidence map are a function of the
    normalized field map and the rule list only: equal normalized data
    under the same rules give equal output, whatever the raw data, the
    other fields of the rows and the mapper's set of unmapped fields; in
    particular a repeated call reproduces the output. *)
Theorem C5_output_determined_by_normalized_data {rt : PyRuntime}
    (fm1 fm2 : FieldMapper) (r1 r2 : Row)
    (Hrules : mapping_rules fm1 = mapping_rules fm2)
    (Hnorm : normalized_data r1 = normalized_data r2)
    (Hnonempty : normalized_data r1 <> ∅) :
  map_output (map_row fm1 r1) = map_output (map_row fm2 r2) /\
  (forall fm1' out, map_row fm1 r1 = Return (fm1', out) ->
                    map_output (map_row fm1' r1) = Return out).
Proof.
  split.
  - apply map_output_source; [done|].
    rewrite !dict_or_truthy; congruence.
  - intros fm1' out Hrun.
    rewrite <- (map_output_source fm1 fm1' r1 r1); [by rewrite Hrun | | done].
    unfold map_row in Hrun.
    destruct (foldM _ _ _) as [[[mapped conf] used]|e]; simpl in Hrun; [|done].
    by inversion Hrun.
Qed.

Lemma C5_witness :
  in_every_runtime (fun rt =>
    map_output (map_row (FieldMapper_init [rule_Quantity; rule_Qty])
                        (blank_row {["Qty" := VStr "1"]} both_quantities))
    = map_output (map_row (FieldMapper_init [rule_Quantity; rule_Qty])
                          (blank_row {["Qty" := VStr "7"]} both_quantities)) /\
    (forall fm1' out,
       map_row (FieldMapper_init [rule_Quantity; rule_Qty])
               (blank_row {["Qty" := VStr "1"]} both_quantities) = Return (fm1', out) ->
       map_output (map_row fm1' (blank_row {["Qty" := VStr "1"]} both_quantities))
       = Return out)).
Proof.
  intros rt.
  apply (C5_output_determined_by_normalized_data
           (FieldMapper_init [rule_Quantity; rule_Qty])
           (FieldMapper_init [rule_Quantity; rule_Qty])
           (blank_row {["Qty" := VStr "1"]} both_quantities)
           (blank_row {["Qty" := VStr "7"]} both_quantities)).
  - reflexivity.
  - reflexivity.
  - intros H. apply (f_equal (fun m : pydict => m !! "Qty")) in H.
    vm_compute in H. discriminate H.
Defined.

(** ** Duplicate marking (reconciler.py) *)

Lemma indices_from_spec (k : string) (keys : list string) (start j : nat) :
  j ∈ indices_from k start keys <->
  (start <= j)%nat /\ keys !! (j - start)%nat = Some k.
Proof.
  revert start. induction keys as [|x rest IH]; intros start; simpl.
  - rewrite elem_of_nil. split; [done | intros [_ H]; discriminate H].
  - rewrite elem_of_app, IH. destruct (decide (x = k)) as [->|Hne].
    + rewrite list_elem_of_singleton. split.
      * intros [-> | [Hle Hlk]].
        -- split; [lia|]. by rewrite Nat.sub_diag.
        -- split; [lia|]. replace (j - start)%nat with (S (j - S start)) by lia. done.
      * intros [Hle Hlk]. destruct (decide (j = start)) as [->|Hjs]; [by left | right].
        split; [lia|]. replace (j - start)%nat with (S (j - S start)) in Hlk by lia. done.
    + rewrite elem_of_nil. split.
      * intros [[] | [Hle Hlk]]. split; [lia|].
        replace (j - start)%nat with (S (j - S start)) by lia. done.
      * intros [Hle Hlk]. right.
        destruct (decide (j = start)) as [->|Hjs].
        -- rewrite Nat.sub_diag in Hlk. simpl in Hlk. congruence.
        -- split; [lia|].
           replace (j - start)%nat with (S (j - S start)) in Hlk by lia. done.
Qed.



Lemma group_add_lookup (d : list (string * list nat)) (x k : string) (idx : nat) :
  lookup_group (group_add d x idx) k =
  (lookup_group d k ++ if decide (x = k) then [idx] else [])%list.
Proof.
  induction d as [|[k' indices] rest IH]; simpl.
  - by destruct (decide (x = k)).
  - destruct (decide (k' = x)) as [->|Hne]; simpl.
    + destruct (decide (x = k)); [done | ]. by rewrite app_nil_r.
    + destruct (decide (k' = k)) as [->|Hk]; [|apply IH].
      destruct (decide (x = k)); [congruence | by rewrite app_nil_r].
Qed.

Lemma group_add_keys (d : list (string * list nat)) (x : string) (idx : nat) :
  (group_add d x idx).*1 = if decide (x ∈ d.*1) then d.*1 else (d.*1 ++ [x])%list.
Proof.
  induction d as [|[k' indices] rest IH].
  - cbn [group_add]. rewrite fmap_nil, decide_False; [done | apply not_elem_of_nil].
  - cbn [group_add]. rewrite !fmap_cons. cbn [fst].
    destruct (decide (k' = x)) as [->|Hne].
    + rewrite fmap_cons. cbn [fst]. rewrite decide_True; [done | by left].
    + rewrite fmap_cons, IH. cbn [fst].
      destruct (decide (x ∈ rest.*1)) as [Hin|Hnin].
      * rewrite decide_True; [done | by right].
      * rewrite decide_False; [done|].
        intros [->|H]%elem_of_cons; done.
Qed.

Lemma group_add_NoDup (d : list (string * list nat)) (x : string) (idx : nat) :
  NoDup d.*1 -> NoDup (group_add d x idx).*1.
Proof.
  intros Hd. rewrite group_add_keys. destruct (decide (x ∈ d.*1)); [done|].
  apply NoDup_app. split; [done|]. split; [|apply NoDup_singleton].
  intros y Hy ->%list_elem_of_singleton. done.
Qed.

Lemma lookup_group_entry (d : list (string * list nat)) (k : string) (indices : list nat) :
  NoDup d.*1 -> (k, indices) ∈ d -> lookup_group d k = indices.
Proof.
  induction d as [|[k' I'] rest IH]; simpl; intros Hd Hin.
  - by apply elem_of_nil in Hin.
  - apply NoDup_cons in Hd as [Hk' Hd].
    apply elem_of_cons in Hin as [[= <- <-]|Hin].
    + by destruct (decide (k = k)).
    + destruct (decide (k' = k)) as [->|Hne]; [|by apply IH].
      destruct Hk'. apply list_elem_of_fmap. by exists (k, indices).
Qed.

Lemma lookup_group_nonempty (d : list (string * list nat)) (k : string) :
  lookup_group d k <> [] -> (k, lookup_group d k) ∈ d.
Proof.
  induction d as [|[k' I'] rest IH]; simpl; [done|].
  destruct (decide (k' = k)) as [->|Hne]; intros H.
  - by left.
  - right. by apply IH.
Qed.

Section ReconcilerFacts.
Context {rt : PyRuntime}.
Variable key_fields : list string.

Lemma group_rows_lookup (rows : list Row) (d : list (string * list nat))
    (start : nat) (k : string) :
  lookup_group (group_rows key_fields d start rows) k =
  (lookup_group d k ++ indices_from k start (key_of key_fields <$> rows))%list.
Proof.
  revert d start. induction rows as [|row rest IH]; intros d start; simpl.
  - by rewrite app_nil_r.
  - rewrite IH, group_add_lookup. by rewrite <- app_assoc.
Qed.

Lemma group_rows_NoDup (rows : list Row) (d : list (string * list nat)) (start : nat) :
  NoDup d.*1 -> NoDup (group_rows key_fields d start rows).*1.
Proof.
  revert d start. induction rows as [|row rest IH]; intros d start Hd; simpl; [done|].
  apply IH. by apply group_add_NoDup.
Qed.

(** What [find_duplicates] groups, before its filter: one entry per key,
    holding the positions of the key. *)
Lemma group_rows_entry (rows : list Row) (k : string) (indices : list nat) :
  (k, indices) ∈ group_rows key_fields [] 0%nat rows ->
  indices = indices_from k 0 (key_of key_fields <$> rows).
Proof.
  intros Hin.
  rewrite <- (lookup_group_entry _ k indices (group_rows_NoDup rows [] 0%nat (NoDup_nil_2)) Hin).
  by rewrite group_rows_lookup.
Qed.

Lemma group_rows_has_key (rows : list Row) (i : nat) (row : Row) :
  rows !! i = Some row ->
  (key_of key_fields row, indices_from (key_of key_fields row) 0 (key_of key_fields <$> rows))
  ∈ group_rows key_fields [] 0%nat rows.
Proof.
  intros Hi.
  assert (Hne : lookup_group (group_rows key_fields [] 0%nat rows) (key_of key_fields row) <> []).
  { rewrite group_rows_lookup. simpl.
    assert (Hmem : i ∈ indices_from (key_of key_fields row) 0 (key_of key_fields <$> rows)).
    { apply indices_from_spec. split; [lia|].
      rewrite Nat.sub_0_r, list_lookup_fmap, Hi. done. }
    intros Hnil. rewrite Hnil in Hmem. by apply elem_of_nil in Hmem. }
  apply lookup_group_nonempty in Hne. by rewrite group_rows_lookup in Hne.
Qed.
End ReconcilerFacts.






Section MarkFacts.
Context {rt : PyRuntime}.


End MarkFacts.









(** ** Ingestion (ingestion_pipeline.py, metadata_store.py) *)

Lemma files_foldl_insert_row (now : Z) (rs : list Row) (st : MetadataStore) :
  files (foldl (fun s r => insert_row s now r) st rs) = files st.
Proof. revert st. induction rs as [|r rs IH]; intros st; simpl; [done | by rewrite IH]. Qed.

Lemma store_chunks_files (now : Z) (file_meta : FileMeta) (chunks : list (list pydict))
    (st : MetadataStore) (line_number : Z) :
  files (store_chunks st now file_meta line_number chunks).1.1 = files st.
Proof.
  revert st line_number. induction chunks as [|chunk rest IH]; intros st n; simpl; [done|].
  specialize (IH (foldl (fun s r => insert_row s now r) st (rows_of_chunk file_meta n chunk))
                 (n + Z.of_nat (length chunk))).
  destruct (store_chunks _ now file_meta _ rest) as [[st'' yielded] n'].
  simpl in *. by rewrite IH, files_foldl_insert_row.
Qed.

Lemma get_file_insert_file (st : MetadataStore) (m : FileMeta) :
  get_file (insert_file st m) (file_id m) = Some m.
Proof. unfold get_file, insert_file. simpl. apply lookup_insert_eq. Qed.

Section IngestionFacts.
Context {rt : PyRuntime}.

Lemma fetch_file_id (dir : string) (now : Z) (f : SourceFile) :
  file_id (fetch dir now f) = file_key f.
Proof. reflexivity. Qed.

(** A file whose record is [SUCCESS] is answered from the store. *)
Lemma process_file_cached (self : IngestionPipeline) (st : MetadataStore) (now : Z)
    (f : SourceFile) (m : FileMeta) :
  get_file st (file_key f) = Some m -> status m = FS_SUCCESS ->
  process_file self st now f =
  (st, Return (fetch (archive_dir self) now f,
               CachedRows (get_rows_by_file st (file_key f)) (chunk_size self))).
Proof.
  intros Hrec Hok. unfold process_file. rewrite fetch_file_id, Hrec. simpl.
  by rewrite bool_decide_true.
Qed.

Lemma drain_cached (st : MetadataStore) (now : Z) (existing : list Row) (n : Z) :
  dr_store (drain st now (CachedRows existing n)) = st.
Proof. unfold drain. destruct (n =? 0); [done|]. by destruct (n <? 0). Qed.

(** A file that is not answered from the store is recorded as
    [PROCESSING], then as [SUCCESS], and its generator is returned. *)
Lemma process_file_fresh (self : IngestionPipeline) (st : MetadataStore) (now : Z)
    (f : SourceFile) :
  already_processed (get_file st (file_key f)) = false ->
  let pending := with_status (fetch (archive_dir self) now f) FS_PROCESSING in
  let done := with_processed_at (with_status pending FS_SUCCESS) now in
  process_file self st now f =
  (insert_file (insert_file st pending) done,
   Return (done, ParsedRows f (detect f) done)).
Proof.
  intros Hnew. unfold process_file. rewrite fetch_file_id, Hnew. reflexivity.
Qed.

(** After a file went through [process_directory], its record is
    [SUCCESS], whether or not its rows could be parsed. *)
Lemma process_directory_single_success (self : IngestionPipeline) (st : MetadataStore)
    (now : Z) (batch : string) (f : SourceFile) :
  exists m, get_file (process_directory self st now batch [f]).1 (file_key f) = Some m /\
            status m = FS_SUCCESS.
Proof.
  unfold process_directory. cbn -[drain process_file].
  destruct (already_processed (get_file st (file_key f))) eqn:Hseen.
  - unfold already_processed in Hseen.
    destruct (get_file st (file_key f)) as [m|] eqn:Hrec; [|done].
    apply bool_decide_eq_true in Hseen.
    rewrite (process_file_cached self st now f m Hrec Hseen). cbn -[drain].
    rewrite drain_cached. eauto.
  - rewrite (process_file_fresh self st now f Hseen). cbn -[drain].
    set (pending := with_status (fetch (archive_dir self) now f) FS_PROCESSING).
    set (done := with_processed_at (with_status pending FS_SUCCESS) now).
    set (st1 := insert_file (insert_file st pending) done).
    unfold drain.
    destruct (bool_decide (detect f ∈ PARSERS)) eqn:Hfmt; simpl.
    + pose proof (store_chunks_files now done (sf_chunks f) st1 0) as Hfiles.
      destruct (store_chunks st1 now done 0 (sf_chunks f)) as [[st' yielded] n] eqn:Hsc.
      simpl in Hfiles.
      destruct (sf_parse_error f) as [e|]; simpl.
      * exists done. split; [|done].
        unfold get_file, file_key. rewrite Hfiles. apply lookup_insert_eq.
      * exists (with_row_count done n). split; [|done].
        apply (get_file_insert_file st' (with_row_count done n)).
    + exists done. split; [|done]. apply (get_file_insert_file _ done).
Qed.
End IngestionFacts.

Lemma process_directory_cached {rt : PyRuntime}
    (self : IngestionPipeline) (st : MetadataStore) (now : Z) (batch : string)
    (f : SourceFile) (m : FileMeta) :
  get_file st (file_key f) = Some m -> status m = FS_SUCCESS ->
  (process_directory self st now batch [f]).1 = st.
Proof.
  intros Hrec Hsuccess. unfold process_directory. cbn -[drain process_file].
  rewrite (process_file_cached self st now f m Hrec Hsuccess). cbn -[drain].
  apply drain_cached.
Qed.

(** C4: when the store holds a [SUCCESS] record for a file's content,
    ingesting the file again changes nothing in the store: [process_file]
    answers with the stored rows, consuming its iterator writes nothing,
    and after the directory run the [files] and [rows] tables are the
    ones before it, with the same single record under the content hash. *)
Theorem C4_reingestion_is_a_noop {rt : PyRuntime}
    (self : IngestionPipeline) (st : MetadataStore) (now : Z) (batch : string)
    (f : SourceFile) (m : FileMeta)
    (Hrec : get_file st (file_key f) = Some m)
    (Hsuccess : status m = FS_SUCCESS) :
  (process_file self st now f).1 = st /\
  (process_directory self st now batch [f]).1 = st /\
  files (process_directory self st now batch [f]).1 = files st /\
  rows (process_directory self st now batch [f]).1 = rows st /\
  get_file (process_directory self st now batch [f]).1 (file_key f) = Some m.
Proof.
  split; [by rewrite (process_file_cached self st now f m Hrec Hsuccess)|].
  by rewrite (process_directory_cached self st now batch f m Hrec Hsuccess).
Qed.

(** Ingesting the same bytes a second time, under any name, leaves the
    store as the first run left it. *)
Lemma ingest_twice_same_store {rt : PyRuntime}
    (self : IngestionPipeline) (st : MetadataStore) (now1 now2 : Z)
    (batch1 batch2 : string) (f f' : SourceFile) :
  sf_content f' = sf_content f ->
  let st1 := (process_directory self st now1 batch1 [f]).1 in
  (process_directory self st1 now2 batch2 [f']).1 = st1.
Proof.
  intros Hsame st1.
  destruct (process_directory_single_success self st now1 batch1 f) as (m & Hrec & Hok).
  assert (Hkey : file_key f' = file_key f) by (unfold file_key; by rewrite Hsame).
  apply (process_directory_cached self st1 now2 batch2 f' m); [by rewrite Hkey | done].
Qed.

Lemma C4_witness :
  in_every_runtime (fun rt =>
    let st1 := (process_directory sample_pipeline empty_store 100 "batch_1" [orders_csv]).1 in
    exists m,
      (get_file st1 (file_key orders_csv) = Some m /\ status m = FS_SUCCESS) /\
      (process_file sample_pipeline st1 200 orders_csv).1 = st1 /\
      (process_directory sample_pipeline st1 200 "batch_2" [orders_csv]).1 = st1 /\
      files (process_directory sample_pipeline st1 200 "batch_2" [orders_csv]).1 = files st1 /\
      rows (process_directory sample_pipeline st1 200 "batch_2" [orders_csv]).1 = rows st1 /\
      get_file (process_directory sample_pipeline st1 200 "batch_2" [orders_csv]).1
               (file_key orders_csv) = Some m).
Proof.
  intros rt st1.
  destruct (process_directory_single_success sample_pipeline empty_store 100
              "batch_1" orders_csv) as (m & Hrec & Hok).
  exists m. split; [by split|].
  apply (C4_reingestion_is_a_noop sample_pipeline st1 200 "batch_2" orders_csv m).
  - exact Hrec.
  - exact Hok.
Defined.

(** C7 fails on the code: when the rows of a file that is not yet
    recorded as [SUCCESS] cannot be produced, because no parser handles
    its format or because the parser raises, the exception surfaces while
    [process_directory] consumes the generator, after [process_file] has
    recorded [SUCCESS]: the record stays [SUCCESS] with no error message.
    The run does go on, with the message in the batch's error list and
    the batch [PARTIAL_SUCCESS]. *)
Theorem C7_failed_parse_is_recorded_as_success {rt : PyRuntime}
    (self : IngestionPipeline) (st : MetadataStore) (now : Z) (batch : string)
    (f : SourceFile) (e : exn)
    (Hnew : already_processed (get_file st (file_key f)) = false)
    (Hfail : ((detect f ∉ PARSERS) /\
              e = Exn ValueError (String.append "Unsupported format: " (detect f))) \/
             ((detect f ∈ PARSERS) /\ sf_parse_error f = Some e)) :
  exists m,
    get_file (process_directory self st now batch [f]).1 (file_key f) = Some m /\
    status m = FS_SUCCESS /\
    error_message m = None /\
    errors (process_directory self st now batch [f]).2 = [exn_msg e] /\
    batch_status (process_directory self st now batch [f]).2 = FS_PARTIAL_SUCCESS.
Proof.
  unfold process_directory. cbn -[drain process_file].
  rewrite (process_file_fresh self st now f Hnew). cbn -[drain].
  set (pending := with_status (fetch (archive_dir self) now f) FS_PROCESSING).
  set (done := with_processed_at (with_status pending FS_SUCCESS) now).
  set (st1 := insert_file (insert_file st pending) done).
  unfold drain. destruct Hfail as [[Hfmt ->] | [Hfmt Herr]].
  - rewrite bool_decide_false by done. simpl.
    exists done. split; [apply (get_file_insert_file _ done)|]. done.
  - rewrite bool_decide_true by done.
    pose proof (store_chunks_files now done (sf_chunks f) st1 0) as Hfiles.
    destruct (store_chunks st1 now done 0 (sf_chunks f)) as [[st' yielded] n].
    rewrite Herr. simpl. exists done.
    split; [|done].
    unfold get_file, file_key. simpl in Hfiles. rewrite Hfiles. apply lookup_insert_eq.
Qed.

Lemma C7_witness :
  in_every_runtime (fun rt =>
    (exists m,
       get_file (process_directory sample_pipeline empty_store 100 "batch_1" [notes_txt]).1
                (file_key notes_txt) = Some m /\
       status m = FS_SUCCESS /\
       error_message m = None /\
       errors (process_directory sample_pipeline empty_store 100 "batch_1" [notes_txt]).2
       = ["Unsupported format: txt"] /\
       batch_status (process_directory sample_pipeline empty_store 100 "batch_1" [notes_txt]).2
       = FS_PARTIAL_SUCCESS) /\
    (exists m,
       get_file (process_directory sample_pipeline empty_store 100 "batch_1" [broken_xml]).1
                (file_key broken_xml) = Some m /\
       status m = FS_SUCCESS /\
       error_message m = None /\
       errors (process_directory sample_pipeline empty_store 100 "batch_1" [broken_xml]).2
       = ["mismatched tag: line 1, column 17"] /\
       batch_status (process_directory sample_pipeline empty_store 100 "batch_1" [broken_xml]).2
       = FS_PARTIAL_SUCCESS)).
Proof.
  intros rt. split.
  - apply (C7_failed_parse_is_recorded_as_success sample_pipeline empty_store 100
             "batch_1" notes_txt (Exn ValueError "Unsupported format: txt")).
    + reflexivity.
    + left. split; [|reflexivity].
      apply (bool_decide_unpack _). vm_compute. reflexivity.
  - apply (C7_failed_parse_is_recorded_as_success sample_pipeline empty_store 100
             "batch_1" broken_xml (Exn SyntaxError "mismatched tag: line 1, column 17")).
    + reflexivity.
    + right. split; [|reflexivity].
      apply (bool_decide_unpack _). vm_compute. reflexivity.
Defined.

(** * Further properties *)

(** ** The rule order of the mapper (mapper.py) *)

Lemma insert_by_priority_perm (r : MappingRule) (l : list MappingRule) :
  insert_by_priority r l ≡ₚ r :: l.
Proof.
  induction l as [|x l IH]; simpl; [done|].
  destruct (priority r <=? priority x); [done|].
  rewrite IH. apply Permutation_swap.
Qed.

Lemma insert_by_priority_sorted (r : MappingRule) (l : list MappingRule) :
  StronglySorted (fun a b => priority a <= priority b) l ->
  StronglySorted (fun a b => priority a <= priority b) (insert_by_priority r l).
Proof.
  induction l as [|x l IH]; intros Hs; simpl.
  - repeat constructor.
  - destruct (priority r <=? priority x) eqn:Hle.
    + apply Z.leb_le in Hle. constructor; [done|].
      apply StronglySorted_inv in Hs as [_ Hx].
      constructor; [done|]. eapply Forall_impl; [exact Hx|]. simpl. lia.
    + apply Z.leb_gt in Hle. apply StronglySorted_inv in Hs as [Hl Hx].
      constructor; [by apply IH|].
      rewrite insert_by_priority_perm. constructor; [lia | done].
Qed.

Lemma insert_by_priority_filter (p : Z) (r : MappingRule) (l : list MappingRule) :
  filter (fun x => priority x = p) (insert_by_priority r l) =
  filter (fun x => priority x = p) (r :: l).
Proof.
  induction l as [|x l IH]; simpl; [done|].
  destruct (priority r <=? priority x) eqn:Hle; [done|].
  apply Z.leb_gt in Hle. rewrite !filter_cons, IH, filter_cons.
  destruct (decide (priority x = p)), (decide (priority r = p)); try done. lia.
Qed.

(** X1: the constructor of [FieldMapper] keeps exactly the rules it is
    given, in ascending priority, and the rules of equal priority in
    their declaration order. *)
Theorem FieldMapper_init_stable_sort (rules : list MappingRule) :
  mapping_rules (FieldMapper_init rules) ≡ₚ rules /\
  StronglySorted (fun a b => priority a <= priority b)
                 (mapping_rules (FieldMapper_init rules)) /\
  (forall p, filter (fun r => priority r = p) (mapping_rules (FieldMapper_init rules))
             = filter (fun r => priority r = p) rules) /\
  unmapped_fields (FieldMapper_init rules) = ∅.
Proof.
  unfold FieldMapper_init, sorted_by_priority. simpl.
  split; [|split; [|split; [|done]]].
  - induction rules as [|r rules IH]; simpl; [done|].
    by rewrite insert_by_priority_perm, IH.
  - induction rules as [|r rules IH]; simpl; [constructor|].
    by apply insert_by_priority_sorted.
  - intros p. induction rules as [|r rules IH]; simpl; [done|].
    by rewrite insert_by_priority_filter, !filter_cons, IH.
Qed.

(** ** What [map_row] writes (mapper.py) *)

(** A loop keeps what each of its steps keeps. *)
Lemma foldM_invariant {A B} (P : B -> Prop) (f : B -> A -> result B) (l : list A) :
  (forall b a b', a ∈ l -> P b -> f b a = Return b' -> P b') ->
  forall b b', P b -> foldM f b l = Return b' -> P b'.
Proof.
  induction l as [|a l IH]; intros Hstep b b' Hb Hrun; simpl in Hrun.
  - by injection Hrun as <-.
  - destruct (f b a) as [b1|e] eqn:Hfa; simpl in Hrun; [|done].
    apply (IH (fun b0 a0 b0' Ha0 => Hstep b0 a0 b0' (list_elem_of_further _ _ _ Ha0)) b1 b');
      [|done].
    apply (Hstep b a b1); [by left | done | done].
Qed.

Section MapRowFacts.
Context {rt : PyRuntime}.

Lemma write_rule_ok (rules : list MappingRule) (source : pydict) (st : map_state)
    (rule : MappingRule) (v : value) :
  rule ∈ rules -> executed_kind (rule_type rule) ->
  source !! vendor_field rule = Some v ->
  map_state_ok rules source st ->
  map_state_ok rules source (write_rule rule v st).
Proof.
  destruct st as [[mapped conf] used]. intros Hin Hkind Hv [Hm Hu]. simpl. split.
  - intros c. destruct (decide (canonical_field rule = c)) as [<-|Hne].
    + right. exists rule. rewrite !lookup_insert_eq, Hv. eauto 10.
    + rewrite !lookup_insert_ne by done. apply Hm.
  - intros f [->%elem_of_singleton|Hf]%elem_of_union; [|by apply Hu].
    split; [|by eauto]. apply elem_of_dom. by rewrite Hv.
Qed.

Lemma apply_rule_ok (rules : list MappingRule) (source : pydict) (st st' : map_state)
    (rule : MappingRule) :
  rule ∈ rules -> map_state_ok rules source st ->
  apply_rule source st rule = Return st' ->
  map_state_ok rules source st'.
Proof.
  intros Hin Hok. unfold apply_rule.
  destruct (source !! vendor_field rule) as [v|] eqn:Hv; [|by intros [= <-]].
  destruct (decide (rule_type rule = "exact")) as [He|_].
  { intros [= <-]. apply write_rule_ok; [done | by left | done | done]. }
  destruct (decide (rule_type rule = "regex")) as [Hr|_].
  { destruct v; try by intros [= <-].
    destruct (pattern rule); [|done].
    destruct (re_search _ _) as [[]|]; simpl; intros [= <-]; [|done].
    apply write_rule_ok; [done | by right; left | done | done]. }
  destruct (decide (rule_type rule = "substring")) as [Hs|_]; [|by intros [= <-]].
  destruct v; try by intros [= <-].
  destruct (pattern rule); [|done].
  destruct (str_contains _ _); intros [= <-]; [|done].
  apply write_rule_ok; [done | by right; right | done | done].
Qed.

Lemma map_row_state (fm : FieldMapper) (row : Row) (fm' : FieldMapper)
    (mapped : pydict) (conf : gmap string float) :
  map_row fm row = Return (fm', (mapped, conf)) ->
  exists used,
    map_state_ok (mapping_rules fm)
                 (dict_or (normalized_data row) (raw_data row)) (mapped, conf, used) /\
    fm' = {| mapping_rules := mapping_rules fm;
             unmapped_fields :=
               unmapped_fields fm ∪
               (dom (dict_or (normalized_data row) (raw_data row)) ∖ used) |}.
Proof.
  unfold map_row.
  destruct (foldM _ _ _) as [[[m c] used]|e] eqn:Hrun; simpl; [|done].
  intros [= <- <- <-]. exists used. split; [|done].
  apply (foldM_invariant
           (map_state_ok (mapping_rules fm) (dict_or (normalized_data row) (raw_data row)))
           (apply_rule (dict_or (normalized_data row) (raw_data row)))
           (mapping_rules fm)) with (b := (∅, ∅, ∅)) (b' := (m, c, used)); [| |exact Hrun].
  - intros b a b' Ha Hb. by apply apply_rule_ok.
  - split; [intros k; left; by rewrite !lookup_empty | intros f Hf; set_solver].
Qed.
End MapRowFacts.

(** X2: [map_row] invents nothing.  Every canonical field of its
    output holds the value of a vendor field of the source data, named by
    a rule of kind exact, regex or substring that targets this canonical
    field, and the confidence recorded for the field is the confidence of
    that same rule; the two maps have the same keys. *)
Theorem map_row_values_come_from_rules {rt : PyRuntime}
    (fm fm' : FieldMapper) (row : Row) (mapped : pydict) (conf : gmap string float)
    (Hrun : map_row fm row = Return (fm', (mapped, conf))) :
  (forall c v, mapped !! c = Some v ->
     exists rule, rule ∈ mapping_rules fm /\
                  executed_kind (rule_type rule) /\
                  canonical_field rule = c /\
                  dict_or (normalized_data row) (raw_data row) !! vendor_field rule = Some v /\
                  conf !! c = Some (confidence rule)) /\
  dom mapped = dom conf.
Proof.
  destruct (map_row_state fm row fm' mapped conf Hrun) as (used & [Hm _] & _).
  split.
  - intros c v Hc. destruct (Hm c) as [[Hn _]|(rule & ? & ? & ? & Hv & _ & ?)];
      [congruence|].
    exists rule. rewrite <- Hv. eauto 10.
  - apply set_eq. intros c. rewrite !elem_of_dom.
    destruct (Hm c) as [[-> ->]|(rule & _ & _ & _ & _ & Hs & ->)]; [|by split].
    split; intros [? ?]; done.
Qed.

(** X3: [map_row] leaves the rule list of the mapper alone and only
    adds to its set of unmapped fields: fields of the source data.  A
    source field that no rule names as its vendor field is reported as
    unmapped. *)
Theorem map_row_unmapped_fields {rt : PyRuntime}
    (fm fm' : FieldMapper) (row : Row) (out : pydict * gmap string float)
    (Hrun : map_row fm row = Return (fm', out)) :
  mapping_rules fm' = mapping_rules fm /\
  unmapped_fields fm ⊆ unmapped_fields fm' /\
  unmapped_fields fm' ⊆
    unmapped_fields fm ∪ dom (dict_or (normalized_data row) (raw_data row)) /\
  (forall f, f ∈ dom (dict_or (normalized_data row) (raw_data row)) ->
             (forall rule, rule ∈ mapping_rules fm -> vendor_field rule <> f) ->
             f ∈ unmapped_fields fm').
Proof.
  destruct out as [mapped conf].
  destruct (map_row_state fm row fm' mapped conf Hrun) as (used & [_ Hu] & ->). simpl.
  split; [done|]. split; [apply union_subseteq_l|].
  split; [intros x; rewrite !elem_of_union, elem_of_difference; tauto|].
  intros f Hf Hnone. apply elem_of_union. right. apply elem_of_difference.
  split; [done|]. intros Hused. destruct (Hu f Hused) as (_ & rule & Hin & Heq).
  by apply (Hnone rule).
Qed.

Lemma X2_witness :
  in_every_runtime (fun rt =>
    (forall c v, both_mapped !! c = Some v ->
       exists rule, rule ∈ mapping_rules (FieldMapper_init [rule_Quantity; rule_Qty]) /\
                    executed_kind (rule_type rule) /\
                    canonical_field rule = c /\
                    dict_or (normalized_data (blank_row ∅ both_quantities))
                            (raw_data (blank_row ∅ both_quantities))
                    !! vendor_field rule = Some v /\
                    both_confidence !! c = Some (confidence rule)) /\
    dom both_mapped = dom both_confidence).
Proof.
  intros rt.
  apply (map_row_values_come_from_rules (FieldMapper_init [rule_Quantity; rule_Qty])
           both_mapper (blank_row ∅ both_quantities) both_mapped both_confidence).
  vm_compute. reflexivity.
Defined.

Lemma X3_witness :
  in_every_runtime (fun rt =>
    mapping_rules both_mapper = mapping_rules (FieldMapper_init [rule_Quantity; rule_Qty]) /\
    unmapped_fields (FieldMapper_init [rule_Quantity; rule_Qty]) ⊆ unmapped_fields both_mapper /\
    unmapped_fields both_mapper ⊆
      unmapped_fields (FieldMapper_init [rule_Quantity; rule_Qty]) ∪
      dom (dict_or (normalized_data (blank_row ∅ both_quantities))
                   (raw_data (blank_row ∅ both_quantities))) /\
    (forall f, f ∈ dom (dict_or (normalized_data (blank_row ∅ both_quantities))
                                (raw_data (blank_row ∅ both_quantities))) ->
               (forall rule, rule ∈ mapping_rules (FieldMapper_init [rule_Quantity; rule_Qty]) ->
                             vendor_field rule <> f) ->
               f ∈ unmapped_fields both_mapper)).
Proof.
  intros rt.
  apply (map_row_unmapped_fields (FieldMapper_init [rule_Quantity; rule_Qty])
           both_mapper (blank_row ∅ both_quantities) (both_mapped, both_confidence)).
  vm_compute. reflexivity.
Defined.

Section MapRowKinds.
Context {rt : PyRuntime}.

Lemma apply_rule_not_executed (source : pydict) (st : map_state) (rule : MappingRule) :
  ~ executed_kind (rule_type rule) -> apply_rule source st rule = Return st.
Proof.
  intros Hk. unfold apply_rule. destruct (source !! vendor_field rule); [|done].
  destruct (decide (rule_type rule = "exact")) as [H|_]; [destruct Hk; by left|].
  destruct (decide (rule_type rule = "regex")) as [H|_]; [destruct Hk; by right; left|].
  destruct (decide (rule_type rule = "substring")) as [H|_]; [|done].
  destruct Hk. by right; right.
Qed.

Lemma apply_rule_no_pattern (source : pydict) (st : map_state) (rule : MappingRule)
    (s : string) :
  rule_type rule = "regex" \/ rule_type rule = "substring" ->
  pattern rule = None ->
  source !! vendor_field rule = Some (VStr s) ->
  exists msg, apply_rule source st rule = Raise (Exn TypeError msg).
Proof.
  intros Hk Hp Hv. unfold apply_rule. rewrite Hv.
  destruct (decide (rule_type rule = "exact")) as [He|_].
  { destruct Hk as [Hk|Hk]; rewrite He in Hk; discriminate Hk. }
  destruct (decide (rule_type rule = "regex")) as [Hr|Hr].
  { rewrite Hp. eauto. }
  destruct Hk as [Hk|Hk]; [done|].
  destruct (decide (rule_type rule = "substring")) as [_|Hs]; [|done].
  rewrite Hp. eauto.
Qed.
End MapRowKinds.

(** X4: rules of a kind other than exact, regex and substring, the
    custom-function kind among them, are never executed: a mapper that
    has only such rules maps every row to empty canonical data and empty
    confidence, without an error, and reports every source field as
    unmapped. *)
Theorem map_row_skips_other_kinds {rt : PyRuntime} (fm : FieldMapper) (row : Row)
    (Hkinds : forall rule, rule ∈ mapping_rules fm -> ~ executed_kind (rule_type rule)) :
  map_row fm row =
  Return ({| mapping_rules := mapping_rules fm;
             unmapped_fields :=
               unmapped_fields fm ∪ dom (dict_or (normalized_data row) (raw_data row)) |},
          (∅, ∅)).
Proof.
  unfold map_row.
  assert (Hrun : forall st, foldM (apply_rule (dict_or (normalized_data row) (raw_data row)))
                                  st (mapping_rules fm) = Return st).
  { induction (mapping_rules fm) as [|rule rules IH]; intros st; simpl; [done|].
    rewrite apply_rule_not_executed by (apply Hkinds; by left). simpl.
    apply IH. intros r Hr. apply Hkinds. by right. }
  rewrite Hrun. simpl. by rewrite difference_empty_L.
Qed.

Lemma X4_witness :
  in_every_runtime (fun rt =>
    map_row (FieldMapper_init [rule_function]) (blank_row ∅ both_quantities) =
    Return ({| mapping_rules := mapping_rules (FieldMapper_init [rule_function]);
               unmapped_fields :=
                 unmapped_fields (FieldMapper_init [rule_function]) ∪
                 dom (dict_or (normalized_data (blank_row ∅ both_quantities))
                              (raw_data (blank_row ∅ both_quantities))) |},
            (∅, ∅))).
Proof.
  intros rt. apply (map_row_skips_other_kinds (FieldMapper_init [rule_function])).
  intros rule Hrule. apply list_elem_of_singleton in Hrule as ->.
  intros [H|[H|H]]; discriminate H.
Defined.

(** X5: a regex or substring rule that has no pattern makes [map_row]
    fail on every row whose field for that rule holds a string: the call
    raises and returns no output. *)
Theorem map_row_rule_without_pattern_raises {rt : PyRuntime}
    (fm : FieldMapper) (row : Row) (rule : MappingRule) (s : string)
    (Hrule : rule ∈ mapping_rules fm)
    (Hkind : rule_type rule = "regex" \/ rule_type rule = "substring")
    (Hpattern : pattern rule = None)
    (Hvalue : dict_or (normalized_data row) (raw_data row) !! vendor_field rule
              = Some (VStr s)) :
  exists e, map_row fm row = Raise e.
Proof.
  unfold map_row. apply list_elem_of_split in Hrule as (before & after & ->).
  rewrite foldM_app.
  destruct (foldM _ _ before) as [st|e]; simpl; [|eauto].
  destruct (apply_rule_no_pattern _ st rule s Hkind Hpattern Hvalue) as [msg ->].
  simpl. eauto.
Qed.

Lemma X5_witness :
  in_every_runtime (fun rt =>
    exists e, map_row (FieldMapper_init [rule_Quantity; rule_regex_no_pattern])
                      (blank_row ∅ both_quantities) = Raise e).
Proof.
  intros rt.
  apply (map_row_rule_without_pattern_raises
           (FieldMapper_init [rule_Quantity; rule_regex_no_pattern])
           (blank_row ∅ both_quantities) rule_regex_no_pattern "2").
  - change (rule_regex_no_pattern ∈ [rule_regex_no_pattern; rule_Quantity]). by left.
  - left. reflexivity.
  - reflexivity.
  - vm_compute. reflexivity.
Defined.

(** ** Normalization (normalizer.py, normalization_pipeline.py) *)

Lemma rstrip_idemp (s : string) : rstrip (rstrip s) = rstrip s.
Proof.
  induction s as [|c s IH]; simpl; [done|].
  destruct (rstrip s) as [|c' r] eqn:Hr.
  - destruct (is_space c) eqn:Hc; simpl; [done | by rewrite Hc].
  - simpl in *. by rewrite IH.
Qed.

Lemma lstrip_no_lead (s : string) :
  match lstrip s with
  | String c _ => is_space c = false
  | EmptyString => True
  end.
Proof.
  induction s as [|c s IH]; simpl; [done|].
  destruct (is_space c) eqn:Hc; [done | simpl; done].
Qed.

Lemma lstrip_id (s : string) :
  match s with String c _ => is_space c = false | EmptyString => True end ->
  lstrip s = s.
Proof. destruct s as [|c s]; simpl; [done|]. by intros ->. Qed.

Lemma rstrip_no_lead (s : string) :
  match s with String c _ => is_space c = false | EmptyString => True end ->
  match rstrip s with String c _ => is_space c = false | EmptyString => True end.
Proof.
  destruct s as [|c s]; simpl; [done|]. intros Hc.
  destruct (rstrip s); [by rewrite Hc | done].
Qed.

Lemma str_strip_idemp (s : string) : str_strip (str_strip s) = str_strip s.
Proof.
  unfold str_strip.
  rewrite (lstrip_id (rstrip (lstrip s))); [apply rstrip_idemp|].
  apply rstrip_no_lead, lstrip_no_lead.
Qed.

Lemma normalize_value_idemp (v : value) :
  normalize_value (normalize_value v) = normalize_value v.
Proof.
  destruct v as [| | | |s| |]; simpl; try done.
  destruct (String.eqb (str_strip s) "") eqn:He; simpl; [done|].
  by rewrite str_strip_idemp, He.
Qed.

Lemma normalize_value_trimmed (v : value) (s : string) :
  normalize_value v = VStr s -> trimmed s.
Proof.
  destruct v as [| | | |s0| |]; simpl; try done.
  destruct (String.eqb (str_strip s0) "") eqn:He; [done|].
  intros [= <-]. split; [|apply str_strip_idemp].
  intros Hs. rewrite Hs in He. done.
Qed.

Lemma normalize_row_trimmed (raw : pydict) (k s : string) :
  normalize_row raw !! k = Some (VStr s) -> trimmed s.
Proof.
  unfold normalize_row. rewrite lookup_fmap.
  destruct (raw !! k) as [v|]; simpl; [|done].
  intros [= Hv]. by apply (normalize_value_trimmed v).
Qed.

(** X6: [normalize_row] keeps the keys of the row, changes strings
    only (any other value, [None] included, stays as it is), leaves no
    string that is empty or has whitespace at an end, and changes nothing
    when applied a second time. *)
Theorem normalize_row_properties (raw : pydict) :
  dom (normalize_row raw) = dom raw /\
  (forall k v, raw !! k = Some v -> (forall s, v <> VStr s) ->
               normalize_row raw !! k = Some v) /\
  (forall k s, normalize_row raw !! k = Some (VStr s) -> trimmed s) /\
  normalize_row (normalize_row raw) = normalize_row raw.
Proof.
  unfold normalize_row. split; [apply dom_fmap_L|]. split; [|split].
  - intros k v Hk Hns. rewrite lookup_fmap, Hk. simpl. f_equal.
    destruct v; try done. by destruct (Hns s).
  - intros k s. apply (normalize_row_trimmed raw).
  - rewrite <- map_fmap_compose. apply map_fmap_ext.
    intros k v _. apply normalize_value_idemp.
Qed.

Lemma dict_or_normalize_row (raw : pydict) :
  dict_or (normalize_row raw) raw = normalize_row raw.
Proof.
  destruct (decide (normalize_row raw = ∅)) as [He|Hne].
  - rewrite He, dict_or_empty_l. apply fmap_empty_inv in He. by rewrite He.
  - by apply dict_or_truthy.
Qed.

(** X7: [process_row] keeps the raw data and the identity of the row,
    stores the normalized raw data, and maps from the normalized data in
    every case: a canonical value is the normalized value of a vendor
    field that a rule names, so no canonical value is an empty string or
    a string with whitespace at an end. *)
Theorem process_row_maps_normalized_data {rt : PyRuntime}
    (mapper mapper' : FieldMapper) (row row' : Row)
    (Hrun : process_row mapper row = Return (mapper', row')) :
  raw_data row' = raw_data row /\
  row_id row' = row_id row /\
  validation_errors row' = validation_errors row /\
  normalized_data row' = normalize_row (raw_data row) /\
  (forall c v, canonical_data row' !! c = Some v ->
     exists rule, rule ∈ mapping_rules mapper /\
                  canonical_field rule = c /\
                  normalize_row (raw_data row) !! vendor_field rule = Some v) /\
  (forall c s, canonical_data row' !! c = Some (VStr s) -> trimmed s).
Proof.
  unfold process_row in Hrun.
  destruct (map_row mapper _) as [[mapper1 [canonical conf]]|e] eqn:Hmap;
    simpl in Hrun; [|done].
  injection Hrun as <- <-. simpl.
  apply map_row_state in Hmap as (used & [Hm _] & _). simpl in Hm.
  rewrite dict_or_normalize_row in Hm.
  assert (Hval : forall c v, canonical !! c = Some v ->
            exists rule, rule ∈ mapping_rules mapper /\ canonical_field rule = c /\
                         normalize_row (raw_data row) !! vendor_field rule = Some v).
  { intros c v Hc. destruct (Hm c) as [[Hn _]|(rule & ? & _ & ? & Hv & _)];
      [congruence|].
    exists rule. rewrite <- Hv. eauto. }
  repeat (split; [done|]).
  intros c s Hc. destruct (Hval c _ Hc) as (rule & _ & _ & Hn).
  by apply (normalize_row_trimmed (raw_data row) (vendor_field rule)).
Qed.

(** X8: what [process_row] computes for a row depends on the raw data
    of the row and on the rule list only: rows with equal raw data get
    equal normalized data, canonical data and confidence, whatever
    normalized or canonical data they held before. *)
Theorem process_row_depends_on_raw_data {rt : PyRuntime}
    (mapper1 mapper2 : FieldMapper) (row1 row2 : Row)
    (Hrules : mapping_rules mapper1 = mapping_rules mapper2)
    (Hraw : raw_data row1 = raw_data row2) :
  processed_part (process_row mapper1 row1) = processed_part (process_row mapper2 row2).
Proof.
  unfold process_row, map_row. simpl. rewrite Hrules, Hraw.
  destruct (foldM _ _ _) as [[[mapped conf] used]|e]; reflexivity.
Qed.

Lemma X7_witness :
  in_every_runtime (fun rt =>
    raw_data padded_row_processed = raw_data padded_row /\
    row_id padded_row_processed = row_id padded_row /\
    validation_errors padded_row_processed = validation_errors padded_row /\
    normalized_data padded_row_processed = normalize_row (raw_data padded_row) /\
    (forall c v, canonical_data padded_row_processed !! c = Some v ->
       exists rule, rule ∈ mapping_rules (FieldMapper_init [rule_Qty]) /\
                    canonical_field rule = c /\
                    normalize_row (raw_data padded_row) !! vendor_field rule = Some v) /\
    (forall c s, canonical_data padded_row_processed !! c = Some (VStr s) -> trimmed s)).
Proof.
  intros rt.
  apply (process_row_maps_normalized_data (FieldMapper_init [rule_Qty]) Qty_mapper_after
           padded_row padded_row_processed).
  vm_compute. reflexivity.
Defined.

Lemma X8_witness :
  in_every_runtime (fun rt =>
    processed_part (process_row (FieldMapper_init [rule_Qty]) padded_row)
    = processed_part (process_row Qty_mapper_after (blank_row padded_raw both_quantities))).
Proof.
  intros rt.
  apply (process_row_depends_on_raw_data (FieldMapper_init [rule_Qty]) Qty_mapper_after
           padded_row (blank_row padded_raw both_quantities)).
  - reflexivity.
  - reflexivity.
Defined.

(** ** Structural checks on values (validator.py) *)

Section CheckFacts.
Context {rt : PyRuntime}.

Lemma range_check_not_a_decimal (s message : string) (kwargs : pydict) :
  Decimal_literal s = None ->
  _range_check (VStr s) message kwargs
  = Raise (Exn InvalidOperation "[<class 'decimal.ConversionSyntax'>]").
Proof.
  intros Hs. unfold _range_check. cbn [is_None py_Decimal].
  unfold Decimal_of_string. by rewrite Hs.
Qed.

Lemma RowValidator_raises (rules : list ValidationRule.t) (data : pydict)
    (rule : ValidationRule.t) (v : value) (e : exn) :
  rule ∈ rules ->
  data !! ValidationRule.field rule = Some v ->
  ValidationRule_validate rule v = Raise e ->
  exists e', RowValidator_validate rules data = Raise e'.
Proof.
  intros Hin Hv Hraise. apply list_elem_of_split in Hin as (before & after & ->).
  unfold RowValidator_validate. rewrite foldM_app.
  destruct (foldM _ [] before) as [errs|e0]; simpl; [|eauto].
  unfold validate_rule. rewrite Hv, Hraise. simpl. eauto.
Qed.
End CheckFacts.

(** X9: a text that is not a decimal literal is not reported as a
    violation by the range check or by the decimal type check: the
    conversion raises [InvalidOperation], which the checks do not catch,
    and the exception leaves [RowValidator.validate] and [validate_row],
    so the row gets no verdict. *)
Theorem decimal_checks_raise_on_bad_text {rt : PyRuntime}
    (s message : string) (kwargs : pydict)
    (Hbad : Decimal_literal s = None) :
  _range_check (VStr s) message kwargs
  = Raise (Exn InvalidOperation "[<class 'decimal.ConversionSyntax'>]") /\
  (value_is_str (kw_get kwargs "expected_type") "decimal" = true ->
   _type_check (VStr s) message kwargs
   = Raise (Exn InvalidOperation "[<class 'decimal.ConversionSyntax'>]")) /\
  (forall (self : ValidationPipeline) (row : Row) (field : string),
     range_rule field kwargs ∈ row_validator self ->
     canonical_data row !! field = Some (VStr s) ->
     exists e, validate_row self row = Raise e).
Proof.
  split; [by apply range_check_not_a_decimal|]. split.
  - intros Hdec. unfold _type_check.
    destruct (value_is_str _ "integer") eqn:Hint.
    { destruct (kw_get kwargs "expected_type") as [| | | |t| |]; try done.
      simpl in *. apply String.eqb_eq in Hint, Hdec. congruence. }
    rewrite Hdec. cbn [py_Decimal]. unfold Decimal_of_string. by rewrite Hbad.
  - intros self row field Hin Hfield. unfold validate_row. rewrite dict_or_empty_r.
    destruct (RowValidator_raises (row_validator self) (canonical_data row)
                (range_rule field kwargs) (VStr s)
                (Exn InvalidOperation "[<class 'decimal.ConversionSyntax'>]") Hin Hfield)
      as [e ->].
    + unfold ValidationRule_validate. simpl. rewrite VALIDATORS_range. simpl.
      by apply range_check_not_a_decimal.
    + simpl. eauto.
Qed.

Lemma X9_witness :
  in_every_runtime (fun rt =>
    _range_check (VStr "N/A") "out of range" range_0_10
    = Raise (Exn InvalidOperation "[<class 'decimal.ConversionSyntax'>]") /\
    (value_is_str (kw_get range_0_10 "expected_type") "decimal" = true ->
     _type_check (VStr "N/A") "out of range" range_0_10
     = Raise (Exn InvalidOperation "[<class 'decimal.ConversionSyntax'>]")) /\
    (forall (self : ValidationPipeline) (row : Row) (field : string),
       range_rule field range_0_10 ∈ row_validator self ->
       canonical_data row !! field = Some (VStr "N/A") ->
       exists e, validate_row self row = Raise e)).
Proof.
  intros rt. apply (decimal_checks_raise_on_bad_text "N/A" "out of range" range_0_10).
  vm_compute. reflexivity.
Defined.

(** X10: for a value and bounds that are finite decimals, the range
    check passes exactly when minimum <= value <= maximum, the three
    compared as exact integers at a common scale: both bounds are
    inclusive and nothing is rounded. *)
Theorem range_check_between_bounds {rt : PyRuntime}
    (v min_val max_val : value) (message : string) (kwargs : pydict)
    (nv nl nh : bool) (cv cl ch : N) (ev el eh e : Z)
    (Hv : is_None v = false)
    (Hmin : kwargs !! "min_value" = Some min_val)
    (Hmax : kwargs !! "max_value" = Some max_val)
    (Hminset : is_None min_val = false)
    (Hmaxset : is_None max_val = false)
    (Hval : py_Decimal v = Return (DFin nv cv ev))
    (Hlo : bound_Decimal min_val = Return (DFin nl cl el))
    (Hhi : bound_Decimal max_val = Return (DFin nh ch eh))
    (Hscale : e <= ev /\ e <= el /\ e <= eh) :
  _range_check v message kwargs =
  Return (verdict_of ((dec_scaled nl cl el e <=? dec_scaled nv cv ev e) &&
                      (dec_scaled nv cv ev e <=? dec_scaled nh ch eh e)) message).
Proof.
  destruct Hscale as (Hev & Hel & Heh).
  unfold _range_check, kw_get. rewrite Hmin, Hmax.
  cbn -[dec_lt dec_gt bound_Decimal py_Decimal].
  rewrite Hv, Hval, Hminset, Hlo, Hmaxset, Hhi. unfold dec_gt.
  cbn -[dec_lt].
  rewrite (dec_lt_exact nv nl cv cl ev el e Hev Hel).
  rewrite (dec_lt_exact nh nv ch cv eh ev e Heh Hev). simpl.
  rewrite !Z.leb_antisym.
  destruct (dec_scaled nv cv ev e <? dec_scaled nl cl el e); simpl; [done|].
  by destruct (dec_scaled nh ch eh e <? dec_scaled nv cv ev e).
Qed.

Lemma X10_witness :
  in_every_runtime (fun rt =>
    _range_check (VStr "7.00") "out of range" range_0_10 =
    Return (verdict_of ((dec_scaled false 0 0 (-2) <=? dec_scaled false 700 (-2) (-2)) &&
                        (dec_scaled false 700 (-2) (-2) <=? dec_scaled false 10 0 (-2)))
                       "out of range")).
Proof.
  intros rt.
  apply (range_check_between_bounds (VStr "7.00") (VInt 0) (VStr "10") "out of range"
           range_0_10 false false false 700 0 10 (-2) 0 0 (-2)).
  - reflexivity.
  - vm_compute. reflexivity.
  - vm_compute. reflexivity.
  - reflexivity.
  - reflexivity.
  - vm_compute. reflexivity.
  - vm_compute. reflexivity.
  - vm_compute. reflexivity.
  - lia.
Defined.

(** X11: with integer bounds the length check passes exactly when
    min_length <= len(str(value)) <= max_length; a missing minimum is 0,
    a missing maximum is no limit, and [None] has length 0. *)
Theorem length_check_between_bounds {rt : PyRuntime}
    (v : value) (message : string) (kwargs : pydict) (lo hi : option Z)
    (Hmin : kwargs !! "min_length" = VInt <$> lo)
    (Hmax : kwargs !! "max_length" = VInt <$> hi) :
  let n := Z.of_nat (String.length (if is_None v then "" else py_str v)) in
  _length_check v message kwargs =
  Return (verdict_of ((default 0 lo <=? n) &&
                      match hi with Some h => n <=? h | None => true end) message).
Proof.
  intros n. unfold _length_check. fold n. rewrite Hmin, Hmax.
  assert (Hn : 0 <= n) by (unfold n; lia).
  destruct lo as [l|], hi as [h|]; simpl; rewrite ?Z.leb_antisym.
  - destruct (n <? l); simpl; [done|]. by destruct (h <? n).
  - by destruct (n <? l).
  - rewrite (proj2 (Z.ltb_ge n 0) Hn). simpl. by destruct (h <? n).
  - by rewrite (proj2 (Z.ltb_ge n 0) Hn).
Qed.

Lemma X11_witness :
  in_every_runtime (fun rt =>
    let n := Z.of_nat (String.length (if is_None (VStr "A100") then "" else py_str (VStr "A100"))) in
    _length_check (VStr "A100") "bad length" length_2_5 =
    Return (verdict_of ((default 0 (Some 2) <=? n) &&
                        match Some 5 with Some h => n <=? h | None => true end)
                       "bad length")).
Proof.
  intros rt.
  apply (length_check_between_bounds (VStr "A100") "bad length" length_2_5 (Some 2) (Some 5)).
  - vm_compute. reflexivity.
  - vm_compute. reflexivity.
Defined.

Lemma upper_lower_char (c : ascii) : upper_char (lower_char c) = upper_char c.
Proof. destruct c as [[] [] [] [] [] [] [] []]; reflexivity. Qed.

Lemma upper_upper_char (c : ascii) : upper_char (upper_char c) = upper_char c.
Proof. destruct c as [[] [] [] [] [] [] [] []]; reflexivity. Qed.

Lemma str_upper_lower (s : string) : str_upper (str_lower s) = str_upper s.
Proof.
  unfold str_upper, str_lower. induction s as [|c s IH]; simpl; [done|].
  by rewrite upper_lower_char, IH.
Qed.

Lemma str_upper_upper (s : string) : str_upper (str_upper s) = str_upper s.
Proof.
  unfold str_upper. induction s as [|c s IH]; simpl; [done|].
  by rewrite upper_upper_char, IH.
Qed.

(** X12: the enum check does not see the case of letters, neither in
    the value nor in the allowed values: a text, its lower-case form and
    its upper-case form get the same verdict, and lower-casing the
    allowed texts changes no verdict.  Without a list of allowed values
    every value is rejected. *)
Theorem enum_check_ignores_case {rt : PyRuntime}
    (s message : string) (kwargs : pydict) :
  _enum_check (VStr (str_lower s)) message kwargs = _enum_check (VStr s) message kwargs /\
  _enum_check (VStr (str_upper s)) message kwargs = _enum_check (VStr s) message kwargs /\
  (forall allowed : list string,
     _enum_check (VStr s) message {["values" := VList (VStr <$> allowed)]} =
     _enum_check (VStr s) message
                 {["values" := VList ((fun a => VStr (str_lower a)) <$> allowed)]}) /\
  (forall v, kwargs !! "values" = None ->
             _enum_check v message kwargs = Return (false, Some message)).
Proof.
  unfold _enum_check. split; [|split; [|split]].
  - simpl. by rewrite str_upper_lower.
  - simpl. by rewrite str_upper_upper.
  - intros allowed. rewrite !lookup_singleton_eq. simpl.
    rewrite <- !list_fmap_compose.
    replace ((fun a => str_upper (py_str a)) ∘ (fun a => VStr (str_lower a)) <$> allowed)
      with ((fun a => str_upper (py_str a)) ∘ VStr <$> allowed); [done|].
    apply list_fmap_ext. intros _ a _. simpl. by rewrite str_upper_lower.
  - intros v Hnone. rewrite Hnone. reflexivity.
Qed.

(** X13: a [required] rule flags a row exactly when the field is a
    key of the row and holds [None] or a string that is blank after
    stripping.  A missing key is not flagged, and neither is any other
    value: [0], [False] and the empty list count as present. *)
Theorem required_flags_null_and_blank {rt : PyRuntime}
    (rule : ValidationRule.t) (data : pydict)
    (Hkind : ValidationRule.rule_type rule = "required") :
  RowValidator_validate [rule] data =
  Return (match data !! ValidationRule.field rule with
          | Some VNone =>
              [[("field", ValidationRule.field rule); ("rule", "required");
                ("message", ValidationRule.message rule)]]
          | Some (VStr s) =>
              if String.eqb (str_strip s) "" then
                [[("field", ValidationRule.field rule); ("rule", "required");
                  ("message", ValidationRule.message rule)]]
              else []
          | _ => []
          end).
Proof.
  unfold RowValidator_validate. simpl. unfold validate_rule, ValidationRule_validate.
  rewrite Hkind.
  assert (Hm : msg_or (Some (ValidationRule.message rule)) (ValidationRule.message rule)
               = ValidationRule.message rule).
  { unfold msg_or. by destruct (String.eqb _ ""). }
  destruct (data !! ValidationRule.field rule) as [[| | | |s| |]|]; try reflexivity.
  - change (VALIDATORS !! "required") with (Some _required).
    cbn -[msg_or]. by rewrite Hm.
  - change (VALIDATORS !! "required") with (Some _required). cbn -[msg_or str_strip].
    destruct (String.eqb (str_strip s) ""); cbn -[msg_or]; [by rewrite Hm | done].
Qed.

Lemma X13_witness :
  in_every_runtime (fun rt =>
    RowValidator_validate [required_total_rule] {["total" := VStr "  "]} =
    Return (match ({["total" := VStr "  "]} : pydict) !! ValidationRule.field required_total_rule with
            | Some VNone =>
                [[("field", ValidationRule.field required_total_rule); ("rule", "required");
                  ("message", ValidationRule.message required_total_rule)]]
            | Some (VStr s) =>
                if String.eqb (str_strip s) "" then
                  [[("field", ValidationRule.field required_total_rule); ("rule", "required");
                    ("message", ValidationRule.message required_total_rule)]]
                else []
            | _ => []
            end)).
Proof.
  intros rt. apply (required_flags_null_and_blank required_total_rule).
  reflexivity.
Defined.

(** ** The cross-field layer (cross_field_validator.py) *)

Section CrossFacts.
Context {rt : PyRuntime}.

Lemma CrossFieldRule_validate_total (rule : CrossFieldRule.t) (data : pydict) :
  CrossFieldRule.rule_type rule <> "dependency" ->
  CrossFieldRule_validate rule data = Return None \/
  CrossFieldRule_validate rule data = Return (Some (fields_violation rule)).
Proof.
  intros Hk. unfold CrossFieldRule_validate, fields_violation.
  destruct (decide (CrossFieldRule.rule_type rule = "formula")) as [Hf|_].
  { rewrite Hf. unfold _validate_formula.
    destruct (eval_formula rule data) as [v|e]; [|by left].
    destruct (py_truthy v); [by left | by right]. }
  destruct (decide (CrossFieldRule.rule_type rule = "dependency")) as [Hd|_]; [done|].
  destruct (decide (CrossFieldRule.rule_type rule = "mutual_exclusion")) as [Hm|_];
    [|by left].
  rewrite Hm. unfold _validate_mutual_exclusion.
  destruct (1 <? _); [by right | by left].
Qed.

Lemma cross_loop_total (rules : list CrossFieldRule.t) (data : pydict)
    (acc : list violation) :
  (forall rule, rule ∈ rules -> CrossFieldRule.rule_type rule <> "dependency") ->
  exists new,
    foldM (fun errors rule =>
             let! error := CrossFieldRule_validate rule data in
             Return (append_error errors error)) acc rules = Return (acc ++ new)%list /\
    (length new <= length rules)%nat /\
    forall v, v ∈ new -> exists rule, rule ∈ rules /\ v = fields_violation rule.
Proof.
  revert acc. induction rules as [|rule rules IH]; intros acc Hk; cbn [foldM].
  - exists []. rewrite app_nil_r. split; [done|]. split; [done|].
    intros v Hv. by apply elem_of_nil in Hv.
  - assert (Hrest : forall r, r ∈ rules -> CrossFieldRule.rule_type r <> "dependency")
      by (intros r Hr; apply Hk; by right).
    destruct (CrossFieldRule_validate_total rule data (Hk rule ltac:(by left))) as [->| ->];
      cbn [bind].
    + change (append_error acc None) with acc.
      destruct (IH acc Hrest) as (new & Hrun & Hlen & Hnew). exists new.
      split; [exact Hrun|]. split; [simpl; lia|].
      intros v Hv. destruct (Hnew v Hv) as (r & Hr & ->). exists r. split; [by right | done].
    + change (append_error acc (Some (fields_violation rule)))
        with (acc ++ [fields_violation rule])%list.
      destruct (IH (acc ++ [fields_violation rule])%list Hrest) as (new & Hrun & Hlen & Hnew).
      exists (fields_violation rule :: new). rewrite <- app_assoc in Hrun.
      split; [exact Hrun|].
      split; [simpl; lia|].
      intros v [->|Hv]%elem_of_cons; [exists rule; split; [by left | done]|].
      destruct (Hnew v Hv) as (r & Hr & ->). exists r. split; [by right | done].
Qed.
End CrossFacts.

(** X14: formula rules, mutual-exclusion rules and rules of an unknown
    kind never make the cross-field validator fail: without a dependency
    rule it returns a list with at most one violation per rule, each on
    the field list of a rule of the list, with that rule's kind and
    message. *)
Theorem CrossFieldValidator_never_raises {rt : PyRuntime}
    (rules : list CrossFieldRule.t) (data : pydict)
    (Hkinds : forall rule, rule ∈ rules -> CrossFieldRule.rule_type rule <> "dependency") :
  exists errors,
    CrossFieldValidator_validate rules data = Return errors /\
    (length errors <= length rules)%nat /\
    forall v, v ∈ errors -> exists rule, rule ∈ rules /\ v = fields_violation rule.
Proof.
  destruct (cross_loop_total rules data [] Hkinds) as (new & Hrun & Hlen & Hnew).
  exists new. split; [exact Hrun | by split].
Qed.

Lemma X14_witness :
  in_every_runtime (fun rt =>
    exists errors,
      CrossFieldValidator_validate [total_formula_rule; exclusive_rule] row_without_total
      = Return errors /\
      (length errors <= length [total_formula_rule; exclusive_rule])%nat /\
      forall v, v ∈ errors ->
        exists rule, rule ∈ [total_formula_rule; exclusive_rule] /\ v = fields_violation rule).
Proof.
  intros rt.
  apply (CrossFieldValidator_never_raises [total_formula_rule; exclusive_rule] row_without_total).
  intros rule [->|[->|Hr]%elem_of_cons]%elem_of_cons.
  - discriminate.
  - discriminate.
  - by apply elem_of_nil in Hr.
Defined.

Lemma length_le_1_all_equal {A} (l : list A) :
  NoDup l -> ((length l <= 1)%nat <-> forall x y, x ∈ l -> y ∈ l -> x = y).
Proof.
  intros Hnd. split.
  - destruct l as [|a [|b l]]; simpl; intros Hlen x y Hx Hy; [| |lia].
    + by apply elem_of_nil in Hx.
    + apply list_elem_of_singleton in Hx, Hy. congruence.
  - intros Heq. destruct l as [|a [|b l]]; simpl; [lia | lia |].
    apply NoDup_cons in Hnd as [Hab _].
    destruct Hab. rewrite (Heq a b); [by left | by left | by right; left].
Qed.

(** X15: for a rule whose field list names no field twice, the
    mutual-exclusion check passes exactly when at most one of the fields
    is populated (any two populated fields of the list are the same
    field), and it reports a violation on the whole field list
    otherwise.  A field counts as populated when its value is truthy, so
    [0], [False] and the empty string count as not set. *)
Theorem mutual_exclusion_at_most_one {rt : PyRuntime}
    (rule : CrossFieldRule.t) (data : pydict)
    (Hnodup : NoDup (CrossFieldRule.fields rule)) :
  (_validate_mutual_exclusion rule data = Return None <->
   forall f g, f ∈ CrossFieldRule.fields rule -> g ∈ CrossFieldRule.fields rule ->
               populated data f -> populated data g -> f = g) /\
  (_validate_mutual_exclusion rule data = Return None \/
   _validate_mutual_exclusion rule data =
   Return (Some [("fields", str_join "," (CrossFieldRule.fields rule));
                 ("rule", "mutual_exclusion");
                 ("message", CrossFieldRule.message rule)])).
Proof.
  unfold _validate_mutual_exclusion.
  set (set_fields := filter _ (CrossFieldRule.fields rule)).
  assert (Hiff : (length set_fields <= 1)%nat <->
                 forall f g, f ∈ CrossFieldRule.fields rule -> g ∈ CrossFieldRule.fields rule ->
                             populated data f -> populated data g -> f = g).
  { rewrite (length_le_1_all_equal set_fields) by (by apply NoDup_filter).
    unfold set_fields. split.
    - intros H f g Hf Hg Pf Pg. apply H; by apply list_elem_of_filter.
    - intros H f g [Pf Hf]%list_elem_of_filter [Pg Hg]%list_elem_of_filter. by apply H. }
  destruct (1 <? Z.of_nat (length set_fields)) eqn:Hlen.
  - apply Z.ltb_lt in Hlen. split; [|by right].
    split; [done|]. intros H. apply Hiff in H. lia.
  - apply Z.ltb_ge in Hlen. split; [|by left].
    split; [|done]. intros _. apply Hiff. lia.
Qed.

Lemma X15_witness :
  in_every_runtime (fun rt =>
    (_validate_mutual_exclusion exclusive_rule {["discount_code" := VStr "SPRING"]}
     = Return None <->
     forall f g, f ∈ CrossFieldRule.fields exclusive_rule ->
                 g ∈ CrossFieldRule.fields exclusive_rule ->
                 populated {["discount_code" := VStr "SPRING"]} f ->
                 populated {["discount_code" := VStr "SPRING"]} g -> f = g) /\
    (_validate_mutual_exclusion exclusive_rule {["discount_code" := VStr "SPRING"]}
     = Return None \/
     _validate_mutual_exclusion exclusive_rule {["discount_code" := VStr "SPRING"]} =
     Return (Some [("fields", str_join "," (CrossFieldRule.fields exclusive_rule));
                   ("rule", "mutual_exclusion");
                   ("message", CrossFieldRule.message exclusive_rule)]))).
Proof.
  intros rt.
  apply (mutual_exclusion_at_most_one exclusive_rule {["discount_code" := VStr "SPRING"]}).
  apply (bool_decide_unpack _). vm_compute. reflexivity.
Defined.

(** ** The semantic layer (semantic_validator.py) *)

Section SemanticFacts.
Context {rt : PyRuntime}.

Lemma SemanticRule_validate_total (rule : SemanticRule.t) (data : pydict) :
  allow_list_ok rule ->
  exists r, SemanticRule_validate rule data = Return r /\
            (SemanticRule.rule_type rule = "status_transition" ->
             SemanticRule.kwargs rule !! "allowed_from" = None ->
             r = Some (status_transition_violation rule)).
Proof.
  intros Hok. unfold SemanticRule_validate.
  destruct (decide (SemanticRule.rule_type rule = "status_transition")) as [Hs|Hs].
  { unfold _validate_status_transition, status_transition_violation.
    destruct (Hok Hs) as [Hnone|[l Hl]].
    - rewrite Hnone. simpl. eauto.
    - rewrite Hl. simpl. destruct (existsb _ l); simpl; eexists; (split; [done|]);
        intros _ Hn; congruence. }
  destruct (decide (SemanticRule.rule_type rule = "business_hours")) as [Hb|_].
  { unfold _validate_business_hours.
    destruct (py_truthy _); [|by eexists; split; [reflexivity|]].
    destruct (fromisoformat_hour _) as [h|]; [|by eexists; split; [reflexivity|]].
    destruct (_ || _); by eexists; split; [reflexivity|]. }
  destruct (decide (SemanticRule.rule_type rule = "inventory"));
    by eexists; split; [reflexivity|].
Qed.

Lemma semantic_loop_total (rules : list SemanticRule.t) (data : pydict)
    (acc : list violation) :
  (forall rule, rule ∈ rules -> allow_list_ok rule) ->
  exists new,
    foldM (fun errors rule =>
             let! error := SemanticRule_validate rule data in
             Return (append_error errors error)) acc rules = Return (acc ++ new)%list /\
    (length new <= length rules)%nat /\
    forall rule, rule ∈ rules ->
      SemanticRule.rule_type rule = "status_transition" ->
      SemanticRule.kwargs rule !! "allowed_from" = None ->
      status_transition_violation rule ∈ new.
Proof.
  revert acc. induction rules as [|rule rules IH]; intros acc Hk; cbn [foldM].
  - exists []. rewrite app_nil_r. split; [done|]. split; [done|].
    intros r Hr. by apply elem_of_nil in Hr.
  - assert (Hrest : forall r, r ∈ rules -> allow_list_ok r)
      by (intros r Hr; apply Hk; by right).
    destruct (SemanticRule_validate_total rule data (Hk rule ltac:(by left)))
      as (r & -> & Hopen).
    cbn [bind].
    assert (Hstep : exists one, append_error acc r = (acc ++ one)%list /\
                                (length one <= 1)%nat /\
                                (r = Some (status_transition_violation rule) ->
                                 status_transition_violation rule ∈ one)).
    { destruct r as [[|kv v]|]; simpl.
      - exists []. rewrite app_nil_r. split; [done|]. split; [simpl; lia|]. done.
      - exists [kv :: v]. split; [done|]. split; [simpl; lia|].
        intros Heq.
        assert (kv :: v = status_transition_violation rule) as -> by congruence.
        by left.
      - exists []. rewrite app_nil_r. split; [done|]. split; [simpl; lia|]. done. }
    destruct Hstep as (one & -> & Hone & Hin).
    destruct (IH (acc ++ one)%list Hrest) as (new & Hrun & Hlen & Hnew).
    exists (one ++ new)%list. rewrite <- app_assoc in Hrun. split; [exact Hrun|].
    split; [rewrite length_app; simpl; lia|].
    intros r0 [->|Hr0]%elem_of_cons Hs Hn; apply elem_of_app.
    + left. apply Hin. by apply Hopen.
    + right. by apply Hnew.
Qed.
End SemanticFacts.

(** X16: when every status-transition rule has a list as its
    allow-list or has none, the semantic validator returns, with at most
    one violation per rule; and a status-transition rule that has no
    allow-list reports its violation on every row, a row without
    [order_status] included. *)
Theorem SemanticValidator_returns {rt : PyRuntime}
    (rules : list SemanticRule.t) (data : pydict)
    (Hlists : forall rule, rule ∈ rules -> allow_list_ok rule) :
  exists errors,
    SemanticValidator_validate rules data = Return errors /\
    (length errors <= length rules)%nat /\
    forall rule, rule ∈ rules ->
      SemanticRule.rule_type rule = "status_transition" ->
      SemanticRule.kwargs rule !! "allowed_from" = None ->
      status_transition_violation rule ∈ errors.
Proof.
  destruct (semantic_loop_total rules data [] Hlists) as (new & Hrun & Hlen & Hnew).
  exists new. split; [exact Hrun | by split].
Qed.

Lemma X16_witness :
  in_every_runtime (fun rt =>
    exists errors,
      SemanticValidator_validate [open_status_rule] ∅ = Return errors /\
      (length errors <= length [open_status_rule])%nat /\
      forall rule, rule ∈ [open_status_rule] ->
        SemanticRule.rule_type rule = "status_transition" ->
        SemanticRule.kwargs rule !! "allowed_from" = None ->
        status_transition_violation rule ∈ errors).
Proof.
  intros rt. apply (SemanticValidator_returns [open_status_rule] ∅).
  intros rule Hrule. apply list_elem_of_singleton in Hrule as ->.
  intros _. left. reflexivity.
Defined.

(** ** Rows, batches and files (validation_pipeline.py) *)

Section RowFacts.
Context {rt : PyRuntime}.

Lemma validate_row_result (self : ValidationPipeline) (row row' : Row) :
  validate_row self row = Return row' ->
  exists errors, row' = with_verdict row errors.
Proof.
  unfold validate_row.
  destruct (RowValidator_validate _ _) as [e1|?]; simpl; [|done].
  destruct (CrossFieldValidator_validate _ _) as [e2|?]; simpl; [|done].
  destruct (SemanticValidator_validate _ _) as [e3|?]; simpl; [|done].
  intros [= <-]. by eexists.
Qed.

Lemma validate_row_ignores_verdict (self : ValidationPipeline) (row : Row)
    (errors : list violation) (st : RowStatus) :
  validate_row self (set_validation row errors st) = validate_row self row.
Proof. reflexivity. Qed.
End RowFacts.

(** X17: [validate_row] writes the verdict and nothing else, and the
    verdict does not depend on an earlier one: each of the ten other
    fields of the row is kept, the result being the row with a list of
    violations and the status that goes with it; the earlier violations
    and status are replaced (a violation appended before, such as a
    duplicate marker, is not in the result unless the rules produce it),
    and validating the result again returns it unchanged. *)
Theorem validate_row_replaces_verdict {rt : PyRuntime}
    (self : ValidationPipeline) (row row' : Row)
    (Hrun : validate_row self row = Return row') :
  (row_id row' = row_id row /\ row_file_id row' = row_file_id row /\
   line_number row' = line_number row /\ raw_data row' = raw_data row /\
   normalized_data row' = normalized_data row /\
   canonical_data row' = canonical_data row /\
   mapping_confidence row' = mapping_confidence row /\
   ai_suggestions row' = ai_suggestions row /\
   approved_by row' = approved_by row /\ approved_at row' = approved_at row) /\
  (exists errors, row' = with_verdict row errors) /\
  (forall errors st, validate_row self (set_validation row errors st) = Return row') /\
  validate_row self row' = Return row'.
Proof.
  destruct (validate_row_result self row row' Hrun) as [errs ->].
  split; [done|]. split; [by exists errs|]. split.
  - intros errors st. by rewrite validate_row_ignores_verdict.
  - unfold with_verdict. by rewrite validate_row_ignores_verdict.
Qed.

Lemma X17_witness :
  in_every_runtime (fun rt =>
    let row' := with_verdict null_total_row [required_violation; status_violation] in
    (row_id row' = row_id null_total_row /\
     row_file_id row' = row_file_id null_total_row /\
     line_number row' = line_number null_total_row /\
     raw_data row' = raw_data null_total_row /\
     normalized_data row' = normalized_data null_total_row /\
     canonical_data row' = canonical_data null_total_row /\
     mapping_confidence row' = mapping_confidence null_total_row /\
     ai_suggestions row' = ai_suggestions null_total_row /\
     approved_by row' = approved_by null_total_row /\
     approved_at row' = approved_at null_total_row) /\
    (exists errors, row' = with_verdict null_total_row errors) /\
    (forall errors st,
       validate_row sample_validation (set_validation null_total_row errors st) = Return row') /\
    validate_row sample_validation row' = Return row').
Proof.
  intros rt row'.
  apply (validate_row_replaces_verdict sample_validation null_total_row row').
  vm_compute. reflexivity.
Defined.

Section BatchFacts.
Context {rt : PyRuntime}.

Lemma with_verdict_sorted (row : Row) (errors : list violation) :
  (row_status (with_verdict row errors) = VALID -> is_valid_row (with_verdict row errors)) /\
  (row_status (with_verdict row errors) <> VALID -> is_flagged_row (with_verdict row errors)).
Proof.
  unfold is_valid_row, is_flagged_row, with_verdict.
  destruct errors as [|v errors]; simpl; split; try done.
Qed.

(** The loop of [validate_batch] when every row validates: the rows are
    stored in their order and sorted into the two lists. *)
Lemma validate_batch_from_returns (self : ValidationPipeline) (now : Z)
    (batch validated : list Row) (st : MetadataStore) (valid flagged : list Row) :
  Forall2 (fun row row' => validate_row self row = Return row') batch validated ->
  validate_batch_from self st now valid flagged batch =
  (foldl (fun s r => insert_row s now r) st validated,
   Return ((valid ++ filter (fun r => row_status r = VALID) validated)%list,
           (flagged ++ filter (fun r => row_status r <> VALID) validated)%list)).
Proof.
  intros Hall. revert st valid flagged.
  induction Hall as [|row row' batch validated Hrow _ IH]; intros st valid flagged.
  - simpl. by rewrite !app_nil_r.
  - cbn [validate_batch_from foldl]. rewrite Hrow, !filter_cons.
    destruct (decide (row_status row' = VALID)) as [Hst|Hst].
    + rewrite IH, <- app_assoc. by rewrite decide_False by (intros H; by apply H).
    + rewrite IH, <- app_assoc. by rewrite decide_True by done.
Qed.

(** The loop of [validate_batch] when the validation of a row raises:
    the rows before it are stored, the exception leaves the loop. *)
Lemma validate_batch_from_raises (self : ValidationPipeline) (now : Z)
    (before after validated : list Row) (row : Row) (e : exn)
    (st : MetadataStore) (valid flagged : list Row) :
  Forall2 (fun row row' => validate_row self row = Return row') before validated ->
  validate_row self row = Raise e ->
  validate_batch_from self st now valid flagged (before ++ row :: after) =
  (foldl (fun s r => insert_row s now r) st validated, Raise e).
Proof.
  intros Hall Hraise. revert st valid flagged.
  induction Hall as [|row0 row' before validated Hrow _ IH]; intros st valid flagged.
  - simpl. by rewrite Hraise.
  - cbn [app validate_batch_from foldl]. rewrite Hrow.
    destruct (decide (row_status row' = VALID)); apply IH.
Qed.

(** Every row of a batch validates, or there is a first row whose
    validation raises. *)
Lemma validate_rows_cases (self : ValidationPipeline) (batch : list Row) :
  (exists validated,
     Forall2 (fun row row' => validate_row self row = Return row') batch validated) \/
  (exists before row after validated e,
     batch = (before ++ row :: after)%list /\
     Forall2 (fun row row' => validate_row self row = Return row') before validated /\
     validate_row self row = Raise e).
Proof.
  induction batch as [|row batch IH].
  - left. exists []. constructor.
  - destruct (validate_row self row) as [row'|e] eqn:Hrow.
    + destruct IH as [[validated Hall] | (before & r & after & validated & e & -> & Hall & He)].
      * left. exists (row' :: validated). by constructor.
      * right. exists (row :: before), r, after, (row' :: validated), e.
        split; [done|]. split; [by constructor | done].
    + right. exists [], row, batch, [], e. split; [done|]. split; [constructor | done].
Qed.

Lemma validated_rows_sorted (self : ValidationPipeline) (batch validated : list Row) :
  Forall2 (fun row row' => validate_row self row = Return row') batch validated ->
  Forall is_valid_row (filter (fun r => row_status r = VALID) validated) /\
  Forall is_flagged_row (filter (fun r => row_status r <> VALID) validated).
Proof.
  intros Hall. induction Hall as [|row row' batch validated Hrow _ [IHv IHf]].
  - split; constructor.
  - destruct (validate_row_result self row row' Hrow) as [errs ->].
    destruct (with_verdict_sorted row errs) as [Hv Hf]. rewrite !filter_cons.
    destruct (decide (row_status (with_verdict row errs) = VALID)) as [Hst|Hst].
    + rewrite decide_False by (intros H; by apply H).
      split; [constructor; [by apply Hv | done] | done].
    + rewrite decide_True by done.
      split; [done | constructor; [by apply Hf | done]].
Qed.
End BatchFacts.

Lemma filter_status_length (l : list Row) :
  (length (filter (fun r => row_status r = VALID) l) +
   length (filter (fun r => row_status r <> VALID) l) = length l)%nat.
Proof.
  induction l as [|r l IH]; [done|]. rewrite !filter_cons.
  destruct (decide (row_status r = VALID)) as [Hst|Hst].
  - rewrite decide_False by (intros H; by apply H). simpl. lia.
  - rewrite decide_True by done. simpl. lia.
Qed.

Lemma rows_foldl_insert_row_kept (now : Z) (rs : list Row) (st : MetadataStore)
    (id : string) :
  is_Some (rows st !! id) ->
  is_Some (rows (foldl (fun s r => insert_row s now r) st rs) !! id).
Proof.
  revert st. induction rs as [|r rs IH]; intros st Hid; [done|].
  simpl. apply IH. simpl. destruct (decide (row_id r = id)) as [->|Hne].
  - rewrite lookup_insert_eq. eauto.
  - by rewrite lookup_insert_ne.
Qed.

Lemma rows_foldl_insert_row_stored (now : Z) (rs : list Row) (st : MetadataStore) :
  Forall (fun r => is_Some (get_row (foldl (fun s r => insert_row s now r) st rs) (row_id r)))
         rs.
Proof.
  revert st. induction rs as [|r rs IH]; intros st; constructor; [|apply IH].
  unfold get_row. simpl. apply fmap_is_Some, rows_foldl_insert_row_kept.
  simpl. rewrite lookup_insert_eq. eauto.
Qed.

(** X18: when [validate_batch] returns, every row of the batch was
    validated, in the order of the batch, and the call is determined by
    these validated rows: the first list holds those that are [VALID],
    the second the others, each in the order of the batch, and the store
    is the old store with the validated rows written in that order.  So
    the rows of the first list have no violation and those of the second
    are [FLAGGED] with at least one, the two lists together have one row
    per input row, every validated row is in the store under its row id,
    and the file records are untouched. *)
Theorem validate_batch_partitions {rt : PyRuntime}
    (self : ValidationPipeline) (st st' : MetadataStore) (now : Z)
    (batch valid flagged : list Row)
    (Hrun : validate_batch self st now batch = (st', Return (valid, flagged))) :
  exists validated,
    Forall2 (fun row row' => validate_row self row = Return row') batch validated /\
    valid = filter (fun r => row_status r = VALID) validated /\
    flagged = filter (fun r => row_status r <> VALID) validated /\
    st' = foldl (fun s r => insert_row s now r) st validated /\
    Forall is_valid_row valid /\
    Forall is_flagged_row flagged /\
    (length valid + length flagged = length batch)%nat /\
    Forall (fun r => is_Some (get_row st' (row_id r))) validated /\
    files st' = files st.
Proof.
  unfold validate_batch in Hrun.
  destruct (validate_rows_cases self batch)
    as [[validated Hall] | (before & row & after & validated & e & -> & Hall & He)].
  - rewrite (validate_batch_from_returns self now batch validated st [] [] Hall) in Hrun.
    cbn [app] in Hrun. injection Hrun as <- <- <-.
    destruct (validated_rows_sorted self batch validated Hall) as [Hv Hf].
    exists validated. split; [done|]. split; [done|]. split; [done|]. split; [done|].
    split; [done|]. split; [done|].
    split; [rewrite filter_status_length; symmetry; by eapply Forall2_length|].
    split; [apply rows_foldl_insert_row_stored | apply files_foldl_insert_row].
  - rewrite (validate_batch_from_raises self now before after validated row e st [] []
               Hall He) in Hrun.
    discriminate Hrun.
Qed.

Lemma X18_witness :
  in_every_runtime (fun rt =>
    exists validated,
      Forall2 (fun row row' => validate_row sample_validation row = Return row')
              [null_total_row] validated /\
      [] = filter (fun r => row_status r = VALID) validated /\
      [null_total_flagged] = filter (fun r => row_status r <> VALID) validated /\
      store_with_flagged = foldl (fun s r => insert_row s 100 r) empty_store validated /\
      Forall is_valid_row [] /\
      Forall is_flagged_row [null_total_flagged] /\
      (length ([] : list Row) + length [null_total_flagged] = length [null_total_row])%nat /\
      Forall (fun r => is_Some (get_row store_with_flagged (row_id r))) validated /\
      files store_with_flagged = files empty_store).
Proof.
  intros rt.
  apply (validate_batch_partitions sample_validation empty_store store_with_flagged 100
           [null_total_row] [] [null_total_flagged]).
  vm_compute. reflexivity.
Defined.

(** X19: [validate_file] ends in one of three ways, and in one of them
    always.  For a file with no stored rows it returns at once: the store
    is untouched and the batch is as it was created, [PROCESSING] with no
    counts and no completion time.  When every stored row of the file
    validates, the validated rows are written to the store and the batch
    is [SUCCESS], completed, with the number of rows as its total and the
    numbers of [VALID] and of other validated rows as its counts, which
    add up to the total.  When the validation of a row raises, the batch
    is [FAILED], not completed, with no counts and the message of the
    exception as its only error, and the rows validated before that row
    stay written.  File records are never changed. *)
Theorem validate_file_outcomes {rt : PyRuntime}
    (self : ValidationPipeline) (st : MetadataStore) (now : Z)
    (new_batch_id id : string) :
  let file_rows := get_rows_by_file st id in
  let out := validate_file self st now new_batch_id id in
  (file_rows = [] ->
   out = (st,
          {| batch_id := new_batch_id; started_at := now; completed_at := None;
             file_results := []; total_rows := 0; batch_valid_rows := 0;
             batch_flagged_rows := 0; batch_error_rows := 0;
             batch_status := FS_PROCESSING; errors := [] |})) /\
  (forall validated,
     file_rows <> [] ->
     Forall2 (fun row row' => validate_row self row = Return row') file_rows validated ->
     out = (foldl (fun s r => insert_row s now r) st validated,
            {| batch_id := new_batch_id; started_at := now; completed_at := Some now;
               file_results := [];
               total_rows := Z.of_nat (length file_rows);
               batch_valid_rows :=
                 Z.of_nat (length (filter (fun r => row_status r = VALID) validated));
               batch_flagged_rows :=
                 Z.of_nat (length (filter (fun r => row_status r <> VALID) validated));
               batch_error_rows := 0;
               batch_status := FS_SUCCESS; errors := [] |}) /\
     total_rows out.2 = batch_valid_rows out.2 + batch_flagged_rows out.2) /\
  (forall before row after validated e,
     file_rows = (before ++ row :: after)%list ->
     Forall2 (fun row row' => validate_row self row = Return row') before validated ->
     validate_row self row = Raise e ->
     out = (foldl (fun s r => insert_row s now r) st validated,
            {| batch_id := new_batch_id; started_at := now; completed_at := None;
               file_results := []; total_rows := 0; batch_valid_rows := 0;
               batch_flagged_rows := 0; batch_error_rows := 0;
               batch_status := FS_FAILED; errors := [exn_msg e] |})) /\
  (file_rows = [] \/
   (exists validated,
      Forall2 (fun row row' => validate_row self row = Return row') file_rows validated) \/
   (exists before row after validated e,
      file_rows = (before ++ row :: after)%list /\
      Forall2 (fun row row' => validate_row self row = Return row') before validated /\
      validate_row self row = Raise e)) /\
  files out.1 = files st.
Proof.
  intros file_rows out. subst file_rows out. unfold validate_file.
  destruct (get_rows_by_file st id) as [|row0 rest] eqn:Hrows.
  - split; [done|]. split; [by intros validated []|]. split.
    + intros before row after validated e Heq. by destruct before.
    + split; [by left | done].
  - set (file_rows := row0 :: rest). unfold validate_batch.
    split; [done|]. split; [|split; [|split]].
    + intros validated _ Hall.
      rewrite (validate_batch_from_returns self now file_rows validated st [] [] Hall).
      cbn [app fst snd total_rows batch_valid_rows batch_flagged_rows].
      split; [reflexivity|].
      rewrite <- Nat2Z.inj_add, filter_status_length.
      f_equal. by eapply Forall2_length.
    + intros before row after validated e Heq Hall He. rewrite Heq.
      by rewrite (validate_batch_from_raises self now before after validated row e st [] []
                    Hall He).
    + right. apply validate_rows_cases.
    + destruct (validate_rows_cases self file_rows)
        as [[validated Hall] | (before & row & after & validated & e & Heq & Hall & He)].
      * rewrite (validate_batch_from_returns self now file_rows validated st [] [] Hall).
        apply files_foldl_insert_row.
      * rewrite Heq.
        rewrite (validate_batch_from_raises self now before after validated row e st [] []
                   Hall He).
        apply files_foldl_insert_row.
Qed.

(** ** Duplicate groups (reconciler.py) *)

Lemma indices_from_sorted (k : string) (keys : list string) (start : nat) :
  StronglySorted lt (indices_from k start keys).
Proof.
  revert start. induction keys as [|x rest IH]; intros start; simpl; [constructor|].
  destruct (decide (x = k)); simpl; [|apply IH].
  constructor; [apply IH|].
  apply Forall_forall. intros j Hj. apply indices_from_spec in Hj. lia.
Qed.

Lemma two_members_length (l : list nat) (i j : nat) :
  i <> j -> i ∈ l -> j ∈ l -> (1 < length l)%nat.
Proof.
  destruct l as [|a [|b l]]; simpl; intros Hne Hi Hj.
  - by apply elem_of_nil in Hi.
  - apply list_elem_of_singleton in Hi, Hj. congruence.
  - lia.
Qed.


(** X20: [find_duplicates] returns one group per deduplication key that
    two rows at least share, and no other: the keys of its groups are
    pairwise different, a group lists, in ascending order, exactly the
    positions of the rows with its key, and any two rows with the same
    key are together in the group of that key. *)
Theorem find_duplicates_groups {rt : PyRuntime} (rows : list Row) (key_fields : list string) :
  NoDup (find_duplicates rows key_fields).*1 /\
  (forall k indices, (k, indices) ∈ find_duplicates rows key_fields ->
     (1 < length indices)%nat /\ StronglySorted lt indices /\
     forall j, j ∈ indices <->
               exists r, rows !! j = Some r /\ generate_dedup_key r key_fields = k) /\
  (forall i j ri rj, i <> j -> rows !! i = Some ri -> rows !! j = Some rj ->
     generate_dedup_key ri key_fields = generate_dedup_key rj key_fields ->
     exists indices,
       (generate_dedup_key ri key_fields, indices) ∈ find_duplicates rows key_fields /\
       i ∈ indices /\ j ∈ indices).
Proof.
  unfold find_duplicates.
  set (d := group_rows key_fields [] 0%nat rows).
  set (keys := key_of key_fields <$> rows).
  assert (Hmem : forall k j, j ∈ indices_from k 0 keys <->
            exists r, rows !! j = Some r /\ generate_dedup_key r key_fields = k).
  { intros k j. rewrite indices_from_spec, Nat.sub_0_r. unfold keys.
    rewrite list_lookup_fmap. split.
    - intros [_ Hj]. destruct (rows !! j) as [r|]; [|done].
      exists r. split; [done|]. by injection Hj.
    - intros (r & -> & <-). split; [lia | done]. }
  split; [|split].
  - apply (sublist_NoDup _ d.*1); [apply group_rows_NoDup; constructor|].
    apply fmap_sublist, sublist_filter.
  - intros k indices Hin. apply list_elem_of_filter in Hin as [Hlen Hin].
    apply (group_rows_entry key_fields rows) in Hin. fold keys in Hin. subst indices.
    split; [exact Hlen|]. split; [apply indices_from_sorted | apply Hmem].
  - intros i j ri rj Hne Hi Hj Hsame.
    exists (indices_from (key_of key_fields ri) 0 keys).
    assert (Hii : i ∈ indices_from (key_of key_fields ri) 0 keys)
      by (apply Hmem; by exists ri).
    assert (Hjj : j ∈ indices_from (key_of key_fields ri) 0 keys)
      by (apply Hmem; exists rj; by split).
    split; [|by split].
    apply list_elem_of_filter. split.
    + simpl. by apply (two_members_length _ i j).
    + by apply (group_rows_has_key key_fields rows i).
Qed.

Section UpdateFacts.
Variable upd : string * list nat -> list (nat * violation).
Hypothesis upd_notin : forall g i,
  i ∉ g.2 -> filter (fun u : nat * violation => u.1 = i) (upd g) = [].


End UpdateFacts.



Section MarkAllFacts.
Context {rt : PyRuntime}.


End MarkAllFacts.


(** ** Stored rows (metadata_store.py) *)

#[local] Instance line_le_total : Total line_le.
Proof. intros a b. unfold line_le. lia. Qed.

#[local] Instance line_le_trans : Transitive line_le.
Proof. intros a b c. unfold line_le. lia. Qed.

(** X22: [get_rows_by_file] returns the stored rows of the file and no
    other row, each stored row once, in ascending order of line number. *)
Theorem get_rows_by_file_sorted_and_complete (st : MetadataStore) (id : string) :
  StronglySorted line_le (get_rows_by_file st id) /\
  (forall r, r ∈ get_rows_by_file st id <->
             row_file_id r = id /\ exists k t, rows st !! k = Some (r, t)) /\
  length (get_rows_by_file st id) =
  length (filter (fun kv => row_file_id kv.2.1 = id) (map_to_list (rows st))).
Proof.
  unfold get_rows_by_file. split; [apply StronglySorted_merge_sort; apply _|]. split.
  - intros r. rewrite merge_sort_Permutation, list_elem_of_filter, list_elem_of_fmap.
    split.
    + intros [Hid ([k [r' t]] & -> & Hin)]. split; [done|].
      exists k, t. by apply elem_of_map_to_list in Hin.
    + intros [Hid (k & t & Hk)]. split; [done|].
      exists (k, (r, t)). split; [done|]. by apply elem_of_map_to_list.
  - rewrite merge_sort_Permutation.
    induction (map_to_list (rows st)) as [|kv l IH]; [done|].
    rewrite fmap_cons, !filter_cons. simpl.
    destruct (decide (row_file_id kv.2.1 = id)); simpl; by rewrite IH.
Qed.

(** ** Row identifiers (utils.py) *)

Lemma append_inj_r (p s1 s2 : string) :
  String.append p s1 = String.append p s2 -> s1 = s2.
Proof. induction p as [|c p IH]; simpl; [done|]. intros [= H]. by apply IH. Qed.

Lemma generate_row_id_inj (file_id : string) (m n : Z) :
  generate_row_id file_id m = generate_row_id file_id n -> m = n.
Proof.
  unfold generate_row_id. intros H.
  apply append_inj_r, append_inj_r in H. by apply (inj pretty).
Qed.

(** X23: within one file, [generate_row_id] gives different lines
    different identifiers. *)
Theorem generate_row_id_injective (file_id : string) (m n : Z) :
  generate_row_id file_id m = generate_row_id file_id n <-> m = n.
Proof. split; [apply generate_row_id_inj | by intros ->]. Qed.

(** ** Chunks of stored rows (ingestion_pipeline.py) *)

Lemma chunks_of_concat (n : nat) (fuel : nat) (l : list Row) :
  (0 < n)%nat -> (length l <= fuel)%nat -> concat (chunks_of fuel n l) = l.
Proof.
  intros Hn. revert l. induction fuel as [|fuel IH]; intros l Hlen.
  - destruct l; [done | simpl in Hlen; lia].
  - destruct l as [|r l]; [done|].
    change (take n (r :: l) ++ concat (chunks_of fuel n (drop n (r :: l))) = r :: l)%list.
    rewrite IH; [apply take_drop|].
    rewrite length_drop. simpl in *. lia.
Qed.

Lemma chunks_of_sizes (n : nat) (fuel : nat) (l : list Row) :
  (0 < n)%nat ->
  Forall (fun chunk => 0 < length chunk <= n)%nat (chunks_of fuel n l).
Proof.
  intros Hn. revert l. induction fuel as [|fuel IH]; intros l.
  - destruct l; constructor.
  - destruct l as [|r l]; [constructor|].
    change (Forall (fun chunk => 0 < length chunk <= n)%nat
              (take n (r :: l) :: chunks_of fuel n (drop n (r :: l)))).
    constructor; [|apply IH].
    rewrite length_take. simpl. lia.
Qed.

Lemma chunk_total_from (chunks : list (list Row)) (a : Z) :
  foldl (fun n chunk => n + Z.of_nat (length chunk)) a chunks =
  a + Z.of_nat (length (concat chunks)).
Proof.
  revert a. induction chunks as [|c chunks IH]; intros a; simpl; [lia|].
  rewrite IH, length_app. lia.
Qed.

Lemma chunk_total_concat (chunks : list (list Row)) :
  chunk_total chunks = Z.of_nat (length (concat chunks)).
Proof. unfold chunk_total. by rewrite chunk_total_from. Qed.

(** X24: with a positive chunk size, the iterator [process_file] returns
    for a file it has seen hands back the stored rows in their order, cut
    into chunks that are not empty and hold [chunk_size] rows at most;
    consuming it raises nothing and writes nothing. *)
Theorem cached_rows_are_rechunked (st : MetadataStore) (now : Z)
    (existing_rows : list Row) (n : Z) (Hn : 0 < n) :
  let d := drain st now (CachedRows existing_rows n) in
  dr_error d = None /\ dr_store d = st /\
  concat (dr_chunks d) = existing_rows /\
  Forall (fun chunk => 0 < Z.of_nat (length chunk) <= n) (dr_chunks d) /\
  chunk_total (dr_chunks d) = Z.of_nat (length existing_rows).
Proof.
  unfold drain.
  destruct (Z.eqb_spec n 0) as [->|_]; [lia|].
  destruct (Z.ltb_spec n 0) as [?|_]; [lia|]. cbn [dr_error dr_store dr_chunks].
  assert (Hcat : concat (chunks_of (length existing_rows) (Z.to_nat n) existing_rows)
                 = existing_rows) by (apply chunks_of_concat; lia).
  split; [done|]. split; [done|]. split; [exact Hcat|]. split.
  - eapply Forall_impl; [apply (chunks_of_sizes (Z.to_nat n)); lia|].
    intros chunk. simpl. lia.
  - by rewrite chunk_total_concat, Hcat.
Qed.

Lemma X24_witness :
  let d := drain empty_store 100 (CachedRows repeated_rows 2) in
  dr_error d = None /\ dr_store d = empty_store /\
  concat (dr_chunks d) = repeated_rows /\
  Forall (fun chunk => 0 < Z.of_nat (length chunk) <= 2) (dr_chunks d) /\
  chunk_total (dr_chunks d) = Z.of_nat (length repeated_rows).
Proof. apply (cached_rows_are_rechunked empty_store 100 repeated_rows 2). lia. Defined.

(** X25: with a chunk size that is not positive the stored rows are not
    handed back: the iterator yields no chunk, and consuming it raises
    [ValueError] when the size is zero and nothing when it is negative. *)
Theorem cached_rows_are_lost_without_chunk_size (st : MetadataStore) (now : Z)
    (existing_rows : list Row) (n : Z) (Hn : n <= 0) :
  let d := drain st now (CachedRows existing_rows n) in
  dr_chunks d = [] /\ dr_store d = st /\
  (n = 0 -> dr_error d = Some (Exn ValueError "range() arg 3 must not be zero")) /\
  (n < 0 -> dr_error d = None).
Proof.
  unfold drain.
  destruct (Z.eqb_spec n 0) as [->|Hne]; cbn [dr_error dr_store dr_chunks].
  - split; [done|]. split; [done|]. split; [done | lia].
  - destruct (Z.ltb_spec n 0) as [_|?]; [|lia]. cbn [dr_error dr_store dr_chunks].
    split; [done|]. split; [done|]. split; [lia | done].
Qed.

Lemma X25_witness :
  let d := drain empty_store 100 (CachedRows repeated_rows (-1)) in
  dr_chunks d = [] /\ dr_store d = empty_store /\
  (-1 = 0 -> dr_error d = Some (Exn ValueError "range() arg 3 must not be zero")) /\
  (-1 < 0 -> dr_error d = None).
Proof.
  apply (cached_rows_are_lost_without_chunk_size empty_store 100 repeated_rows (-1)). lia.
Defined.

(** ** First ingestion of a file (ingestion_pipeline.py) *)

Lemma rows_of_chunk_app (m : FileMeta) (n : Z) (a b : list pydict) :
  rows_of_chunk m n (a ++ b) =
  (rows_of_chunk m n a ++ rows_of_chunk m (n + Z.of_nat (length a)) b)%list.
Proof.
  revert n. induction a as [|raw a IH]; intros n.
  - simpl. by rewrite Z.add_0_r.
  - cbn [rows_of_chunk app length]. rewrite IH. do 3 f_equal. lia.
Qed.

Lemma rows_of_chunk_length (m : FileMeta) (n : Z) (a : list pydict) :
  length (rows_of_chunk m n a) = length a.
Proof. revert n. induction a as [|raw a IH]; intros n; simpl; [done | by rewrite IH]. Qed.

(** The loop of [_parse_and_create_rows] stores the rows of all chunks,
    numbered in one sequence, and counts them. *)
Lemma store_chunks_spec (now : Z) (m : FileMeta) (chunks : list (list pydict))
    (st : MetadataStore) (n : Z) :
  (store_chunks st now m n chunks).1.1 =
    foldl (fun s r => insert_row s now r) st (rows_of_chunk m n (concat chunks)) /\
  concat (store_chunks st now m n chunks).1.2 = rows_of_chunk m n (concat chunks) /\
  (store_chunks st now m n chunks).2 = n + Z.of_nat (length (concat chunks)).
Proof.
  revert st n. induction chunks as [|chunk rest IH]; intros st n.
  - simpl. split; [done|]. split; [done | lia].
  - cbn [store_chunks concat].
    specialize (IH (foldl (fun s r => insert_row s now r) st (rows_of_chunk m n chunk))
                   (n + Z.of_nat (length chunk))).
    destruct (store_chunks _ now m _ rest) as [[st'' yielded] n'].
    cbn [fst snd concat] in *. destruct IH as (-> & -> & ->).
    rewrite rows_of_chunk_app, foldl_app, length_app. split; [done|]. split; [done | lia].
Qed.

Lemma rows_foldl_insert_row_other (now : Z) (rs : list Row) (st : MetadataStore)
    (id : string) :
  Forall (fun r => row_id r <> id) rs ->
  rows (foldl (fun s r => insert_row s now r) st rs) !! id = rows st !! id.
Proof.
  revert st. induction rs as [|r rs IH]; intros st Hrs; [done|].
  apply Forall_cons in Hrs as [Hr Hrs]. simpl. rewrite IH by done.
  simpl. by rewrite lookup_insert_ne.
Qed.

Lemma rows_of_chunk_ids (m : FileMeta) (n : Z) (raws : list pydict) (k : Z) :
  k <= n ->
  Forall (fun r => row_id r <> generate_row_id (file_id m) k) (rows_of_chunk m n raws).
Proof.
  revert n. induction raws as [|raw raws IH]; intros n Hk; simpl; constructor.
  - simpl. intros H. apply generate_row_id_inj in H. lia.
  - apply IH. lia.
Qed.

Lemma rows_foldl_insert_row_lookup (now : Z) (m : FileMeta) (raws : list pydict)
    (st : MetadataStore) (n : Z) (i : nat) (raw : pydict) :
  raws !! i = Some raw ->
  rows (foldl (fun s r => insert_row s now r) st (rows_of_chunk m n raws))
    !! generate_row_id (file_id m) (n + Z.of_nat i + 1) =
  Some (new_row m (n + Z.of_nat i + 1) raw, now).
Proof.
  revert st n i. induction raws as [|x raws IH]; intros st n i Hi; [done|].
  destruct i as [|i]; cbn [rows_of_chunk foldl].
  - injection Hi as ->. rewrite rows_foldl_insert_row_other.
    + simpl. rewrite Z.add_0_r. apply lookup_insert_eq.
    + apply rows_of_chunk_ids. lia.
  - simpl in Hi.
    replace (n + Z.of_nat (S i) + 1) with (n + 1 + Z.of_nat i + 1) by lia.
    by apply IH.
Qed.

(** X26: the first ingestion of a file that a parser handles and parses
    to the end.  After [process_directory] the file's record is [SUCCESS]
    with the number of parsed rows as its row count, the batch reports
    that record, that many rows, no error and [SUCCESS], and the store
    holds every parsed row under the identifier of its line, lines being
    numbered from 1 across the chunks, as a [PENDING] row with the raw
    data the parser gave. *)
Theorem first_ingestion_stores_every_row {rt : PyRuntime}
    (self : IngestionPipeline) (st : MetadataStore) (now : Z) (batch : string)
    (f : SourceFile)
    (Hnew : already_processed (get_file st (file_key f)) = false)
    (Hfmt : detect f ∈ PARSERS)
    (Hok : sf_parse_error f = None) :
  let out := process_directory self st now batch [f] in
  let raws := concat (sf_chunks f) in
  let record :=
    with_row_count
      (with_processed_at
         (with_status (with_status (fetch (archive_dir self) now f) FS_PROCESSING)
                      FS_SUCCESS) now)
      (Z.of_nat (length raws)) in
  get_file out.1 (file_key f) = Some record /\
  status record = FS_SUCCESS /\
  file_results out.2 = [record] /\
  total_rows out.2 = Z.of_nat (length raws) /\
  errors out.2 = [] /\
  batch_status out.2 = FS_SUCCESS /\
  forall i raw, raws !! i = Some raw ->
    get_row out.1 (generate_row_id (file_key f) (Z.of_nat i + 1)) =
    Some (new_row record (Z.of_nat i + 1) raw).
Proof.
  intros out raws record. subst out.
  unfold process_directory. cbn -[drain process_file].
  rewrite (process_file_fresh self st now f Hnew). cbn -[drain].
  set (pending := with_status (fetch (archive_dir self) now f) FS_PROCESSING).
  set (done := with_processed_at (with_status pending FS_SUCCESS) now).
  set (st1 := insert_file (insert_file st pending) done).
  unfold drain. rewrite bool_decide_true by done.
  destruct (store_chunks_spec now done (sf_chunks f) st1 0) as (Hst & Hyield & Hcount).
  destruct (store_chunks st1 now done 0 (sf_chunks f)) as [[st' yielded] n].
  cbn [fst snd] in Hst, Hyield, Hcount. rewrite Hok.
  cbn [dr_store dr_chunks dr_meta dr_error fst snd default file_results total_rows
       errors batch_status app].
  fold raws in Hst, Hyield, Hcount. rewrite Z.add_0_l in Hcount. subst n.
  fold record.
  split; [apply (get_file_insert_file st' record)|]. split; [done|].
  split; [done|]. split.
  { rewrite chunk_total_concat, Hyield, rows_of_chunk_length. lia. }
  split; [done|]. split; [done|].
  intros i raw Hi. unfold get_row. cbn [insert_file rows]. rewrite Hst.
  change (file_key f) with (file_id done).
  pose proof (rows_foldl_insert_row_lookup now done raws st1 0 i raw Hi) as Hrow.
  rewrite Z.add_0_l in Hrow. rewrite Hrow. reflexivity.
Qed.

Lemma X26_witness :
  in_every_runtime (fun rt =>
    let out := process_directory sample_pipeline empty_store 100 "batch_1" [orders_csv] in
    let raws := concat (sf_chunks orders_csv) in
    let record :=
      with_row_count
        (with_processed_at
           (with_status (with_status (fetch (archive_dir sample_pipeline) 100 orders_csv)
                                     FS_PROCESSING)
                        FS_SUCCESS) 100)
        (Z.of_nat (length raws)) in
    get_file out.1 (file_key orders_csv) = Some record /\
    status record = FS_SUCCESS /\
    file_results out.2 = [record] /\
    total_rows out.2 = Z.of_nat (length raws) /\
    errors out.2 = [] /\
    batch_status out.2 = FS_SUCCESS /\
    forall i raw, raws !! i = Some raw ->
      get_row out.1 (generate_row_id (file_key orders_csv) (Z.of_nat i + 1)) =
      Some (new_row record (Z.of_nat i + 1) raw)).
Proof.
  intros rt.
  apply (first_ingestion_stores_every_row sample_pipeline empty_store 100 "batch_1"
           orders_csv).
  - reflexivity.
  - apply (bool_decide_unpack _). vm_compute. reflexivity.
  - reflexivity.
Defined.

(** ** Batches of the normalization pipeline (normalization_pipeline.py) *)

Lemma map_rows_normalized {rt : PyRuntime} (mapper : FieldMapper) (batch : list Row) :
  map_rows mapper ((fun row => set_normalized row (normalize_row (raw_data row))) <$> batch) =
  process_rows mapper batch.
Proof.
  revert mapper. induction batch as [|row rest IH]; intros mapper; [done|].
  rewrite fmap_cons. cbn [map_rows process_rows]. unfold process_row.
  destruct (map_row mapper (set_normalized row (normalize_row (raw_data row))))
    as [[mapper' [canonical conf]]|e]; [|done].
  cbn [bind]. rewrite IH. reflexivity.
Qed.

(** X27: [process_batch], which normalizes every row, then maps every
    row, then stores every row, gives each row what [process_row] gives
    it when the rows are processed one after the other with the same
    mapper, and raises when one of them raises; it stores exactly these
    rows, in their order, leaves the file records alone, and keeps the
    identifier, the raw data and the status of every row. *)
Theorem process_batch_is_process_row_on_each {rt : PyRuntime}
    (mapper : FieldMapper) (st : MetadataStore) (now : Z) (batch : list Row) :
  process_batch mapper st now batch =
  (let! (mapper', processed) := process_rows mapper batch in
   Return (mapper', foldl (fun s r => insert_row s now r) st processed, processed)) /\
  (forall mapper' st' processed,
     process_batch mapper st now batch = Return (mapper', st', processed) ->
     length processed = length batch /\ files st' = files st /\
     Forall2 (fun row row' => row_id row' = row_id row /\ raw_data row' = raw_data row /\
                              normalized_data row' = normalize_row (raw_data row) /\
                              row_status row' = row_status row)
             batch processed).
Proof.
  assert (Hrun : process_batch mapper st now batch =
    (let! (mapper', processed) := process_rows mapper batch in
     Return (mapper', foldl (fun s r => insert_row s now r) st processed, processed))).
  { unfold process_batch. by rewrite map_rows_normalized. }
  split; [exact Hrun|]. rewrite Hrun. clear Hrun.
  intros mapper' st' processed.
  destruct (process_rows mapper batch) as [[mapper1 rows1]|e] eqn:Hrows; [|done].
  cbn [bind]. intros [= <- <- <-].
  assert (Hall : Forall2 (fun row row' => row_id row' = row_id row /\
                            raw_data row' = raw_data row /\
                            normalized_data row' = normalize_row (raw_data row) /\
                            row_status row' = row_status row) batch rows1).
  { clear st. revert mapper rows1 Hrows.
    induction batch as [|row rest IH]; intros mapper rows1.
    - intros [= <- <-]. constructor.
    - cbn [process_rows]. unfold process_row.
      destruct (map_row mapper (set_normalized row (normalize_row (raw_data row))))
        as [[mapper2 [canonical conf]]|e]; [|done].
      cbn [bind].
      destruct (process_rows mapper2 rest) as [[mapper3 rest']|e] eqn:Hrest; [|done].
      cbn [bind]. intros [= <- <-]. constructor; [done|]. by apply (IH mapper2). }
  split; [symmetry; by eapply Forall2_length|].
  split; [apply files_foldl_insert_row | exact Hall].
Qed.
